(** * Booking API service (clipper-dashboard-go): handlers of backend/main.go

    A shallow embedding of the HTTP handlers of [backend/main.go] over an
    explicit model of what they talk to: the PostgreSQL tables of
    [schema.sql] (courts, booking_hours, clips), the upload directory, and
    the Go library calls they make (strconv.Atoi, strings.Split,
    strings.ToLower, filepath.Ext, filepath.Join, time.Format,
    encoding/json, net/http multipart parsing).

    Conventions of the model.
    - A Go [string] is a [string] of bytes, read as UTF-8 where the code
      or the store reads text.  The Unicode case tables of Go and the
      case mapping of the database locale are not in the repository:
      they are parameters ([unicode_ToLower], [pg_towlower] in [Env]),
      consulted for code points beyond ASCII only.
    - A Go [int] is a [Z]; strconv.Atoi enforces the 64-bit range.
    - A [time.Time] is its instant (nanoseconds since the zero time)
      together with its calendar reading, which is what [Format] prints.
    - The store is a PostgreSQL database in UTF-8 with the tables of
      [schema.sql]: it refuses a parameter outside the 32-bit INTEGER
      range, a text that is not UTF-8 or holds a NUL, a value too long
      for its VARCHAR(n) column, a duplicate key, a dangling reference
      and an id beyond the end of a sequence.
    - What the source cannot decide is an input: [Env] carries the
      process environment, the clock, the faults of the driver and of
      the file system, and what a TIMESTAMP WITH TIME ZONE column gives
      back of a time value. *)

From Stdlib Require Import ZArith String Ascii List Bool Lia DecimalString Sorted.
From stdpp Require Import gmap strings.

Open Scope string_scope.
Open Scope Z_scope.

(** ** Go library functions used by the handlers *)

Module Go.

(** A Go slice value: the nil slice is distinct from an allocated slice
    of length 0; [append] allocates. *)
Inductive slice (A : Type) : Type :=
| NilSlice
| Slice (elems : list A).
Arguments NilSlice {A}.
Arguments Slice {A} elems.

Definition elems {A} (s : slice A) : list A :=
  match s with NilSlice => [] | Slice l => l end.

Definition append {A} (s : slice A) (x : A) : slice A :=
  Slice (elems s ++ [x]).

Definition len {A} (s : slice A) : Z := Z.of_nat (length (elems s)).

(** [for rows.Next() { ...; s = append(s, row) }] starting from
    [var s []T]. *)
Definition collect {A} (rows : list A) : slice A :=
  fold_left append rows NilSlice.

(** Lower case of an ASCII letter, on a byte and on a string of bytes
    (bytes above 127 are left alone). *)
Definition lower_byte (c : ascii) : ascii :=
  let n := N_of_ascii c in
  if ((65 <=? n) && (n <=? 90))%N then ascii_of_N (n + 32) else c.

Fixpoint lowerASCII (s : string) : string :=
  match s with
  | EmptyString => EmptyString
  | String c r => String (lower_byte c) (lowerASCII r)
  end.

(** *** unicode/utf8 *)

Definition RuneError : N := 65533.

(** A continuation byte. *)
Definition cont (b : N) : bool := ((128 <=? b) && (b <=? 191))%N.

(** The lead bytes of sequences of 2, 3 and 4 bytes. *)
Definition lead2 (b0 : N) : bool := ((194 <=? b0) && (b0 <=? 223))%N.
Definition lead3 (b0 : N) : bool := ((224 <=? b0) && (b0 <=? 239))%N.
Definition lead4 (b0 : N) : bool := ((240 <=? b0) && (b0 <=? 244))%N.

(** The range the second byte must be in, by lead byte (no overlong
    form, no surrogate, nothing beyond U+10FFFF). *)
Definition second_ok (b0 b1 : N) : bool :=
  let lo := if (b0 =? 224)%N then 160%N else if (b0 =? 240)%N then 144%N
            else 128%N in
  let hi := if (b0 =? 237)%N then 159%N else if (b0 =? 244)%N then 143%N
            else 191%N in
  ((lo <=? b1) && (b1 <=? hi))%N.

Definition rune2 (b0 b1 : N) : N := ((b0 - 192) * 64 + (b1 - 128))%N.
Definition rune3 (b0 b1 b2 : N) : N :=
  ((b0 - 224) * 4096 + (b1 - 128) * 64 + (b2 - 128))%N.
Definition rune4 (b0 b1 b2 b3 : N) : N :=
  ((b0 - 240) * 262144 + (b1 - 128) * 4096 + (b2 - 128) * 64 + (b3 - 128))%N.

(** utf8.DecodeRuneInString along the string: the code points, [None]
    for a byte that starts no well-formed sequence (it is skipped alone,
    Go reads it as RuneError). *)
Fixpoint decode (s : string) : list (option N) :=
  match s with
  | EmptyString => []
  | String c0 r0 =>
      let b0 := N_of_ascii c0 in
      if (b0 <? 128)%N then Some b0 :: decode r0
      else
        match r0 with
        | EmptyString => [None]
        | String c1 r1 =>
            let b1 := N_of_ascii c1 in
            if lead2 b0 && second_ok b0 b1 then Some (rune2 b0 b1) :: decode r1
            else
              match r1 with
              | EmptyString => None :: decode r0
              | String c2 r2 =>
                  let b2 := N_of_ascii c2 in
                  if lead3 b0 && second_ok b0 b1 && cont b2
                  then Some (rune3 b0 b1 b2) :: decode r2
                  else
                    match r2 with
                    | EmptyString => None :: decode r0
                    | String c3 r3 =>
                        let b3 := N_of_ascii c3 in
                        if lead4 b0 && second_ok b0 b1 && cont b2 && cont b3
                        then Some (rune4 b0 b1 b2 b3) :: decode r3
                        else None :: decode r0
                    end
              end
        end
  end.

(** The runes a [range] over the string yields. *)
Definition runes (s : string) : list N := map (default RuneError) (decode s).

(** utf8.ValidString. *)
Definition ValidString (s : string) : bool :=
  forallb (fun r => match r with Some _ => true | None => false end) (decode s).

Definition byte (n : N) : string := String (ascii_of_N n) EmptyString.

(** utf8.AppendRune: surrogates and values beyond U+10FFFF are written
    as RuneError. *)
Definition encode_rune (r : N) : string :=
  if (r <? 128)%N then byte r
  else if (r <? 2048)%N then byte (192 + r / 64) ++ byte (128 + r mod 64)
  else if ((1114111 <? r) || ((55296 <=? r) && (r <=? 57343)))%N
       then byte 239 ++ byte 191 ++ byte 189
  else if (r <? 65536)%N
       then byte (224 + r / 4096) ++ byte (128 + (r / 64) mod 64)
              ++ byte (128 + r mod 64)
  else byte (240 + r / 262144) ++ byte (128 + (r / 4096) mod 64)
         ++ byte (128 + (r / 64) mod 64) ++ byte (128 + r mod 64).

(** *** strings.ToLower

    [unicode.ToLower] on a rune: the ASCII letters by rule, every other
    code point by the Unicode tables, which are the parameter [table]. *)
Definition lower_rune (table : N -> N) (r : N) : N :=
  if (r <? 128)%N then (if ((65 <=? r) && (r <=? 90))%N then r + 32 else r)%N
  else table r.

(** strings.ToLower: every rune mapped and written back (a byte that is
    not UTF-8 is read as RuneError, as strings.Map does). *)
Definition ToLower (table : N -> N) (s : string) : string :=
  String.concat "" (map (fun r => encode_rune (lower_rune table r)) (runes s)).

(** strings.Split(s, sep) for a one-byte separator: one field per
    separator, empty fields kept.  [cur] is the field being read. *)
Fixpoint split_from (sep : ascii) (cur : string) (s : string) : list string :=
  match s with
  | EmptyString => [cur]
  | String c r =>
      if Ascii.eqb c sep then cur :: split_from sep EmptyString r
      else split_from sep (cur ++ String c EmptyString) r
  end.

Definition Split (s : string) (sep : ascii) : list string :=
  split_from sep EmptyString s.

(** filepath.Ext: the suffix starting at the last dot of the last path
    element, empty when that element has no dot.  [ext_scan] reads the
    string left to right and keeps the candidate found so far. *)
Fixpoint ext_scan (s : string) (found : string) : string :=
  match s with
  | EmptyString => found
  | String c r =>
      if Ascii.eqb c "/" then ext_scan r EmptyString
      else if Ascii.eqb c "." then ext_scan r s
      else ext_scan r found
  end.

Definition Ext (path : string) : string := ext_scan path EmptyString.

(** Decimal rendering of an int ([%d], strconv.Itoa). *)
Definition Itoa (n : Z) : string := NilZero.string_of_int (Z.to_int n).

(** strconv.Atoi: optional sign, at least one decimal digit, nothing
    else, value inside the 64-bit range. *)
Definition digit_of (c : ascii) : option Z :=
  let n := N_of_ascii c in
  if ((48 <=? n) && (n <=? 57))%N then Some (Z.of_N (n - 48)) else None.

Fixpoint digits_val (s : string) (acc : Z) : option Z :=
  match s with
  | EmptyString => Some acc
  | String c r =>
      match digit_of c with
      | Some d => digits_val r (10 * acc + d)
      | None => None
      end
  end.

Definition in_int64 (n : Z) : bool :=
  (- 9223372036854775808 <=? n) && (n <=? 9223372036854775807).

Definition unsigned_val (s : string) : option Z :=
  match s with
  | EmptyString => None
  | _ => digits_val s 0
  end.

Definition Atoi (s : string) : option Z :=
  let v :=
    match s with
    | String "+" r => unsigned_val r
    | String "-" r => option_map Z.opp (unsigned_val r)
    | _ => unsigned_val s
    end in
  match v with
  | Some n => if in_int64 n then Some n else None
  | None => None
  end.

(** A [time.Time]: the instant (nanoseconds since the zero time) and
    its calendar reading in the value's location. *)
Record Time := {
  instant : Z;
  year : Z; month : Z; day : Z;
  hour : Z; minute : Z; second : Z
}.

Definition IsZero (t : Time) : bool := instant t =? 0.

(** The zero value of [time.Time]: January 1, year 1, 00:00:00 UTC. *)
Definition zeroTime : Time :=
  {| instant := 0; year := 1; month := 1; day := 1;
     hour := 0; minute := 0; second := 0 |}.

(** time's appendInt: sign, then the decimal digits zero-padded to
    [width]. *)
Definition zeros (n : nat) : string :=
  string_of_list_ascii (repeat "0"%char n).

Definition appendInt (x : Z) (width : nat) : string :=
  let digits := NilZero.string_of_uint (N.to_uint (Z.abs_N x)) in
  (if x <? 0 then "-" else "") ++
  zeros (width - String.length digits) ++ digits.

(** [t.Format("20060102_150405")]. *)
Definition Format_20060102_150405 (t : Time) : string :=
  appendInt (year t) 4 ++ appendInt (month t) 2 ++ appendInt (day t) 2
    ++ "_"
    ++ appendInt (hour t) 2 ++ appendInt (minute t) 2 ++ appendInt (second t) 2.

(** filepath.Clean on a slash-separated path: empty and "." elements
    go, ".." removes the element before it when there is one to remove.
    [out] is the stack of kept elements, last one first. *)
Definition clean_step (rooted : bool) (out : list string) (comp : string)
  : list string :=
  if String.eqb comp "" || String.eqb comp "." then out
  else if String.eqb comp ".." then
    match out with
    | top :: rest => if String.eqb top ".." then comp :: out else rest
    | [] => if rooted then [] else [comp]
    end
  else comp :: out.

Definition Clean (path : string) : string :=
  match path with
  | EmptyString => "."
  | String c _ =>
      let rooted := Ascii.eqb c "/" in
      let out := fold_left (clean_step rooted) (Split path "/") [] in
      let body := String.concat "/" (rev out) in
      if rooted then "/" ++ body
      else if String.eqb body "" then "." else body
  end.

(** filepath.Join of two elements. *)
Definition Join (a b : string) : string :=
  if String.eqb a "" then (if String.eqb b "" then "" else Clean b)
  else Clean (a ++ "/" ++ b).

End Go.

Import Go.

(** ** Models (the structs of main.go) *)

Record Court := {
  Court_ID : Z;
  Court_Name : string;
  Court_Description : option string;
  Court_IsActive : bool;
  Court_CreatedAt : Time;
  Court_UpdatedAt : Time
}.

Record BookingHour := {
  BookingHour_ID : Z;
  BookingHour_CourtID : Z;
  BookingHour_DateStart : Time;
  BookingHour_DateEnd : Time;
  BookingHour_Status : string;
  BookingHour_CreatedAt : Time;
  BookingHour_UpdatedAt : Time
}.

Record Clip := {
  Clip_ID : Z;
  Clip_BookingHourID : Z;
  Clip_Filename : string;
  Clip_FilePath : string;
  Clip_FileSize : option Z;
  Clip_MimeType : option string;
  Clip_Duration : option Z;
  Clip_CameraName : option string;
  Clip_UploadStatus : string;
  Clip_CreatedAt : Time;
  Clip_UpdatedAt : Time
}.

Record Config := {
  DBHost : string; DBPort : string; DBUser : string; DBPassword : string;
  DBName : string; ServerPort : string; UploadDir : string
}.

Definition getEnv (environ : gmap string string) (key defaultValue : string)
  : string :=
  match environ !! key with
  | Some value => if String.eqb value "" then defaultValue else value
  | None => defaultValue
  end.

Definition loadConfig (environ : gmap string string) : Config := {|
  DBHost := getEnv environ "DB_HOST" "localhost";
  DBPort := getEnv environ "DB_PORT" "5432";
  DBUser := getEnv environ "DB_USER" "postgres";
  DBPassword := getEnv environ "DB_PASSWORD" "password";
  DBName := getEnv environ "DB_NAME" "cctv_system";
  ServerPort := getEnv environ "SERVER_PORT" "5009";
  UploadDir := getEnv environ "UPLOAD_DIR" "./uploads"
|}.

(** ** The store: the tables of schema.sql and the statements the
       handlers send *)

Module Pg.

(** An error of the driver: a [*pq.Error] carries the SQLSTATE code;
    [Text] is what [err.Error()] prints. *)
Record Error := { Code : option string; Text : string }.

Definition quoted (s : string) : string :=
  String (ascii_of_nat 34) EmptyString ++ s ++ String (ascii_of_nat 34) EmptyString.

Definition unique_violation (constraint : string) : Error :=
  {| Code := Some "23505";
     Text := "pq: duplicate key value violates unique constraint "
               ++ quoted constraint |}.

Definition foreign_key_violation (table constraint : string) : Error :=
  {| Code := Some "23503";
     Text := "pq: insert or update on table " ++ quoted table
               ++ " violates foreign key constraint " ++ quoted constraint |}.

Definition numeric_value_out_of_range (n : Z) : Error :=
  {| Code := Some "22003";
     Text := "pq: value " ++ quoted (Itoa n)
               ++ " is out of range for type integer" |}.

Definition character_not_in_repertoire (bytes : string) : Error :=
  {| Code := Some "22021";
     Text := "pq: invalid byte sequence for encoding " ++ quoted "UTF8"
               ++ ": " ++ bytes |}.

Definition string_data_right_truncation (n : nat) : Error :=
  {| Code := Some "22001";
     Text := "pq: value too long for type character varying("
               ++ Itoa (Z.of_nat n) ++ ")" |}.

Definition sequence_generator_limit_exceeded (sequence : string) : Error :=
  {| Code := Some "2200H";
     Text := "pq: nextval: reached maximum value of sequence "
               ++ quoted sequence ++ " (2147483647)" |}.

(** What a statement returns when the driver itself fails first. *)
Definition answer {A} (fault : option Error) (r : Error + A) : Error + A :=
  match fault with
  | Some err => inl err
  | None => r
  end.

Definition first_error (checks : list (option Error)) : option Error :=
  fold_right (fun c rest => match c with Some err => Some err | None => rest end)
    None checks.

(** *** Parameters and column types (schema.sql)

    The parameters of a statement are read when it is bound, in their
    order, and converted to the column types when it is planned; both
    happen before the statement runs, so a statement refused there has
    changed nothing, not even a sequence.

    INTEGER and SERIAL are 32-bit: a parameter compared with or stored
    in such a column is refused outside that range. *)
Definition int4 (n : Z) : bool := (- 2147483648 <=? n) && (n <=? 2147483647).

Definition integer (n : Z) : option Error :=
  if int4 n then None else Some (numeric_value_out_of_range n).

(** A text parameter must be well-formed UTF-8 (the encoding of the
    session, and here of the database) and hold no NUL. *)
Definition valid_text (s : string) : bool :=
  forallb (fun r => match r with
                    | Some n => negb (n =? 0)%N
                    | None => false
                    end) (decode s).

(** The detail of the message: the bytes of the first character that is
    refused, as many as its first byte announces, in hexadecimal. *)
Definition mblen (b0 : N) : nat :=
  if (b0 <? 192)%N then 1
  else if (b0 <? 224)%N then 2
  else if (b0 <? 240)%N then 3
  else if (b0 <? 248)%N then 4
  else 1.

Definition hex_digit (n : N) : ascii :=
  ascii_of_N (if (n <? 10)%N then 48 + n else 87 + n).

Definition hex_byte (c : ascii) : string :=
  "0x" ++ String (hex_digit (N_of_ascii c / 16))
            (String (hex_digit (N_of_ascii c mod 16)) EmptyString).

Definition hex_bytes (s : string) : string :=
  match s with
  | EmptyString => EmptyString
  | String c0 _ =>
      String.concat " "
        (map hex_byte (firstn (mblen (N_of_ascii c0)) (list_ascii_of_string s)))
  end.

Fixpoint refused_from (s : string) : string :=
  match s with
  | EmptyString => EmptyString
  | String c0 r0 =>
      let b0 := N_of_ascii c0 in
      if (b0 =? 0)%N then s
      else if (b0 <? 128)%N then refused_from r0
      else
        match r0 with
        | EmptyString => s
        | String c1 r1 =>
            let b1 := N_of_ascii c1 in
            if lead2 b0 && second_ok b0 b1 then refused_from r1
            else
              match r1 with
              | EmptyString => s
              | String c2 r2 =>
                  let b2 := N_of_ascii c2 in
                  if lead3 b0 && second_ok b0 b1 && cont b2 then refused_from r2
                  else
                    match r2 with
                    | EmptyString => s
                    | String c3 r3 =>
                        let b3 := N_of_ascii c3 in
                        if lead4 b0 && second_ok b0 b1 && cont b2 && cont b3
                        then refused_from r3
                        else s
                    end
              end
        end
  end.

Definition text (s : string) : option Error :=
  if valid_text s then None
  else Some (character_not_in_repertoire (hex_bytes (refused_from s))).

Definition text_opt (s : option string) : option Error :=
  match s with Some s => text s | None => None end.

(** VARCHAR(n) counts characters.  A longer value is refused, unless
    all that is beyond the first [n] characters is spaces: then these
    [n] characters are stored. *)
Definition char_length (s : string) : nat := length (decode s).

Definition varchar (n : nat) (s : string) : option Error :=
  if forallb (fun r => (r =? 32)%N) (skipn n (runes s)) then None
  else Some (string_data_right_truncation n).

Definition varchar_opt (n : nat) (s : option string) : option Error :=
  match s with Some s => varchar n s | None => None end.

(** What the column holds of an accepted value. *)
Definition stored (n : nat) (s : string) : string :=
  if (char_length s <=? n)%nat then s
  else String.concat "" (map encode_rune (firstn n (runes s))).

(** *** Sequences

    The sequence of a SERIAL column counts up to the largest INTEGER;
    [last_value] is the value drawn last. *)
Definition nextval (sequence : string) (last_value : Z) : Error + Z :=
  if last_value <? 2147483647 then inr (last_value + 1)
  else inl (sequence_generator_limit_exceeded sequence).

(** *** LIKE and ILIKE

    The characters LIKE does not take literally: percent, underscore,
    backslash. *)
Definition special (r : N) : bool := ((r =? 37) || (r =? 95) || (r =? 92))%N.

(** LIKE on characters: [%] matches any run of characters, [_] any one
    character, a backslash makes the next pattern character literal.  (A
    pattern that ends in a lone backslash is an error in PostgreSQL; it
    is no match here, and no pattern built by the handlers ends that
    way.) *)
Fixpoint like_match (p s : list N) : bool :=
  match p with
  | [] => match s with [] => true | _ => false end
  | c :: p' =>
      if (c =? 37)%N then
        (fix any (s : list N) : bool :=
           like_match p' s
           || match s with
              | [] => false
              | _ :: s' => any s'
              end) s
      else if (c =? 95)%N then
        match s with
        | [] => false
        | _ :: s' => like_match p' s'
        end
      else if (c =? 92)%N then
        match p' with
        | [] => false
        | c2 :: p'' =>
            match s with
            | [] => false
            | d :: s' => (c2 =? d)%N && like_match p'' s'
            end
        end
      else
        match s with
        | [] => false
        | d :: s' => (c =? d)%N && like_match p' s'
        end
  end.

(** The pattern ends in a backslash that escapes nothing. *)
Fixpoint dangling_escape (p : list N) : bool :=
  match p with
  | [] => false
  | c :: p' =>
      if (c =? 92)%N then
        match p' with
        | [] => true
        | _ :: p'' => dangling_escape p''
        end
      else dangling_escape p'
  end.

(** Lower case of a character as ILIKE takes it in a UTF-8 database:
    character by character.  The ASCII letters fold as in C (so in every
    locale but the Turkic ones, which give the capital I no dot); the
    other characters fold by the [towlower] of the database locale, the
    identity in the C locale.  Of [towlower] only a character beyond
    ASCII or an ASCII lower-case letter is taken (U+212A gives k): no
    locale folds a letter to a digit or a sign. *)
Definition lower_char (towlower : N -> N) (r : N) : N :=
  if (r <? 128)%N then (if ((65 <=? r) && (r <=? 90))%N then r + 32 else r)%N
  else
    let l := towlower r in
    if ((l <? 128) && negb ((97 <=? l) && (l <=? 122)))%N then r else l.

Definition lower (towlower : N -> N) (s : string) : list N :=
  map (lower_char towlower) (runes s).

(** [s ILIKE p] for a parameter [p]: LIKE after lower-casing both sides.
    A parameter that is not text is refused when it is bound and matches
    nothing. *)
Definition ILIKE (towlower : N -> N) (s p : string) : bool :=
  valid_text p && like_match (lower towlower p) (lower towlower s).

(** [ORDER BY key DESC].  PostgreSQL leaves the order of rows with equal
    keys open; here they stay in table order. *)
Fixpoint insert_desc {A} (key : A -> Z) (x : A) (l : list A) : list A :=
  match l with
  | [] => [x]
  | y :: r => if key x <? key y then y :: insert_desc key x r else x :: l
  end.

Definition order_by_desc {A} (key : A -> Z) (l : list A) : list A :=
  fold_right (insert_desc key) [] l.

(** *** The tables *)

Record DB := {
  courts : list Court;
  courts_id_seq : Z;
  booking_hours : list BookingHour;
  booking_hours_id_seq : Z;
  clips : list Clip;
  clips_id_seq : Z
}.

(** SELECT ... FROM courts WHERE name ILIKE $1 AND is_active = true *)
Definition select_courts_by_name (towlower : N -> N) (d : DB)
    (pattern : string) : Error + list Court :=
  match text pattern with
  | Some err => inl err
  | None =>
      inr (List.filter
             (fun c => ILIKE towlower (Court_Name c) pattern && Court_IsActive c)
             (courts d))
  end.

(** SELECT ... FROM courts WHERE is_active = true *)
Definition select_courts (d : DB) : list Court :=
  List.filter (fun c => Court_IsActive c) (courts d).

(** INSERT INTO courts (name, description, is_active) VALUES ($1, $2, true)
    RETURNING id, created_at, updated_at; id SERIAL PRIMARY KEY, name
    VARCHAR(255) NOT NULL UNIQUE.  The id is drawn when the row is built,
    before the two unique indexes are consulted, so an insert they refuse
    still consumes an id. *)
Definition insert_court (now : Time) (name : string)
    (description : option string) (d : DB)
  : DB * (Error + Z * Time * Time) :=
  match first_error [text name; text_opt description; varchar 255 name] with
  | Some err => (d, inl err)
  | None =>
      match nextval "courts_id_seq" (courts_id_seq d) with
      | inl err => (d, inl err)
      | inr id =>
          let drawn :=
            {| courts := courts d; courts_id_seq := id;
               booking_hours := booking_hours d;
               booking_hours_id_seq := booking_hours_id_seq d;
               clips := clips d; clips_id_seq := clips_id_seq d |} in
          if existsb (fun c => Court_ID c =? id) (courts d) then
            (drawn, inl (unique_violation "courts_pkey"))
          else if existsb (fun c => String.eqb (Court_Name c) (stored 255 name))
                    (courts d)
          then (drawn, inl (unique_violation "courts_name_key"))
          else
            let row := {| Court_ID := id; Court_Name := stored 255 name;
                          Court_Description := description;
                          Court_IsActive := true;
                          Court_CreatedAt := now; Court_UpdatedAt := now |} in
            ({| courts := courts d ++ [row]; courts_id_seq := id;
                booking_hours := booking_hours d;
                booking_hours_id_seq := booking_hours_id_seq d;
                clips := clips d; clips_id_seq := clips_id_seq d |},
             inr (id, now, now))
      end
  end.

(** SELECT EXISTS(SELECT 1 FROM courts WHERE id = $1 AND is_active = true) *)
Definition court_exists_active (d : DB) (id : Z) : Error + bool :=
  match integer id with
  | Some err => inl err
  | None =>
      inr (existsb (fun c => (Court_ID c =? id) && Court_IsActive c) (courts d))
  end.

(** SELECT ... FROM booking_hours [WHERE court_id = $1]
    ORDER BY date_start DESC *)
Definition select_booking_hours (d : DB) (court_id : option Z)
  : Error + list BookingHour :=
  match court_id with
  | Some id =>
      match integer id with
      | Some err => inl err
      | None =>
          inr (order_by_desc (fun b => instant (BookingHour_DateStart b))
                 (List.filter (fun b => BookingHour_CourtID b =? id)
                    (booking_hours d)))
      end
  | None =>
      inr (order_by_desc (fun b => instant (BookingHour_DateStart b))
             (booking_hours d))
  end.

(** INSERT INTO booking_hours (court_id, date_start, date_end, status)
    VALUES ($1, $2, $3, $4) RETURNING id, created_at, updated_at;
    id SERIAL PRIMARY KEY, court_id INTEGER REFERENCES courts(id),
    date_start and date_end TIMESTAMP WITH TIME ZONE, status VARCHAR(50).
    [timestamptz] is what such a column keeps of a time value and the
    driver reads back.  The reference is checked last. *)
Definition insert_booking_hour (timestamptz : Time -> Time) (now : Time)
    (court_id : Z) (date_start date_end : Time) (status : string) (d : DB)
  : DB * (Error + Z * Time * Time) :=
  match first_error [integer court_id; text status; varchar 50 status] with
  | Some err => (d, inl err)
  | None =>
      match nextval "booking_hours_id_seq" (booking_hours_id_seq d) with
      | inl err => (d, inl err)
      | inr id =>
          let drawn :=
            {| courts := courts d; courts_id_seq := courts_id_seq d;
               booking_hours := booking_hours d; booking_hours_id_seq := id;
               clips := clips d; clips_id_seq := clips_id_seq d |} in
          if existsb (fun b => BookingHour_ID b =? id) (booking_hours d) then
            (drawn, inl (unique_violation "booking_hours_pkey"))
          else if existsb (fun c => Court_ID c =? court_id) (courts d) then
            let row := {| BookingHour_ID := id; BookingHour_CourtID := court_id;
                          BookingHour_DateStart := timestamptz date_start;
                          BookingHour_DateEnd := timestamptz date_end;
                          BookingHour_Status := stored 50 status;
                          BookingHour_CreatedAt := now;
                          BookingHour_UpdatedAt := now |} in
            ({| courts := courts d; courts_id_seq := courts_id_seq d;
                booking_hours := booking_hours d ++ [row];
                booking_hours_id_seq := id;
                clips := clips d; clips_id_seq := clips_id_seq d |},
             inr (id, now, now))
          else
            (drawn, inl (foreign_key_violation "booking_hours"
                           "booking_hours_court_id_fkey"))
      end
  end.

(** SELECT EXISTS(SELECT 1 FROM booking_hours WHERE id = $1) *)
Definition booking_hour_exists (d : DB) (id : Z) : Error + bool :=
  match integer id with
  | Some err => inl err
  | None => inr (existsb (fun b => BookingHour_ID b =? id) (booking_hours d))
  end.

(** SELECT ... FROM clips [WHERE booking_hour_id = $1]
    ORDER BY created_at DESC *)
Definition select_clips (d : DB) (booking_hour_id : option Z)
  : Error + list Clip :=
  match booking_hour_id with
  | Some id =>
      match integer id with
      | Some err => inl err
      | None =>
          inr (order_by_desc (fun c => instant (Clip_CreatedAt c))
                 (List.filter (fun c => Clip_BookingHourID c =? id) (clips d)))
      end
  | None => inr (order_by_desc (fun c => instant (Clip_CreatedAt c)) (clips d))
  end.

(** The row the clips table keeps of a clip. *)
Definition clip_row (id : Z) (now : Time) (c : Clip) : Clip :=
  {| Clip_ID := id;
     Clip_BookingHourID := Clip_BookingHourID c;
     Clip_Filename := stored 255 (Clip_Filename c);
     Clip_FilePath := stored 500 (Clip_FilePath c);
     Clip_FileSize := Clip_FileSize c;
     Clip_MimeType := option_map (stored 100) (Clip_MimeType c);
     Clip_Duration := None;
     Clip_CameraName := option_map (stored 255) (Clip_CameraName c);
     Clip_UploadStatus := stored 50 (Clip_UploadStatus c);
     Clip_CreatedAt := now; Clip_UpdatedAt := now |}.

(** INSERT INTO clips (booking_hour_id, filename, file_path, file_size,
    mime_type, camera_name, upload_status) VALUES ($1, ..., $7)
    RETURNING id, created_at, updated_at; id SERIAL PRIMARY KEY,
    booking_hour_id INTEGER REFERENCES booking_hours(id), filename
    VARCHAR(255), file_path VARCHAR(500), file_size BIGINT, mime_type
    VARCHAR(100), camera_name VARCHAR(255), upload_status VARCHAR(50). *)
Definition insert_clip (now : Time) (c : Clip) (d : DB)
  : DB * (Error + Z * Time * Time) :=
  match first_error [integer (Clip_BookingHourID c); text (Clip_Filename c);
                     text (Clip_FilePath c); text_opt (Clip_MimeType c);
                     text_opt (Clip_CameraName c); text (Clip_UploadStatus c);
                     varchar 255 (Clip_Filename c);
                     varchar 500 (Clip_FilePath c);
                     varchar_opt 100 (Clip_MimeType c);
                     varchar_opt 255 (Clip_CameraName c);
                     varchar 50 (Clip_UploadStatus c)]
  with
  | Some err => (d, inl err)
  | None =>
      match nextval "clips_id_seq" (clips_id_seq d) with
      | inl err => (d, inl err)
      | inr id =>
          let drawn :=
            {| courts := courts d; courts_id_seq := courts_id_seq d;
               booking_hours := booking_hours d;
               booking_hours_id_seq := booking_hours_id_seq d;
               clips := clips d; clips_id_seq := id |} in
          if existsb (fun c' => Clip_ID c' =? id) (clips d) then
            (drawn, inl (unique_violation "clips_pkey"))
          else if existsb (fun b => BookingHour_ID b =? Clip_BookingHourID c)
                    (booking_hours d)
          then
            ({| courts := courts d; courts_id_seq := courts_id_seq d;
                booking_hours := booking_hours d;
                booking_hours_id_seq := booking_hours_id_seq d;
                clips := clips d ++ [clip_row id now c]; clips_id_seq := id |},
             inr (id, now, now))
          else
            (drawn, inl (foreign_key_violation "clips"
                           "clips_booking_hour_id_fkey"))
      end
  end.

End Pg.

(** ** HTTP plumbing *)

(** What a handler reads from outside the request and the store. *)
Record Env := {
  environ : gmap string string;   (* os.Getenv *)
  db_fault : nat -> option Pg.Error;
      (* the k-th store call of the request fails in the driver (connection
         lost, ...) with this error; [None]: the statement reaches the store *)
  db_now : Time;                  (* CURRENT_TIMESTAMP of the store *)
  pg_towlower : N -> N;
      (* lower case of a character beyond ASCII in the database locale *)
  pg_timestamptz : Time -> Time;
      (* what a TIMESTAMP WITH TIME ZONE column keeps of a time value and
         a query reads back: the instant rounded to the microsecond, read
         in the time zone of the database sessions *)
  unicode_ToLower : N -> N;
      (* Go's unicode.ToLower on a code point beyond ASCII *)
  time_Now : Time;                (* time.Now() *)
  mkdir_fault : bool;             (* os.MkdirAll fails *)
  create_fault : bool;            (* os.Create fails *)
  copy_fault : option Z           (* io.Copy fails after that many bytes *)
}.

(** The state the handlers change: the tables and the files on disk
    (path to size in bytes).  The temporary files of the multipart reader
    are not part of it: the server removes them when the request ends. *)
Record World := {
  db : Pg.DB;
  files : gmap string Z
}.

(** A JSON value ([JTime t] is the RFC 3339 string of [t]). *)
#[warning="-register-all"]
Inductive json :=
| JNull
| JBool (b : bool)
| JNum (n : Z)
| JStr (s : string)
| JTime (t : Time)
| JArr (items : list json)
| JObj (members : list (string * json)).

(** The value put in [APIResponse.Data] (an [interface{}]). *)
Inductive data :=
| DataNil
| DataCourt (c : Court)
| DataCourts (s : slice Court)
| DataBookingHour (b : BookingHour)
| DataBookingHours (s : slice BookingHour)
| DataClip (c : Clip)
| DataClips (s : slice Clip)
| DataMap (m : gmap string json).

Record APIResponse := {
  Success : bool;
  Message : string;
  Data : data
}.

Record Response := {
  StatusCode : Z;
  Body : APIResponse
}.

Definition StatusOK : Z := 200.
Definition StatusCreated : Z := 201.
Definition StatusBadRequest : Z := 400.
Definition StatusNotFound : Z := 404.
Definition StatusConflict : Z := 409.
Definition StatusInternalServerError : Z := 500.

(** encoding/json on the values the handlers send: a nil pointer and a
    nil slice both encode as [null], an allocated slice as an array. *)
Module Json.

Definition opt {A} (f : A -> json) (o : option A) : json :=
  match o with Some x => f x | None => JNull end.

Definition of_slice {A} (f : A -> json) (s : slice A) : json :=
  match s with
  | NilSlice => JNull
  | Slice l => JArr (map f l)
  end.

Definition of_Court (c : Court) : json :=
  JObj [("id", JNum (Court_ID c)); ("name", JStr (Court_Name c));
        ("description", opt JStr (Court_Description c));
        ("is_active", JBool (Court_IsActive c));
        ("created_at", JTime (Court_CreatedAt c));
        ("updated_at", JTime (Court_UpdatedAt c))].

Definition of_BookingHour (b : BookingHour) : json :=
  JObj [("id", JNum (BookingHour_ID b));
        ("courtId", JNum (BookingHour_CourtID b));
        ("dateStart", JTime (BookingHour_DateStart b));
        ("dateEnd", JTime (BookingHour_DateEnd b));
        ("status", JStr (BookingHour_Status b));
        ("created_at", JTime (BookingHour_CreatedAt b));
        ("updated_at", JTime (BookingHour_UpdatedAt b))].

Definition of_Clip (c : Clip) : json :=
  JObj [("id", JNum (Clip_ID c));
        ("bookingHourId", JNum (Clip_BookingHourID c));
        ("filename", JStr (Clip_Filename c));
        ("file_path", JStr (Clip_FilePath c));
        ("file_size", opt JNum (Clip_FileSize c));
        ("mime_type", opt JStr (Clip_MimeType c));
        ("duration_seconds", opt JNum (Clip_Duration c));
        ("camera_name", opt JStr (Clip_CameraName c));
        ("upload_status", JStr (Clip_UploadStatus c));
        ("created_at", JTime (Clip_CreatedAt c));
        ("updated_at", JTime (Clip_UpdatedAt c))].

Definition of_data (x : data) : json :=
  match x with
  | DataNil => JNull
  | DataCourt c => of_Court c
  | DataCourts s => of_slice of_Court s
  | DataBookingHour b => of_BookingHour b
  | DataBookingHours s => of_slice of_BookingHour s
  | DataClip c => of_Clip c
  | DataClips s => of_slice of_Clip s
  | DataMap m => JObj (map_to_list m)
  end.

(** The response body as written by [json.NewEncoder(w).Encode]. *)
Definition of_APIResponse (r : APIResponse) : json :=
  JObj [("success", JBool (Success r)); ("message", JStr (Message r));
        ("data", of_data (Data r))].

End Json.

Definition sendJSONResponse (statusCode : Z) (response : APIResponse)
  : Response :=
  {| StatusCode := statusCode; Body := response |}.

Definition sendErrorResponse (statusCode : Z) (message : string) : Response :=
  sendJSONResponse statusCode
    {| Success := false; Message := message; Data := DataNil |}.

(** ** Court handlers *)

(** GET /courts; [nameFilter] is [r.URL.Query().Get("name")]. *)
Definition getCourts (e : Env) (w : World) (nameFilter : string) : Response :=
  let query :=
    if negb (String.eqb nameFilter "") then
      Pg.select_courts_by_name (pg_towlower e) (db w) ("%" ++ nameFilter ++ "%")
    else
      inr (Pg.select_courts (db w)) in
  match Pg.answer (db_fault e 0%nat) query with
  | inl err =>
      sendErrorResponse StatusInternalServerError
        ("Failed to fetch courts: " ++ Pg.Text err)
  | inr rows =>
      let courts := collect rows in
      if (len courts =? 0) && negb (String.eqb nameFilter "") then
        sendErrorResponse StatusNotFound "Court not found"
      else
        sendJSONResponse StatusOK
          {| Success := true;
             Message := "Courts retrieved successfully ("
                          ++ Itoa (len courts) ++ " found)";
             Data := DataCourts courts |}
  end.

(** POST /courts; [body] is the result of decoding the request body into
    a [Court] ([None]: the decoder failed). *)
Definition createCourt (e : Env) (w : World) (body : option Court)
  : World * Response :=
  match body with
  | None => (w, sendErrorResponse StatusBadRequest "Invalid JSON payload")
  | Some court =>
      if String.eqb (Court_Name court) "" then
        (w, sendErrorResponse StatusBadRequest "Court name is required")
      else
        match db_fault e 0%nat with
        | Some err =>
            (w, sendErrorResponse StatusInternalServerError
                  ("Failed to create court: " ++ Pg.Text err))
        | None =>
            let '(d, res) :=
              Pg.insert_court (db_now e) (Court_Name court)
                (Court_Description court) (db w) in
            let w' := {| db := d; files := files w |} in
            match res with
            | inl err =>
                if match Pg.Code err with
                   | Some code => String.eqb code "23505"
                   | None => false
                   end
                then
                  (w', sendErrorResponse StatusConflict
                         "Court with this name already exists")
                else
                  (w', sendErrorResponse StatusInternalServerError
                         ("Failed to create court: " ++ Pg.Text err))
            | inr (id, created_at, updated_at) =>
                (w', sendJSONResponse StatusCreated
                       {| Success := true;
                          Message := "Court created successfully";
                          Data := DataCourt
                            {| Court_ID := id;
                               Court_Name := Court_Name court;
                               Court_Description := Court_Description court;
                               Court_IsActive := true;
                               Court_CreatedAt := created_at;
                               Court_UpdatedAt := updated_at |} |})
            end
        end
  end.

(** ** Booking hour handlers *)

(** GET /booking-hours; [courtIDStr] is [r.URL.Query().Get("courtId")]. *)
Definition getBookingHours (e : Env) (w : World) (courtIDStr : string)
  : Response :=
  let run (court_id : option Z) :=
    match Pg.answer (db_fault e 0%nat)
            (Pg.select_booking_hours (db w) court_id) with
    | inl err =>
        sendErrorResponse StatusInternalServerError
          ("Failed to fetch booking hours: " ++ Pg.Text err)
    | inr rows =>
        let bookingHours := collect rows in
        sendJSONResponse StatusOK
          {| Success := true;
             Message := "Booking hours retrieved successfully ("
                          ++ Itoa (len bookingHours) ++ " found)";
             Data := DataBookingHours bookingHours |}
    end in
  if negb (String.eqb courtIDStr "") then
    match Atoi courtIDStr with
    | None => sendErrorResponse StatusBadRequest "Invalid court ID"
    | Some courtID => run (Some courtID)
    end
  else run None.

(** POST /booking-hours; [body] is the decoded [BookingHour]. *)
Definition createBookingHour (e : Env) (w : World) (body : option BookingHour)
  : World * Response :=
  match body with
  | None => (w, sendErrorResponse StatusBadRequest "Invalid JSON payload")
  | Some bh =>
      if BookingHour_CourtID bh =? 0 then
        (w, sendErrorResponse StatusBadRequest "Court ID is required")
      else if IsZero (BookingHour_DateStart bh) || IsZero (BookingHour_DateEnd bh)
      then
        (w, sendErrorResponse StatusBadRequest
              "Date start and date end are required")
      else
        match Pg.answer (db_fault e 0%nat)
                (Pg.court_exists_active (db w) (BookingHour_CourtID bh)) with
        | inl err =>
            (w, sendErrorResponse StatusInternalServerError
                  ("Failed to verify court: " ++ Pg.Text err))
        | inr exists_ =>
            if negb exists_ then
              (w, sendErrorResponse StatusBadRequest
                    "Court not found or inactive")
            else
              let status :=
                if String.eqb (BookingHour_Status bh) "" then "active"
                else BookingHour_Status bh in
              match db_fault e 1%nat with
              | Some err =>
                  (w, sendErrorResponse StatusInternalServerError
                        ("Failed to create booking hour: " ++ Pg.Text err))
              | None =>
                  let '(d, res) :=
                    Pg.insert_booking_hour (pg_timestamptz e) (db_now e)
                      (BookingHour_CourtID bh)
                      (BookingHour_DateStart bh) (BookingHour_DateEnd bh)
                      status (db w) in
                  let w' := {| db := d; files := files w |} in
                  match res with
                  | inl err =>
                      (w', sendErrorResponse StatusInternalServerError
                             ("Failed to create booking hour: " ++ Pg.Text err))
                  | inr (id, created_at, updated_at) =>
                      (w', sendJSONResponse StatusCreated
                             {| Success := true;
                                Message := "Booking hour created successfully";
                                Data := DataBookingHour
                                  {| BookingHour_ID := id;
                                     BookingHour_CourtID := BookingHour_CourtID bh;
                                     BookingHour_DateStart := BookingHour_DateStart bh;
                                     BookingHour_DateEnd := BookingHour_DateEnd bh;
                                     BookingHour_Status := status;
                                     BookingHour_CreatedAt := created_at;
                                     BookingHour_UpdatedAt := updated_at |} |})
                  end
              end
        end
  end.

(** ** Clip handlers *)

(** A file part of a multipart body (multipart.FileHeader). *)
Record FileHeader := {
  Filename : string;
  Header : gmap string string;   (* the part's MIME header *)
  Size : Z                       (* bytes of content *)
}.

(** textproto.MIMEHeader.Get: the value of the key, or the empty string. *)
Definition Header_Get (h : gmap string string) (key : string) : string :=
  default "" (h !! key).

(** A POST /clips request as net/http sees it. *)
Record UploadRequest := {
  malformed : bool;
      (* mime/multipart rejects the body: not multipart/form-data, a broken
         boundary, non-file fields beyond the reader's own allowance *)
  fields : list (string * string);        (* non-file parts and URL query *)
  fileParts : list (string * FileHeader)  (* file parts, in body order *)
}.

(** Where a parsed file part is kept. *)
Inductive storage := InMemory | TempFile.

Record Form := {
  Value : list (string * string);
  File : list (string * (FileHeader * storage))
}.

(** mime/multipart's ReadForm on the file parts: a part is kept in memory
    while the parts kept so far total at most [budget] bytes, and is
    written to a temporary file otherwise.  No part is refused for its
    size. *)
Fixpoint place_files (budget : Z) (parts : list (string * FileHeader))
  : list (string * (FileHeader * storage)) :=
  match parts with
  | [] => []
  | (name, fh) :: rest =>
      if budget <? Size fh then (name, (fh, TempFile)) :: place_files budget rest
      else (name, (fh, InMemory)) :: place_files (budget - Size fh) rest
  end.

(** r.ParseMultipartForm(maxMemory): "The whole request body is parsed and
    up to a total of maxMemory bytes of its file parts are stored in
    memory, with the remainder stored on disk in temporary files." *)
Definition ParseMultipartForm (r : UploadRequest) (maxMemory : Z)
  : option Form :=
  if malformed r then None
  else Some {| Value := fields r; File := place_files maxMemory (fileParts r) |}.

Fixpoint assoc {A} (key : string) (l : list (string * A)) : option A :=
  match l with
  | [] => None
  | (k, v) :: rest => if String.eqb k key then Some v else assoc key rest
  end.

(** r.FormValue(key): the first value of the field, or the empty string. *)
Definition FormValue (f : Form) (key : string) : string :=
  default "" (assoc key (Value f)).

(** r.FormFile(key): the first file of the field ([None]: ErrMissingFile). *)
Definition FormFile (f : Form) (key : string) : option FileHeader :=
  option_map fst (assoc key (File f)).

(** The generated file name: [fmt.Sprintf("clip_%d_%s%s", bookingHourID,
    timestamp, ext)] with [timestamp := time.Now().Format("20060102_150405")]
    and [ext := filepath.Ext(handler.Filename)]. *)
Definition clipFilename (bookingHourID : Z) (now : Time) (original : string)
  : string :=
  let timestamp := Format_20060102_150405 now in
  let ext := Ext original in
  "clip_" ++ Itoa bookingHourID ++ "_" ++ timestamp ++ ext.

(** The MIME type: the part's Content-Type, or a guess from the
    extension. *)
Definition clipMimeType (table : N -> N) (handler : FileHeader) : string :=
  let ext := Ext (Filename handler) in
  let mimeType := Header_Get (Header handler) "Content-Type" in
  if String.eqb mimeType "" then
    let e := ToLower table ext in
    if String.eqb e ".mp4" then "video/mp4"
    else if String.eqb e ".avi" then "video/x-msvideo"
    else if String.eqb e ".webm" then "video/webm"
    else "video/mp4"
  else mimeType.

(** The loop [for i, part := range parts { if part == "camera" && i > 0
    { cameraName = parts[i-1]; break } }]; [rest] is what is left to
    visit, [i] the index of its head. *)
Fixpoint cameraScan (parts : list string) (rest : list string) (i : nat)
  : string :=
  match rest with
  | [] => ""
  | part :: rest' =>
      if String.eqb part "camera" && (0 <? i)%nat then nth (i - 1) parts ""
      else cameraScan parts rest' (S i)
  end.

Definition clipCameraName (cameraName description : string) : string :=
  if String.eqb cameraName "" && negb (String.eqb description "") then
    let parts := Split description " " in
    cameraScan parts parts 0%nat
  else cameraName.

(** POST /clips. *)
Definition uploadClip (e : Env) (w : World) (r : UploadRequest)
  : World * Response :=
  match ParseMultipartForm r (Z.shiftl 100 20) with
  | None => (w, sendErrorResponse StatusBadRequest "Failed to parse form")
  | Some form =>
  let bookingHourIDStr := FormValue form "bookingHourId" in
  if String.eqb bookingHourIDStr "" then
    (w, sendErrorResponse StatusBadRequest "Booking hour ID is required")
  else
  match Atoi bookingHourIDStr with
  | None => (w, sendErrorResponse StatusBadRequest "Invalid booking hour ID")
  | Some bookingHourID =>
  match Pg.answer (db_fault e 0%nat)
          (Pg.booking_hour_exists (db w) bookingHourID) with
  | inl err =>
      (w, sendErrorResponse StatusInternalServerError
            ("Failed to verify booking hour: " ++ Pg.Text err))
  | inr exists_ =>
  if negb exists_ then
    (w, sendErrorResponse StatusBadRequest "Booking hour not found")
  else
  match FormFile form "video" with
  | None => (w, sendErrorResponse StatusBadRequest "No video file provided")
  | Some handler =>
  let config := loadConfig (environ e) in
  let uploadDir := Join (UploadDir config) "clips" in
  if mkdir_fault e then
    (w, sendErrorResponse StatusInternalServerError
          "Failed to create upload directory")
  else
  let filename := clipFilename bookingHourID (time_Now e) (Filename handler) in
  let filePath := Join uploadDir filename in
  if create_fault e then
    (w, sendErrorResponse StatusInternalServerError "Failed to save file")
  else
  match copy_fault e with
  | Some written =>
      ({| db := db w; files := <[filePath := written]> (files w) |},
       sendErrorResponse StatusInternalServerError "Failed to save file")
  | None =>
  let fileSize := Size handler in
  let w1 := {| db := db w; files := <[filePath := fileSize]> (files w) |} in
  let mimeType := clipMimeType (unicode_ToLower e) handler in
  let description := FormValue form "description" in
  let cameraName := clipCameraName (FormValue form "camera_name") description in
  let clip :=
    {| Clip_ID := 0;
       Clip_BookingHourID := bookingHourID;
       Clip_Filename := filename;
       Clip_FilePath := filePath;
       Clip_FileSize := Some fileSize;
       Clip_MimeType := Some mimeType;
       Clip_Duration := None;
       Clip_CameraName :=
         if negb (String.eqb cameraName "") then Some cameraName else None;
       Clip_UploadStatus := "uploaded";
       Clip_CreatedAt := zeroTime;
       Clip_UpdatedAt := zeroTime |} in
  match db_fault e 1%nat with
  | Some err =>
      (w1, sendErrorResponse StatusInternalServerError
             ("Failed to save clip metadata: " ++ Pg.Text err))
  | None =>
  let '(d, res) := Pg.insert_clip (db_now e) clip (db w1) in
  let w2 := {| db := d; files := files w1 |} in
  match res with
  | inl err =>
      (w2, sendErrorResponse StatusInternalServerError
             ("Failed to save clip metadata: " ++ Pg.Text err))
  | inr (id, created_at, updated_at) =>
      (w2, sendJSONResponse StatusCreated
             {| Success := true;
                Message := "Clip uploaded successfully";
                Data := DataClip
                  {| Clip_ID := id;
                     Clip_BookingHourID := Clip_BookingHourID clip;
                     Clip_Filename := Clip_Filename clip;
                     Clip_FilePath := Clip_FilePath clip;
                     Clip_FileSize := Clip_FileSize clip;
                     Clip_MimeType := Clip_MimeType clip;
                     Clip_Duration := Clip_Duration clip;
                     Clip_CameraName := Clip_CameraName clip;
                     Clip_UploadStatus := Clip_UploadStatus clip;
                     Clip_CreatedAt := created_at;
                     Clip_UpdatedAt := updated_at |} |})
  end end end end end end end.

(** GET /clips; [bookingHourIDStr] is
    [r.URL.Query().Get("bookingHourId")]. *)
Definition getClips (e : Env) (w : World) (bookingHourIDStr : string)
  : Response :=
  let run (booking_hour_id : option Z) :=
    match Pg.answer (db_fault e 0%nat)
            (Pg.select_clips (db w) booking_hour_id) with
    | inl err =>
        sendErrorResponse StatusInternalServerError
          ("Failed to fetch clips: " ++ Pg.Text err)
    | inr rows =>
        let clips := collect rows in
        sendJSONResponse StatusOK
          {| Success := true;
             Message := "Clips retrieved successfully ("
                          ++ Itoa (len clips) ++ " found)";
             Data := DataClips clips |}
    end in
  if negb (String.eqb bookingHourIDStr "") then
    match Atoi bookingHourIDStr with
    | None => sendErrorResponse StatusBadRequest "Invalid booking hour ID"
    | Some bookingHourID => run (Some bookingHourID)
    end
  else run None.

(** ** Health check *)

(** GET /health; [db.Ping()] is the request's first store call. *)
Definition healthCheck (e : Env) (w : World) : Response :=
  let dbStatus :=
    match db_fault e 0%nat with
    | Some _ => "disconnected"
    | None => "connected"
    end in
  sendJSONResponse StatusOK
    {| Success := true;
       Message := "Service is healthy";
       Data := DataMap
         (<["timestamp" := JTime (time_Now e)]>
            (<["version" := JStr "1.0.0"]>
               (<["database" := JStr dbStatus]> ∅))) |}.

(** ** The router of [main] *)

Inductive Request :=
| GET_health
| GET_courts (name : string)
| POST_courts (body : option Court)
| GET_booking_hours (courtId : string)
| POST_booking_hours (body : option BookingHour)
| POST_clips (r : UploadRequest)
| GET_clips (bookingHourId : string).

Definition serve (e : Env) (w : World) (r : Request) : World * Response :=
  match r with
  | GET_health => (w, healthCheck e w)
  | GET_courts name => (w, getCourts e w name)
  | POST_courts body => createCourt e w body
  | GET_booking_hours courtId => (w, getBookingHours e w courtId)
  | POST_booking_hours body => createBookingHour e w body
  | POST_clips r => uploadClip e w r
  | GET_clips bookingHourId => (w, getClips e w bookingHourId)
  end.

(** The service handling requests one after the other, each in its own
    environment. *)
Definition serveAll (w : World) (reqs : list (Env * Request)) : World :=
  fold_left (fun w er => fst (serve (fst er) w (snd er))) reqs w.

(** ** The wording of the specification, for comparison *)

(** "an empty result": status 200, success, and the given JSON data. *)
Definition answers_ok_with (r : Response) (payload : json) : Prop :=
  StatusCode r = StatusOK /\ Success (Body r) = true
  /\ Json.of_data (Data (Body r)) = payload.

(** "name contains the filter as a case-insensitive substring". *)
Fixpoint has_prefix (pre s : string) : bool :=
  match pre with
  | EmptyString => true
  | String a pre' =>
      match s with
      | EmptyString => false
      | String b s' => Ascii.eqb a b && has_prefix pre' s'
      end
  end.

Fixpoint is_substring (sub s : string) : bool :=
  has_prefix sub s
  || match s with
     | EmptyString => false
     | String _ r => is_substring sub r
     end.

Definition containsFold (name nameFilter : string) : bool :=
  is_substring (lowerASCII nameFilter) (lowerASCII name).

(** The same on characters, with the case mapping of the database. *)
Fixpoint starts_with (pre s : list N) : bool :=
  match pre with
  | [] => true
  | a :: pre' =>
      match s with
      | [] => false
      | b :: s' => (a =? b)%N && starts_with pre' s'
      end
  end.

Fixpoint contains (sub s : list N) : bool :=
  starts_with sub s
  || match s with
     | [] => false
     | _ :: r => contains sub r
     end.

Definition containsLower (towlower : N -> N) (name nameFilter : string)
  : bool :=
  contains (Pg.lower towlower nameFilter) (Pg.lower towlower name).

(** The bytes that LIKE does not take literally. *)
Definition is_wildcard (c : ascii) : bool :=
  Ascii.eqb c "%" || Ascii.eqb c "_" || Ascii.eqb c "\".

Fixpoint plain (s : string) : bool :=
  match s with
  | EmptyString => true
  | String c r => negb (is_wildcard c) && plain r
  end.

(** The number of courts rows with a given name. *)
Definition count_name (name : string) (l : list Court) : nat :=
  length (List.filter (fun c => String.eqb (Court_Name c) name) l).

(** The value of a form field as sent, before any parsing. *)
Definition sentField (r : UploadRequest) (key : string) : string :=
  default "" (assoc key (fields r)).

(** "clip_<bookingHourId>_<timestamp to second precision>_<original
    extension>", every underscore of the scheme taken as written. *)
Definition spec_clipFilename (bookingHourID : Z) (now : Time)
    (original : string) : string :=
  "clip_" ++ Itoa bookingHourID ++ "_" ++ Format_20060102_150405 now
    ++ "_" ++ Ext original.

(** "the token immediately before the first occurrence of the exact token
    camera, provided that occurrence is not the first token; otherwise no
    camera_name". *)
Fixpoint first_index (tok : string) (l : list string) : option nat :=
  match l with
  | [] => None
  | x :: r => if String.eqb x tok then Some 0%nat
              else option_map S (first_index tok r)
  end.

Definition spec_derivedCameraName (description : string) : option string :=
  let parts := Split description " " in
  match first_index "camera" parts with
  | Some (S i) => Some (nth i parts "")
  | _ => None
  end.

(** ** Sample data *)

(** Case tables for the samples: U+0130 (capital I with dot) and U+212A
    (Kelvin sign) have ASCII lower cases, as in Unicode. *)
Definition sample_lower (r : N) : N :=
  if (r =? 304)%N then 105%N else if (r =? 8490)%N then 107%N else r.

(** Sessions in UTC: the instant rounded to the microsecond.  (The
    samples carry their calendar reading in UTC already and fall on a
    whole second.) *)
Definition sample_timestamptz (t : Time) : Time :=
  {| instant := (instant t + 500) / 1000 * 1000; year := year t; month := month t;
     day := day t; hour := hour t; minute := minute t; second := second t |}.

Definition t0 : Time :=
  {| instant := 63871322400000000000; year := 2025; month := 1; day := 1;
     hour := 10; minute := 0; second := 0 |}.

(** A healthy environment: default configuration, no fault. *)
Definition env0 : Env :=
  {| environ := ∅; db_fault := fun _ => None; db_now := t0; time_Now := t0;
     pg_towlower := sample_lower; pg_timestamptz := sample_timestamptz;
     unicode_ToLower := sample_lower;
     mkdir_fault := false; create_fault := false; copy_fault := None |}.

(** The same with the store unreachable. *)
Definition env_down : Env :=
  {| environ := ∅;
     db_fault := fun _ => Some {| Pg.Code := None;
                                  Pg.Text := "dial tcp: connection refused" |};
     db_now := t0; time_Now := t0;
     pg_towlower := sample_lower; pg_timestamptz := sample_timestamptz;
     unicode_ToLower := sample_lower;
     mkdir_fault := false; create_fault := false; copy_fault := None |}.

Definition court1 : Court :=
  {| Court_ID := 1; Court_Name := "Lapangan 1 Kiri";
     Court_Description := Some "Left side of Court 1";
     Court_IsActive := true; Court_CreatedAt := t0; Court_UpdatedAt := t0 |}.

Definition court2 : Court :=
  {| Court_ID := 2; Court_Name := "Lapangan 1 Kanan";
     Court_Description := None;
     Court_IsActive := false; Court_CreatedAt := t0; Court_UpdatedAt := t0 |}.

Definition booking1 : BookingHour :=
  {| BookingHour_ID := 1; BookingHour_CourtID := 1;
     BookingHour_DateStart := t0; BookingHour_DateEnd := t0;
     BookingHour_Status := "active";
     BookingHour_CreatedAt := t0; BookingHour_UpdatedAt := t0 |}.

(** Two courts (one inactive), one booking hour, no clip, no file. *)
Definition world0 : World :=
  {| db := {| Pg.courts := [court1; court2]; Pg.courts_id_seq := 2;
              Pg.booking_hours := [booking1]; Pg.booking_hours_id_seq := 1;
              Pg.clips := []; Pg.clips_id_seq := 0 |};
     files := ∅ |}.

(** An empty store. *)
Definition world_empty : World :=
  {| db := {| Pg.courts := []; Pg.courts_id_seq := 0;
              Pg.booking_hours := []; Pg.booking_hours_id_seq := 0;
              Pg.clips := []; Pg.clips_id_seq := 0 |};
     files := ∅ |}.

(** An upload for a booking hour that does not exist. *)
Definition upload999 : UploadRequest :=
  {| malformed := false;
     fields := [("bookingHourId", "999")];
     fileParts := [("video", {| Filename := "match.mp4"; Header := ∅;
                                Size := 2048 |})] |}.

(** An upload for booking hour 1, no Content-Type on the file part, a
    description that starts with the word camera. *)
Definition upload1 : UploadRequest :=
  {| malformed := false;
     fields := [("bookingHourId", "1");
                ("description", "camera front camera")];
     fileParts := [("video", {| Filename := "match.mp4"; Header := ∅;
                                Size := 2048 |})] |}.

(** An upload for booking hour 1 whose file part declares its type. *)
Definition uploadDeclared : UploadRequest :=
  {| malformed := false;
     fields := [("bookingHourId", "1")];
     fileParts :=
       [("video", {| Filename := "clip.mov";
                     Header := {["Content-Type" := "video/quicktime"]};
                     Size := 4096 |})] |}.

(** An upload for booking hour 1 of a file whose extension ends in the
    capital I with dot (U+0130, the bytes C4 B0), no declared type. *)
Definition uploadDotted : UploadRequest :=
  {| malformed := false;
     fields := [("bookingHourId", "1")];
     fileParts :=
       [("video", {| Filename :=
                       "x.av" ++ String (ascii_of_nat 196)
                                   (String (ascii_of_nat 176) EmptyString);
                     Header := ∅;
                     Size := 4096 |})] |}.

(** An upload for booking hour 1 of one byte more than 100 MB. *)
Definition uploadBig : UploadRequest :=
  {| malformed := false;
     fields := [("bookingHourId", "1")];
     fileParts := [("video", {| Filename := "final.mp4"; Header := ∅;
                                Size := 100 * 1024 * 1024 + 1 |})] |}.

(** A booking hour for the inactive court. *)
Definition bookingInactive : BookingHour :=
  {| BookingHour_ID := 0; BookingHour_CourtID := 2;
     BookingHour_DateStart := t0; BookingHour_DateEnd := t0;
     BookingHour_Status := "";
     BookingHour_CreatedAt := zeroTime; BookingHour_UpdatedAt := zeroTime |}.

(** A booking hour for a court id one beyond the INTEGER range, and an
    upload for such a booking hour id. *)
Definition bookingFar : BookingHour :=
  {| BookingHour_ID := 0; BookingHour_CourtID := 2147483648;
     BookingHour_DateStart := t0; BookingHour_DateEnd := t0;
     BookingHour_Status := "";
     BookingHour_CreatedAt := zeroTime; BookingHour_UpdatedAt := zeroTime |}.

Definition uploadFar : UploadRequest :=
  {| malformed := false;
     fields := [("bookingHourId", "2147483648")];
     fileParts := [("video", {| Filename := "match.mp4"; Header := ∅;
                                Size := 2048 |})] |}.

(** The file part a request carries under a field name. *)
Definition sentFile (r : UploadRequest) (key : string) : option FileHeader :=
  assoc key (fileParts r).

(** The path POST /clips writes, the clip it answers with and the row it
    inserts, as functions of the request (used to state what a successful
    upload stores). *)
Definition uploadPath (e : Env) (id : Z) (handler : FileHeader) : string :=
  Join (Join (UploadDir (loadConfig (environ e))) "clips")
       (clipFilename id (time_Now e) (Filename handler)).

Definition uploadAnswer (e : Env) (w : World) (r : UploadRequest) (id : Z)
    (handler : FileHeader) : Clip :=
  let cameraName :=
    clipCameraName (sentField r "camera_name") (sentField r "description") in
  {| Clip_ID := Pg.clips_id_seq (db w) + 1;
     Clip_BookingHourID := id;
     Clip_Filename := clipFilename id (time_Now e) (Filename handler);
     Clip_FilePath := uploadPath e id handler;
     Clip_FileSize := Some (Size handler);
     Clip_MimeType := Some (clipMimeType (unicode_ToLower e) handler);
     Clip_Duration := None;
     Clip_CameraName :=
       if negb (String.eqb cameraName "") then Some cameraName else None;
     Clip_UploadStatus := "uploaded";
     Clip_CreatedAt := db_now e;
     Clip_UpdatedAt := db_now e |}.

Definition uploadRow (e : Env) (w : World) (r : UploadRequest) (id : Z)
    (handler : FileHeader) : Clip :=
  Pg.clip_row (Pg.clips_id_seq (db w) + 1) (db_now e)
    (uploadAnswer e w r id handler).

(** A court to create, the same name sent again, and requests served in
    between. *)
Definition courtX : Court :=
  {| Court_ID := 0; Court_Name := "Court X"; Court_Description := None;
     Court_IsActive := false;
     Court_CreatedAt := zeroTime; Court_UpdatedAt := zeroTime |}.

Definition courtX' : Court :=
  {| Court_ID := 0; Court_Name := "Court X";
     Court_Description := Some "again"; Court_IsActive := true;
     Court_CreatedAt := zeroTime; Court_UpdatedAt := zeroTime |}.

(** The same name again with a description that holds a NUL (the JSON
    string "a\u0000b"). *)
Definition courtX_nul : Court :=
  {| Court_ID := 0; Court_Name := "Court X";
     Court_Description :=
       Some (String "a" (String (ascii_of_nat 0) (String "b" EmptyString)));
     Court_IsActive := true;
     Court_CreatedAt := zeroTime; Court_UpdatedAt := zeroTime |}.

(** The courts sequence one step before its end. *)
Definition world_last : World :=
  {| db := {| Pg.courts := [court1; court2]; Pg.courts_id_seq := 2147483646;
              Pg.booking_hours := [booking1]; Pg.booking_hours_id_seq := 1;
              Pg.clips := []; Pg.clips_id_seq := 0 |};
     files := ∅ |}.

Definition traceX : list (Env * Request) :=
  [(env0, GET_courts ""); (env0, POST_clips upload1);
   (env_down, POST_courts (Some courtX')); (env0, POST_courts (Some courtX'))].

(** ** Start-up: the connection loop of [initDatabase] *)

(** What one pass of the loop meets: [sql.Open] fails, [db.Ping] fails, or
    both succeed. *)
Inductive attempt :=
| OpenFails (err : string)
| PingFails (err : string)
| Connects.

(** The pool settings, the lifetime in seconds. *)
Record PoolSettings := {
  MaxOpenConns : Z;
  MaxIdleConns : Z;
  ConnMaxLifetime : Z
}.

(** How [initDatabase] ends: the pass that connected and the settings it
    made ([None]: [log.Fatalf]), the seconds spent in [time.Sleep], the
    handles [sql.Open] returned and the handles closed. *)
Record InitRun := {
  connected : option (nat * PoolSettings);
  slept : Z;
  opened : nat;
  closed : nat
}.

Definition maxRetries : nat := 30.
Definition retryInterval : Z := 2.

(** The loop from pass [i] with [left] passes to go. *)
Fixpoint initDatabase_from (outcome : nat -> attempt) (i left : nat)
    (slept : Z) (opened closed : nat) : InitRun :=
  match left with
  | O => {| connected := None; slept := slept;
            opened := opened; closed := closed |}
  | S left' =>
      match outcome i with
      | OpenFails _ =>
          initDatabase_from outcome (S i) left' (slept + retryInterval)
            opened closed
      | PingFails _ =>
          initDatabase_from outcome (S i) left' (slept + retryInterval)
            (S opened) (S closed)
      | Connects =>
          {| connected :=
               Some (i, {| MaxOpenConns := 25; MaxIdleConns := 5;
                           ConnMaxLifetime := 5 * 60 |});
             slept := slept; opened := S opened; closed := closed |}
      end
  end.

Definition initDatabase (outcome : nat -> attempt) : InitRun :=
  initDatabase_from outcome 0 maxRetries 0 0 0.

(** ** The earlier revision of the handlers (src/unnamed/part_003) *)

Module Earlier.

(** SELECT ... FROM courts WHERE name ILIKE $1 *)
Definition select_courts_by_name (towlower : N -> N) (d : Pg.DB)
    (pattern : string) : Pg.Error + list Court :=
  match Pg.text pattern with
  | Some err => inl err
  | None =>
      inr (List.filter (fun c => Pg.ILIKE towlower (Court_Name c) pattern)
             (Pg.courts d))
  end.

Definition getCourts (e : Env) (w : World) (nameFilter : string) : Response :=
  let query :=
    if negb (String.eqb nameFilter "") then
      select_courts_by_name (pg_towlower e) (db w) ("%" ++ nameFilter ++ "%")
    else
      inr (Pg.select_courts (db w)) in
  match Pg.answer (db_fault e 0%nat) query with
  | inl err =>
      sendErrorResponse StatusInternalServerError "Failed to fetch courts"
  | inr rows =>
      let courts := collect rows in
      if (len courts =? 0) && negb (String.eqb nameFilter "") then
        sendErrorResponse StatusNotFound "Court not found"
      else
        sendJSONResponse StatusOK
          {| Success := true;
             Message := "Courts retrieved successfully";
             Data := DataCourts courts |}
  end.

End Earlier.

(** ** Vocabulary of the properties *)

(** The courts an answer carries. *)
Definition courts_of (r : Response) : list Court :=
  match Data (Body r) with
  | DataCourts s => elems s
  | _ => []
  end.

Definition bookingHours_of (r : Response) : list BookingHour :=
  match Data (Body r) with
  | DataBookingHours s => elems s
  | _ => []
  end.

Definition clips_of (r : Response) : list Clip :=
  match Data (Body r) with
  | DataClips s => elems s
  | _ => []
  end.

Definition is_post (r : Request) : bool :=
  match r with
  | POST_courts _ | POST_booking_hours _ | POST_clips _ => true
  | _ => false
  end.

(** The string holds the byte. *)
Fixpoint has_byte (c : ascii) (s : string) : bool :=
  match s with
  | EmptyString => false
  | String a r => Ascii.eqb a c || has_byte c r
  end.

(** What the schema and the handlers keep true of the store and the
    disk: primary keys are distinct and were drawn from the serial, court
    names are distinct, every booking hour is on an active court, every
    clip is of an existing booking hour and its file is on disk (under
    a path of which the row holds what file_path keeps). *)
Record consistent (w : World) : Prop := {
  courts_pk : List.NoDup (map Court_ID (Pg.courts (db w)));
  courts_serial :
    forall c, In c (Pg.courts (db w)) -> Court_ID c <= Pg.courts_id_seq (db w);
  courts_unique_name : List.NoDup (map Court_Name (Pg.courts (db w)));
  booking_hours_pk :
    List.NoDup (map BookingHour_ID (Pg.booking_hours (db w)));
  booking_hours_serial :
    forall b, In b (Pg.booking_hours (db w)) ->
      BookingHour_ID b <= Pg.booking_hours_id_seq (db w);
  booking_hours_court :
    forall b, In b (Pg.booking_hours (db w)) ->
      Pg.court_exists_active (db w) (BookingHour_CourtID b) = inr true;
  clips_pk : List.NoDup (map Clip_ID (Pg.clips (db w)));
  clips_serial :
    forall c, In c (Pg.clips (db w)) -> Clip_ID c <= Pg.clips_id_seq (db w);
  clips_booking_hour :
    forall c, In c (Pg.clips (db w)) ->
      Pg.booking_hour_exists (db w) (Clip_BookingHourID c) = inr true;
  clips_file :
    forall c, In c (Pg.clips (db w)) ->
      exists path, is_Some (files w !! path)
                   /\ Clip_FilePath c = Pg.stored 500 path
}.

(** One list is the other with rows added at the end. *)
Definition extends {A} (l l' : list A) : Prop := exists added, l' = (l ++ added)%list.

(** The store and the disk only grow: rows are added at the end of the
    tables, serials do not go back, files are not removed. *)
Definition grows (w w' : World) : Prop :=
  extends (Pg.courts (db w)) (Pg.courts (db w'))
  /\ extends (Pg.booking_hours (db w)) (Pg.booking_hours (db w'))
  /\ extends (Pg.clips (db w)) (Pg.clips (db w'))
  /\ Pg.courts_id_seq (db w) <= Pg.courts_id_seq (db w')
  /\ Pg.booking_hours_id_seq (db w) <= Pg.booking_hours_id_seq (db w')
  /\ Pg.clips_id_seq (db w) <= Pg.clips_id_seq (db w')
  /\ (forall p, is_Some (files w !! p) -> is_Some (files w' !! p)).

(** A booking hour on court 1 that ends one hour before it starts, with
    no status. *)
Definition t0_before : Time :=
  {| instant := instant t0 - 3600000000000; year := 2025; month := 1; day := 1;
     hour := 9; minute := 0; second := 0 |}.

Definition bookingBackwards : BookingHour :=
  {| BookingHour_ID := 0; BookingHour_CourtID := 1;
     BookingHour_DateStart := t0; BookingHour_DateEnd := t0_before;
     BookingHour_Status := "";
     BookingHour_CreatedAt := zeroTime; BookingHour_UpdatedAt := zeroTime |}.

(** A second upload for booking hour 1 within the same second (the clock
    reads the same down to the second), another file with the same
    extension. *)
Definition env0_later : Env :=
  {| environ := ∅; db_fault := fun _ => None;
     db_now := {| instant := instant t0 + 400000000; year := 2025; month := 1;
                  day := 1; hour := 10; minute := 0; second := 0 |};
     time_Now := {| instant := instant t0 + 400000000; year := 2025; month := 1;
                    day := 1; hour := 10; minute := 0; second := 0 |};
     pg_towlower := sample_lower; pg_timestamptz := sample_timestamptz;
     unicode_ToLower := sample_lower;
     mkdir_fault := false; create_fault := false; copy_fault := None |}.

Definition upload1_again : UploadRequest :=
  {| malformed := false;
     fields := [("bookingHourId", "1")];
     fileParts := [("video", {| Filename := "other.mp4"; Header := ∅;
                                Size := 512 |})] |}.

(** The store answers the existence check and fails on the insert. *)
Definition env_insert_fails : Env :=
  {| environ := ∅;
     db_fault := fun k => match k with
                          | O => None
                          | _ => Some {| Pg.Code := None;
                                         Pg.Text := "driver: bad connection" |}
                          end;
     db_now := t0; time_Now := t0;
     pg_towlower := sample_lower; pg_timestamptz := sample_timestamptz;
     unicode_ToLower := sample_lower;
     mkdir_fault := false; create_fault := false; copy_fault := None |}.

(** * Properties *)

(** ** Library facts *)

Lemma Atoi_nonempty (s : string) (n : Z) : Atoi s = Some n -> s <> "".
Proof. intros H ->. discriminate H. Qed.

Lemma collect_nil {A} : collect (@nil A) = NilSlice.
Proof. reflexivity. Qed.

Lemma filter_none {A} (f : A -> bool) (l : list A) :
  (forall x, In x l -> f x = false) -> List.filter f l = [].
Proof.
  induction l as [|x l IH]; intros H; simpl; [reflexivity|].
  rewrite (H x (or_introl eq_refl)). apply IH.
  intros y Hy. apply H. now right.
Qed.

Lemma eqb_string_neq (a b : string) : a <> b -> String.eqb a b = false.
Proof. intros H. now apply String.eqb_neq. Qed.

Lemma append_cons (a : ascii) (s t : string) :
  String a s ++ t = String a (s ++ t).
Proof. reflexivity. Qed.

Lemma append_empty_r (s : string) : s ++ "" = s.
Proof.
  induction s as [|a s IH]; [reflexivity|]. now rewrite append_cons, IH.
Qed.

Lemma append_snoc (s : string) (c : ascii) (t : string) :
  (s ++ String c "") ++ t = s ++ String c t.
Proof.
  induction s as [|a s IH]; [reflexivity|]. now rewrite !append_cons, IH.
Qed.

Lemma split_from_nonempty (sep : ascii) (s cur : string) :
  split_from sep cur s <> [].
Proof.
  revert cur. induction s as [|c s IH]; intros cur; simpl; [discriminate|].
  destruct (Ascii.eqb c sep); [discriminate | apply IH].
Qed.

(** strings.Split loses nothing: joining the fields with the separator
    gives the string back. *)
Lemma split_from_concat (sep : ascii) (s cur : string) :
  String.concat (String sep "") (split_from sep cur s) = cur ++ s.
Proof.
  revert cur. induction s as [|c s IH]; intros cur.
  - simpl. now rewrite append_empty_r.
  - cbn [split_from]. destruct (Ascii.eqb_spec c sep) as [-> | Hc].
    + specialize (IH "").
      destruct (split_from sep "" s) as [|x l] eqn:E.
      * now apply split_from_nonempty in E.
      * change (String.concat (String sep "") (cur :: x :: l))
          with (cur ++ String sep "" ++ String.concat (String sep "") (x :: l)).
        rewrite IH. reflexivity.
    + rewrite IH. apply append_snoc.
Qed.

Lemma Split_concat (s : string) (sep : ascii) :
  String.concat (String sep "") (Split s sep) = s.
Proof. unfold Split. now rewrite split_from_concat. Qed.

(** filepath.Ext returns a suffix of the path that is empty or starts
    with a dot. *)
Lemma ext_scan_suffix (s found : string) :
  (exists pre, s = pre ++ ext_scan s found) \/ ext_scan s found = found.
Proof.
  revert found. induction s as [|c s IH]; intros found; cbn [ext_scan].
  - now right.
  - destruct (Ascii.eqb c "/").
    + left. destruct (IH "") as [[pre Hpre] | Hnone].
      * exists (String c pre). now rewrite append_cons, <- Hpre.
      * rewrite Hnone. exists (String c s). now rewrite append_empty_r.
    + destruct (Ascii.eqb c ".").
      * left. destruct (IH (String c s)) as [[pre Hpre] | Hsame].
        -- exists (String c pre). now rewrite append_cons, <- Hpre.
        -- rewrite Hsame. now exists "".
      * destruct (IH found) as [[pre Hpre] | Hsame].
        -- left. exists (String c pre). now rewrite append_cons, <- Hpre.
        -- now right.
Qed.

Lemma Ext_suffix (path : string) : exists pre, path = pre ++ Ext path.
Proof.
  unfold Ext. destruct (ext_scan_suffix path "") as [H | H]; [exact H|].
  rewrite H. exists path. now rewrite append_empty_r.
Qed.

Lemma ext_scan_dot (s found : string) :
  (found = "" \/ exists r, found = String "." r) ->
  ext_scan s found = "" \/ exists r, ext_scan s found = String "." r.
Proof.
  revert found. induction s as [|c s IH]; intros found Hf; cbn [ext_scan];
    [exact Hf|].
  destruct (Ascii.eqb c "/"); [apply IH; now left|].
  destruct (Ascii.eqb_spec c ".") as [-> | Hc]; [|now apply IH].
  apply IH. right. now exists s.
Qed.

Lemma Ext_dot (path : string) :
  Ext path = "" \/ exists r, Ext path = String "." r.
Proof. apply ext_scan_dot. now left. Qed.

(** [ORDER BY ... DESC] returns the same rows, largest key first. *)
Lemma insert_desc_In {A} (key : A -> Z) (x y : A) (l : list A) :
  In y (Pg.insert_desc key x l) <-> y = x \/ In y l.
Proof.
  induction l as [|z l IH]; simpl; [intuition|].
  destruct (key x <? key z); simpl; rewrite ?IH; intuition.
Qed.

Lemma order_by_desc_In {A} (key : A -> Z) (y : A) (l : list A) :
  In y (Pg.order_by_desc key l) <-> In y l.
Proof.
  unfold Pg.order_by_desc. induction l as [|x l IH]; simpl; [tauto|].
  rewrite insert_desc_In, IH. intuition.
Qed.

Lemma insert_desc_sorted {A} (key : A -> Z) (x : A) (l : list A) :
  Sorted (fun a b => key b <= key a) l ->
  Sorted (fun a b => key b <= key a) (Pg.insert_desc key x l).
Proof.
  induction 1 as [|z l Hs IH Hhd]; simpl.
  - repeat constructor.
  - destruct (key x <? key z) eqn:E.
    + apply Z.ltb_lt in E. constructor; [exact IH|].
      destruct l as [|z' l]; simpl.
      * constructor. lia.
      * destruct (key x <? key z'); constructor; [|lia].
        now inversion Hhd.
    + apply Z.ltb_ge in E. constructor; [now constructor|]. now constructor.
Qed.

Lemma order_by_desc_sorted {A} (key : A -> Z) (l : list A) :
  Sorted (fun a b => key b <= key a) (Pg.order_by_desc key l).
Proof.
  unfold Pg.order_by_desc. induction l as [|x l IH]; simpl.
  - constructor.
  - now apply insert_desc_sorted.
Qed.

(** The file name depends on the clock through its calendar reading down
    to the second only. *)
Lemma clipFilename_second_precision (id : Z) (t t' : Time) (original : string) :
  year t = year t' -> month t = month t' -> day t = day t' ->
  hour t = hour t' -> minute t = minute t' -> second t = second t' ->
  clipFilename id t original = clipFilename id t' original.
Proof.
  intros Hy Hmo Hd Hh Hmi Hs. unfold clipFilename, Format_20060102_150405.
  now rewrite Hy, Hmo, Hd, Hh, Hmi, Hs.
Qed.

(** ** Health check *)

(** C8: whatever the connectivity of the store, GET /health answers 200
    with success=true; the payload's database field is "connected" exactly
    when the probe succeeds and "disconnected" otherwise. *)
Theorem healthCheck_always_ok (e : Env) (w : World) :
  let r := healthCheck e w in
  StatusCode r = StatusOK
  /\ Success (Body r) = true
  /\ (exists m, Data (Body r) = DataMap m
        /\ (db_fault e 0%nat = None <-> m !! "database" = Some (JStr "connected"))
        /\ (db_fault e 0%nat <> None <-> m !! "database" = Some (JStr "disconnected"))).
Proof.
  unfold healthCheck; simpl. split; [reflexivity|]. split; [reflexivity|].
  eexists. split; [reflexivity|].
  rewrite lookup_insert_ne by discriminate.
  rewrite lookup_insert_ne by discriminate.
  rewrite lookup_insert_eq.
  destruct (db_fault e 0%nat); split; split; intros H;
    try discriminate; try reflexivity; try congruence.
Qed.


(** ** UTF-8 *)

Lemma decode_eq (s : string) :
  decode s =
  match s with
  | EmptyString => []
  | String c0 r0 =>
      let b0 := N_of_ascii c0 in
      if (b0 <? 128)%N then Some b0 :: decode r0
      else
        match r0 with
        | EmptyString => [None]
        | String c1 r1 =>
            let b1 := N_of_ascii c1 in
            if lead2 b0 && second_ok b0 b1 then Some (rune2 b0 b1) :: decode r1
            else
              match r1 with
              | EmptyString => None :: decode r0
              | String c2 r2 =>
                  let b2 := N_of_ascii c2 in
                  if lead3 b0 && second_ok b0 b1 && cont b2
                  then Some (rune3 b0 b1 b2) :: decode r2
                  else
                    match r2 with
                    | EmptyString => None :: decode r0
                    | String c3 r3 =>
                        let b3 := N_of_ascii c3 in
                        if lead4 b0 && second_ok b0 b1 && cont b2 && cont b3
                        then Some (rune4 b0 b1 b2 b3) :: decode r3
                        else None :: decode r0
                    end
              end
        end
  end.
Proof. destruct s; reflexivity. Qed.

(** An ASCII byte is a character of its own. *)
Lemma decode_ascii (c : ascii) (s : string) :
  (N_of_ascii c < 128)%N -> decode (String c s) = Some (N_of_ascii c) :: decode s.
Proof.
  intros H. rewrite decode_eq. cbv beta iota zeta.
  apply N.ltb_lt in H. now rewrite H.
Qed.

Lemma second_ok_low (b0 b : N) : (b < 128)%N -> second_ok b0 b = false.
Proof.
  intros H. unfold second_ok.
  destruct (b0 =? 224)%N, (b0 =? 240)%N, (b0 =? 237)%N, (b0 =? 244)%N;
    apply andb_false_iff; left; apply N.leb_gt; lia.
Qed.

Lemma cont_low (b : N) : (b < 128)%N -> cont b = false.
Proof.
  intros H. unfold cont. apply andb_false_iff; left; apply N.leb_gt; lia.
Qed.

Lemma second_ok_high (b0 b : N) : second_ok b0 b = true -> (128 <= b)%N.
Proof.
  intros H. destruct (N.lt_ge_cases b 128) as [Hlt|]; [|assumption].
  rewrite (second_ok_low b0 b Hlt) in H. discriminate H.
Qed.

Lemma cont_high (b : N) : cont b = true -> (128 <= b)%N.
Proof.
  intros H. destruct (N.lt_ge_cases b 128) as [Hlt|]; [|assumption].
  rewrite (cont_low b Hlt) in H. discriminate H.
Qed.

(** A character of more than one byte is beyond ASCII. *)
Lemma rune2_high (b0 b1 : N) :
  lead2 b0 && second_ok b0 b1 = true -> (128 <= rune2 b0 b1)%N.
Proof.
  intros H. apply andb_true_iff in H as [H0 H1].
  unfold lead2 in H0. apply andb_true_iff in H0 as [H0 _].
  apply N.leb_le in H0. unfold rune2. lia.
Qed.

Lemma rune3_high (b0 b1 b2 : N) :
  lead3 b0 && second_ok b0 b1 && cont b2 = true -> (128 <= rune3 b0 b1 b2)%N.
Proof.
  intros H. apply andb_true_iff in H as [H _].
  apply andb_true_iff in H as [H0 H1].
  unfold lead3 in H0. apply andb_true_iff in H0 as [H0 _].
  apply N.leb_le in H0. unfold second_ok in H1. unfold rune3.
  destruct (N.eqb_spec b0 224) as [-> | Hne].
  - simpl in H1. apply andb_true_iff in H1 as [H1 _]. apply N.leb_le in H1. lia.
  - lia.
Qed.

Lemma rune4_high (b0 b1 b2 b3 : N) :
  lead4 b0 && second_ok b0 b1 && cont b2 && cont b3 = true ->
  (128 <= rune4 b0 b1 b2 b3)%N.
Proof.
  intros H. apply andb_true_iff in H as [H _].
  apply andb_true_iff in H as [H _].
  apply andb_true_iff in H as [H0 H1].
  unfold lead4 in H0. apply andb_true_iff in H0 as [H0 _].
  apply N.leb_le in H0. unfold second_ok in H1. unfold rune4.
  destruct (N.eqb_spec b0 240) as [-> | Hne].
  - simpl in H1. apply andb_true_iff in H1 as [H1 _]. apply N.leb_le in H1. lia.
  - lia.
Qed.

(** Decoding does not look across an ASCII byte. *)
Lemma decode_app_ascii_len (c : ascii) (t : string) :
  (N_of_ascii c < 128)%N ->
  forall (n : nat) (s : string), (String.length s <= n)%nat ->
  decode (s ++ String c t) = (decode s ++ decode (String c t))%list.
Proof.
  intros Hc.
  pose proof (second_ok_low) as Hso. pose proof (cont_low _ Hc) as Hco.
  induction n as [|n IH]; intros s Hn.
  - destruct s; [reflexivity | simpl in Hn; lia].
  - destruct s as [|c0 r0]; [reflexivity|].
    rewrite append_cons.
    assert (IH0 : decode (r0 ++ String c t)
                  = (decode r0 ++ decode (String c t))%list)
      by (apply IH; simpl in Hn; lia).
    rewrite (decode_eq (String c0 (r0 ++ String c t))),
      (decode_eq (String c0 r0)).
    cbv beta iota zeta.
    destruct (N_of_ascii c0 <? 128)%N; [cbn [app]; now rewrite IH0|].
    destruct r0 as [|c1 r1].
    { change ("" ++ String c t) with (String c t). cbv beta iota.
      rewrite (Hso _ _ Hc), !andb_false_r.
      destruct t as [|c2 [|c3 r3]]; cbv beta iota;
        rewrite ?andb_false_r; reflexivity. }
    rewrite append_cons. cbv beta iota.
    destruct (lead2 (N_of_ascii c0) && second_ok (N_of_ascii c0) (N_of_ascii c1)).
    { cbn [app]. f_equal. apply IH. simpl in Hn. lia. }
    rewrite <- append_cons.
    destruct r1 as [|c2 r2].
    { rewrite (append_cons c1 ""). change ("" ++ String c t) with (String c t).
      cbv beta iota. rewrite Hco, !andb_false_r.
      destruct t as [|c3 r3]; cbv beta iota; rewrite ?andb_false_r;
        cbn [app]; f_equal; exact IH0. }
    rewrite (append_cons c1), (append_cons c2). cbv beta iota.
    destruct (lead3 (N_of_ascii c0) && second_ok (N_of_ascii c0) (N_of_ascii c1)
              && cont (N_of_ascii c2)).
    { cbn [app]. f_equal. apply IH. simpl in Hn. lia. }
    rewrite <- !append_cons.
    destruct r2 as [|c3 r3].
    { rewrite (append_cons c1), (append_cons c2 "").
      change ("" ++ String c t) with (String c t).
      cbv beta iota. rewrite Hco, !andb_false_r.
      cbn [app]. f_equal. exact IH0. }
    rewrite (append_cons c1), (append_cons c2), (append_cons c3). cbv beta iota.
    destruct (lead4 (N_of_ascii c0) && second_ok (N_of_ascii c0) (N_of_ascii c1)
              && cont (N_of_ascii c2) && cont (N_of_ascii c3)).
    { cbn [app]. f_equal. apply IH. simpl in Hn. lia. }
    rewrite <- !append_cons. cbn [app]. f_equal. exact IH0.
Qed.

Lemma decode_app_ascii (s : string) (c : ascii) (t : string) :
  (N_of_ascii c < 128)%N ->
  decode (s ++ String c t) = (decode s ++ decode (String c t))%list.
Proof. intros Hc. now apply (decode_app_ascii_len c t Hc (String.length s)). Qed.

(** The pattern of a name filter, character by character. *)
Lemma decode_percent (s : string) :
  decode ("%" ++ s ++ "%") = (Some 37%N :: decode s ++ [Some 37%N])%list.
Proof.
  rewrite append_cons. change ("" ++ s ++ "%") with (s ++ "%").
  rewrite decode_ascii by (simpl; lia).
  now rewrite decode_app_ascii by (simpl; lia).
Qed.

(** A character below 128 is a byte of the string. *)
Lemma has_byte_cons (c a : ascii) (s : string) :
  has_byte c s = true -> has_byte c (String a s) = true.
Proof. intros H. simpl. rewrite H. apply orb_true_r. Qed.

Lemma decode_low_byte_len (r : N) :
  (r < 128)%N ->
  forall (n : nat) (s : string), (String.length s <= n)%nat ->
  In (Some r) (decode s) -> has_byte (ascii_of_N r) s = true.
Proof.
  intros Hr. induction n as [|n IH]; intros s Hn Hin.
  - destruct s; [destruct Hin | simpl in Hn; lia].
  - destruct s as [|c0 r0]; [destruct Hin|].
    assert (IH0 : In (Some r) (decode r0) -> has_byte (ascii_of_N r) r0 = true)
      by (apply IH; simpl in Hn; lia).
    rewrite decode_eq in Hin. cbv beta iota zeta in Hin.
    destruct (N_of_ascii c0 <? 128)%N eqn:E0.
    { destruct Hin as [Heq | Hin].
      - injection Heq as <-. simpl. rewrite ascii_N_embedding.
        now rewrite Ascii.eqb_refl.
      - apply has_byte_cons. now apply IH0. }
    destruct r0 as [|c1 r1]; [destruct Hin as [Hin | []]; discriminate Hin|].
    destruct (lead2 (N_of_ascii c0) && second_ok (N_of_ascii c0) (N_of_ascii c1))
      eqn:E2.
    { destruct Hin as [Heq | Hin].
      - injection Heq as <-. apply rune2_high in E2. lia.
      - do 2 apply has_byte_cons. apply IH; [simpl in Hn; lia | exact Hin]. }
    destruct r1 as [|c2 r2].
    { destruct Hin as [Heq | Hin]; [discriminate Heq|].
      apply has_byte_cons. now apply IH0. }
    destruct (lead3 (N_of_ascii c0) && second_ok (N_of_ascii c0) (N_of_ascii c1)
              && cont (N_of_ascii c2)) eqn:E3.
    { destruct Hin as [Heq | Hin].
      - injection Heq as <-. apply rune3_high in E3. lia.
      - do 3 apply has_byte_cons. apply IH; [simpl in Hn; lia | exact Hin]. }
    destruct r2 as [|c3 r3].
    { destruct Hin as [Heq | Hin]; [discriminate Heq|].
      apply has_byte_cons. now apply IH0. }
    destruct (lead4 (N_of_ascii c0) && second_ok (N_of_ascii c0) (N_of_ascii c1)
              && cont (N_of_ascii c2) && cont (N_of_ascii c3)) eqn:E4.
    { destruct Hin as [Heq | Hin].
      - injection Heq as <-. apply rune4_high in E4. lia.
      - do 4 apply has_byte_cons. apply IH; [simpl in Hn; lia | exact Hin]. }
    destruct Hin as [Heq | Hin]; [discriminate Heq|].
    apply has_byte_cons. now apply IH0.
Qed.

Lemma runes_low_byte (r : N) (s : string) :
  (r < 128)%N -> In r (runes s) -> has_byte (ascii_of_N r) s = true.
Proof.
  intros Hr Hin. unfold runes in Hin. apply in_map_iff in Hin as ([x|] & Hx & Hin).
  - simpl in Hx. subst x.
    now apply (decode_low_byte_len r Hr (String.length s)).
  - simpl in Hx. subst r. unfold RuneError in Hr. lia.
Qed.

(** *** Lower case of the ASCII letters *)

Lemma N_of_lower_byte (c : ascii) :
  N_of_ascii (lower_byte c) = lower_rune (fun r => r) (N_of_ascii c).
Proof.
  unfold lower_byte, lower_rune.
  pose proof (N_ascii_bounded c) as Hb.
  destruct ((65 <=? N_of_ascii c) && (N_of_ascii c <=? 90))%N eqn:E.
  - apply andb_true_iff in E as [E1 E2]. apply N.leb_le in E1, E2.
    rewrite N_ascii_embedding by lia.
    assert (H : (N_of_ascii c <? 128)%N = true) by (apply N.ltb_lt; lia).
    now rewrite H.
  - now destruct (N_of_ascii c <? 128)%N.
Qed.

Lemma lower_byte_high (c : ascii) :
  (128 <= N_of_ascii c)%N -> lower_byte c = c.
Proof.
  intros H. unfold lower_byte.
  destruct ((65 <=? N_of_ascii c) && (N_of_ascii c <=? 90))%N eqn:E;
    [|reflexivity].
  apply andb_true_iff in E as [_ E2]. apply N.leb_le in E2. lia.
Qed.

Lemma lower_byte_low (c : ascii) :
  (N_of_ascii c < 128)%N -> (N_of_ascii (lower_byte c) < 128)%N.
Proof.
  intros H. rewrite N_of_lower_byte. unfold lower_rune.
  apply N.ltb_lt in H. rewrite H. apply N.ltb_lt in H.
  destruct ((65 <=? N_of_ascii c) && (N_of_ascii c <=? 90))%N eqn:E; [|exact H].
  apply andb_true_iff in E as [_ E2]. apply N.leb_le in E2. lia.
Qed.

Lemma second_ok_lower (b0 : N) (c : ascii) :
  second_ok b0 (N_of_ascii (lower_byte c)) = second_ok b0 (N_of_ascii c).
Proof.
  destruct (N.lt_ge_cases (N_of_ascii c) 128) as [H | H].
  - now rewrite !second_ok_low by (try apply lower_byte_low; exact H).
  - now rewrite lower_byte_high.
Qed.

Lemma cont_lower (c : ascii) :
  cont (N_of_ascii (lower_byte c)) = cont (N_of_ascii c).
Proof.
  destruct (N.lt_ge_cases (N_of_ascii c) 128) as [H | H].
  - now rewrite !cont_low by (try apply lower_byte_low; exact H).
  - now rewrite lower_byte_high.
Qed.

Lemma lower_rune_high (table : N -> N) (r : N) :
  (128 <= r)%N -> lower_rune table r = table r.
Proof.
  intros H. unfold lower_rune.
  assert (E : (r <? 128)%N = false) by (apply N.ltb_ge; exact H).
  now rewrite E.
Qed.

(** Lower-casing the ASCII letters of a string lower-cases its ASCII
    characters and leaves the others, and the ill-formed bytes, as they
    are. *)
Lemma decode_lowerASCII_len (n : nat) (s : string) :
  (String.length s <= n)%nat ->
  decode (lowerASCII s)
  = map (option_map (lower_rune (fun r => r))) (decode s).
Proof.
  revert s. induction n as [|n IH]; intros s Hn.
  - destruct s; [reflexivity | simpl in Hn; lia].
  - destruct s as [|c0 r0]; [reflexivity|].
    assert (IH0 : decode (lowerASCII r0)
                  = map (option_map (lower_rune (fun r => r))) (decode r0))
      by (apply IH; simpl in Hn; lia).
    cbn [lowerASCII].
    rewrite (decode_eq (String (lower_byte c0) (lowerASCII r0))),
      (decode_eq (String c0 r0)).
    cbv beta iota zeta.
    destruct (N_of_ascii c0 <? 128)%N eqn:E0.
    { apply N.ltb_lt in E0. pose proof (lower_byte_low c0 E0) as E0'.
      apply N.ltb_lt in E0'. rewrite E0'. cbn [map option_map].
      now rewrite IH0, N_of_lower_byte. }
    apply N.ltb_ge in E0. rewrite (lower_byte_high c0 E0).
    apply N.ltb_ge in E0. rewrite E0.
    destruct r0 as [|c1 r1]; [reflexivity|].
    cbn [lowerASCII]. cbv beta iota. rewrite second_ok_lower.
    destruct (lead2 (N_of_ascii c0) && second_ok (N_of_ascii c0) (N_of_ascii c1))
      eqn:E2.
    { pose proof (rune2_high _ _ E2) as Hh.
      apply andb_true_iff in E2 as [_ E2]. apply second_ok_high in E2.
      rewrite (lower_byte_high c1 E2). cbn [map option_map].
      rewrite lower_rune_high by exact Hh. f_equal.
      apply IH. simpl in Hn. lia. }
    change (String (lower_byte c1) (lowerASCII r1))
      with (lowerASCII (String c1 r1)).
    destruct r1 as [|c2 r2].
    { cbn [map option_map]. f_equal. exact IH0. }
    cbn [lowerASCII]. cbv beta iota. rewrite cont_lower.
    destruct (lead3 (N_of_ascii c0) && second_ok (N_of_ascii c0) (N_of_ascii c1)
              && cont (N_of_ascii c2)) eqn:E3.
    { pose proof (rune3_high _ _ _ E3) as Hh.
      apply andb_true_iff in E3 as [E3 E3c]. apply cont_high in E3c.
      apply andb_true_iff in E3 as [_ E3]. apply second_ok_high in E3.
      rewrite (lower_byte_high c1 E3), (lower_byte_high c2 E3c).
      cbn [map option_map].
      rewrite lower_rune_high by exact Hh. f_equal.
      apply IH. simpl in Hn. lia. }
    change (String (lower_byte c1) (String (lower_byte c2) (lowerASCII r2)))
      with (lowerASCII (String c1 (String c2 r2))).
    destruct r2 as [|c3 r3].
    { cbn [map option_map]. f_equal. exact IH0. }
    cbn [lowerASCII]. cbv beta iota. rewrite !cont_lower.
    destruct (lead4 (N_of_ascii c0) && second_ok (N_of_ascii c0) (N_of_ascii c1)
              && cont (N_of_ascii c2) && cont (N_of_ascii c3)) eqn:E4.
    { pose proof (rune4_high _ _ _ _ E4) as Hh.
      apply andb_true_iff in E4 as [E4 E4d]. apply cont_high in E4d.
      apply andb_true_iff in E4 as [E4 E4c]. apply cont_high in E4c.
      apply andb_true_iff in E4 as [_ E4]. apply second_ok_high in E4.
      rewrite (lower_byte_high c1 E4), (lower_byte_high c2 E4c),
        (lower_byte_high c3 E4d).
      cbn [map option_map].
      rewrite lower_rune_high by exact Hh. f_equal.
      apply IH. simpl in Hn. lia. }
    change (String (lower_byte c1)
              (String (lower_byte c2) (String (lower_byte c3) (lowerASCII r3))))
      with (lowerASCII (String c1 (String c2 (String c3 r3)))).
    cbn [map option_map]. f_equal. exact IH0.
Qed.

Lemma decode_lowerASCII (s : string) :
  decode (lowerASCII s)
  = map (option_map (lower_rune (fun r => r))) (decode s).
Proof. now apply (decode_lowerASCII_len (String.length s)). Qed.

(** ** List endpoints on an empty result *)

Lemma integer_int4 (id : Z) : Pg.int4 id = true -> Pg.integer id = None.
Proof. intros H. unfold Pg.integer. now rewrite H. Qed.

Lemma integer_out_of_range (id : Z) :
  Pg.int4 id = false -> Pg.integer id = Some (Pg.numeric_value_out_of_range id).
Proof. intros H. unfold Pg.integer. now rewrite H. Qed.

Lemma select_clips_int4 (d : Pg.DB) (id : Z) :
  Pg.int4 id = true ->
  Pg.select_clips d (Some id)
  = inr (Pg.order_by_desc (fun c => instant (Clip_CreatedAt c))
           (List.filter (fun c => Clip_BookingHourID c =? id) (Pg.clips d))).
Proof. intros H. unfold Pg.select_clips. now rewrite integer_int4. Qed.

Lemma select_booking_hours_int4 (d : Pg.DB) (id : Z) :
  Pg.int4 id = true ->
  Pg.select_booking_hours d (Some id)
  = inr (Pg.order_by_desc (fun b => instant (BookingHour_DateStart b))
           (List.filter (fun b => BookingHour_CourtID b =? id)
              (Pg.booking_hours d))).
Proof. intros H. unfold Pg.select_booking_hours. now rewrite integer_int4. Qed.

Lemma select_clips_none (d : Pg.DB) (id : Z) :
  Pg.int4 id = true ->
  (forall c, In c (Pg.clips d) -> Clip_BookingHourID c <> id) ->
  Pg.select_clips d (Some id) = inr [].
Proof.
  intros Hid H. rewrite select_clips_int4 by exact Hid.
  rewrite filter_none; [reflexivity|].
  intros c Hc. apply Z.eqb_neq. now apply H.
Qed.

Lemma select_booking_hours_none (d : Pg.DB) (id : Z) :
  Pg.int4 id = true ->
  (forall b, In b (Pg.booking_hours d) -> BookingHour_CourtID b <> id) ->
  Pg.select_booking_hours d (Some id) = inr [].
Proof.
  intros Hid H. rewrite select_booking_hours_int4 by exact Hid.
  rewrite filter_none; [reflexivity|].
  intros b Hb. apply Z.eqb_neq. now apply H.
Qed.

Lemma select_courts_none (d : Pg.DB) :
  (forall c, In c (Pg.courts d) -> Court_IsActive c = false) ->
  Pg.select_courts d = [].
Proof. intros H. unfold Pg.select_courts. now apply filter_none. Qed.

(** Without a name filter, GET /courts never takes the 404 branch. *)
Lemma getCourts_unfiltered (e : Env) (w : World) :
  db_fault e 0%nat = None ->
  getCourts e w "" =
  sendJSONResponse StatusOK
    {| Success := true;
       Message := "Courts retrieved successfully ("
                    ++ Itoa (len (collect (Pg.select_courts (db w))))
                    ++ " found)";
       Data := DataCourts (collect (Pg.select_courts (db w))) |}.
Proof.
  intros Hup. unfold getCourts; simpl. rewrite Hup. simpl.
  now rewrite andb_false_r.
Qed.

(** The list handlers with a filter that parses, and without filter,
    when the driver delivers the query: 200 with the rows the store
    returns, 500 with its message when it refuses the query. *)
Lemma getClips_filtered (e : Env) (w : World) (s : string) (id : Z) :
  db_fault e 0%nat = None -> Atoi s = Some id ->
  getClips e w s =
  match Pg.select_clips (db w) (Some id) with
  | inl err =>
      sendErrorResponse StatusInternalServerError
        ("Failed to fetch clips: " ++ Pg.Text err)
  | inr rows =>
      let clips := collect rows in
      sendJSONResponse StatusOK
        {| Success := true;
           Message := "Clips retrieved successfully (" ++ Itoa (len clips)
                        ++ " found)";
           Data := DataClips clips |}
  end.
Proof.
  intros Hup Hid. unfold getClips.
  rewrite (eqb_string_neq _ _ (Atoi_nonempty _ _ Hid)). cbn [negb].
  now rewrite Hid, Hup.
Qed.

Lemma getClips_unfiltered (e : Env) (w : World) :
  db_fault e 0%nat = None ->
  getClips e w "" =
  let clips :=
    collect (Pg.order_by_desc (fun c => instant (Clip_CreatedAt c))
               (Pg.clips (db w))) in
  sendJSONResponse StatusOK
    {| Success := true;
       Message := "Clips retrieved successfully (" ++ Itoa (len clips) ++ " found)";
       Data := DataClips clips |}.
Proof. intros Hup. unfold getClips. simpl. now rewrite Hup. Qed.

Lemma getBookingHours_filtered (e : Env) (w : World) (s : string) (id : Z) :
  db_fault e 0%nat = None -> Atoi s = Some id ->
  getBookingHours e w s =
  match Pg.select_booking_hours (db w) (Some id) with
  | inl err =>
      sendErrorResponse StatusInternalServerError
        ("Failed to fetch booking hours: " ++ Pg.Text err)
  | inr rows =>
      let bookingHours := collect rows in
      sendJSONResponse StatusOK
        {| Success := true;
           Message := "Booking hours retrieved successfully ("
                        ++ Itoa (len bookingHours) ++ " found)";
           Data := DataBookingHours bookingHours |}
  end.
Proof.
  intros Hup Hid. unfold getBookingHours.
  rewrite (eqb_string_neq _ _ (Atoi_nonempty _ _ Hid)). cbn [negb].
  now rewrite Hid, Hup.
Qed.

Lemma getBookingHours_unfiltered (e : Env) (w : World) :
  db_fault e 0%nat = None ->
  getBookingHours e w "" =
  let bookingHours :=
    collect (Pg.order_by_desc (fun b => instant (BookingHour_DateStart b))
               (Pg.booking_hours (db w))) in
  sendJSONResponse StatusOK
    {| Success := true;
       Message := "Booking hours retrieved successfully ("
                    ++ Itoa (len bookingHours) ++ " found)";
       Data := DataBookingHours bookingHours |}.
Proof. intros Hup. unfold getBookingHours. simpl. now rewrite Hup. Qed.

(** The list handlers other than courts-by-name have no 404 branch. *)
Lemma getClips_not_404 (e : Env) (w : World) (s : string) :
  StatusCode (getClips e w s) <> StatusNotFound.
Proof.
  unfold getClips.
  destruct (negb (String.eqb s "")); [destruct (Atoi s) as [id|]|];
    try discriminate;
    destruct (Pg.answer _ _); discriminate.
Qed.

Lemma getBookingHours_not_404 (e : Env) (w : World) (s : string) :
  StatusCode (getBookingHours e w s) <> StatusNotFound.
Proof.
  unfold getBookingHours.
  destruct (negb (String.eqb s "")); [destruct (Atoi s) as [id|]|];
    try discriminate;
    destruct (Pg.answer _ _); discriminate.
Qed.

Lemma getCourts_unfiltered_not_404 (e : Env) (w : World) :
  StatusCode (getCourts e w "") <> StatusNotFound.
Proof.
  unfold getCourts. simpl. destruct (Pg.answer _ _); [discriminate|].
  rewrite andb_false_r. discriminate.
Qed.

(** C1 (as the code has it): the list endpoints other than
    courts-by-name never answer 404.  When the driver delivers the query,
    GET /clips with a bookingHourId filter that parses as an integer,
    fits the 32-bit INTEGER column and matches no clip row answers 200
    with success=true, and its data is JSON null (the slice the rows are
    appended to is still nil), not the empty array; the same holds for GET
    /booking-hours with a courtId filter matching no row, and for the
    unfiltered clips, booking-hours and courts lists when there is no row
    to return.  A filter value that parses but is outside the INTEGER
    range is refused by the store: the answer is 500. *)
Theorem list_endpoints_empty_result (e : Env) (w : World) :
  (forall s, StatusCode (getClips e w s) <> StatusNotFound
             /\ StatusCode (getBookingHours e w s) <> StatusNotFound)
  /\ StatusCode (getCourts e w "") <> StatusNotFound
  /\ (db_fault e 0%nat = None ->
      (forall s id, Atoi s = Some id -> Pg.int4 id = true ->
         (forall c, In c (Pg.clips (db w)) -> Clip_BookingHourID c <> id) ->
         answers_ok_with (getClips e w s) JNull)
      /\ (forall s id, Atoi s = Some id -> Pg.int4 id = true ->
            (forall b, In b (Pg.booking_hours (db w)) ->
               BookingHour_CourtID b <> id) ->
            answers_ok_with (getBookingHours e w s) JNull)
      /\ (Pg.clips (db w) = [] -> answers_ok_with (getClips e w "") JNull)
      /\ (Pg.booking_hours (db w) = [] ->
            answers_ok_with (getBookingHours e w "") JNull)
      /\ ((forall c, In c (Pg.courts (db w)) -> Court_IsActive c = false) ->
            answers_ok_with (getCourts e w "") JNull)
      /\ (forall s id, Atoi s = Some id -> Pg.int4 id = false ->
            StatusCode (getClips e w s) = StatusInternalServerError
            /\ Data (Body (getClips e w s)) = DataNil
            /\ StatusCode (getBookingHours e w s) = StatusInternalServerError
            /\ Data (Body (getBookingHours e w s)) = DataNil)).
Proof.
  split; [intros s; split;
          [apply getClips_not_404 | apply getBookingHours_not_404]|].
  split; [apply getCourts_unfiltered_not_404|].
  intros Hup. unfold answers_ok_with. repeat apply conj.
  - intros s id Hid Hfit Hnone.
    rewrite (getClips_filtered _ _ _ _ Hup Hid),
      (select_clips_none _ _ Hfit Hnone).
    now repeat split.
  - intros s id Hid Hfit Hnone.
    rewrite (getBookingHours_filtered _ _ _ _ Hup Hid),
      (select_booking_hours_none _ _ Hfit Hnone).
    now repeat split.
  - intros Hnil. rewrite (getClips_unfiltered _ _ Hup).
    rewrite Hnil. now repeat split.
  - intros Hnil. rewrite (getBookingHours_unfiltered _ _ Hup).
    rewrite Hnil. now repeat split.
  - intros Hnone. rewrite (getCourts_unfiltered _ _ Hup),
      (select_courts_none _ Hnone).
    now repeat split.
  - intros s id Hid Hout.
    rewrite (getClips_filtered _ _ _ _ Hup Hid),
      (getBookingHours_filtered _ _ _ _ Hup Hid).
    unfold Pg.select_clips, Pg.select_booking_hours.
    rewrite (integer_out_of_range _ Hout). now repeat split.
Qed.

Lemma list_endpoints_empty_result_witness :
  answers_ok_with (getClips env0 world0 "999") JNull.
Proof.
  refine (proj1 (proj2 (proj2 (list_endpoints_empty_result env0 world0))
                   eq_refl) "999" 999 _ _ _).
  - reflexivity.
  - reflexivity.
  - intros c Hc. destruct Hc.
Defined.

(** C1, as stated, fails: GET /clips?bookingHourId=999 with no clip of
    that booking hour does not carry the empty array as data; and
    GET /clips?bookingHourId=99999999999, a value that parses as an
    integer and is the booking hour of no clip, is answered 500. *)
Lemma getClips_empty_is_not_array :
  Atoi "999" = Some 999
  /\ Pg.select_clips (db world0) (Some 999) = inr []
  /\ ~ answers_ok_with (getClips env0 world0 "999") (JArr [])
  /\ Atoi "99999999999" = Some 99999999999
  /\ (forall c, In c (Pg.clips (db world0)) ->
        Clip_BookingHourID c <> 99999999999)
  /\ StatusCode (getClips env0 world0 "99999999999")
     = StatusInternalServerError.
Proof.
  split; [reflexivity|]. split; [reflexivity|].
  split; [intros (_ & _ & H); vm_compute in H; discriminate H|].
  split; [reflexivity|]. split; [intros c Hc; destruct Hc|].
  reflexivity.
Qed.

(** ** Courts by name *)

Lemma has_prefix_spec (pre s : string) :
  has_prefix pre s = true <-> exists t, s = pre ++ t.
Proof.
  revert s. induction pre as [|a pre IH]; intros s; simpl.
  - split; [intros _; now exists s | reflexivity].
  - destruct s as [|b s]; simpl.
    + split; [discriminate | intros [t Ht]; discriminate Ht].
    + rewrite andb_true_iff, Ascii.eqb_eq, IH. split.
      * intros [-> [t ->]]. now exists t.
      * intros [t Ht]. injection Ht as -> ->. split; [reflexivity | now exists t].
Qed.

Lemma is_substring_spec (sub s : string) :
  is_substring sub s = true <-> exists a b, s = a ++ sub ++ b.
Proof.
  induction s as [|c s IH]; simpl.
  - rewrite orb_false_r, has_prefix_spec. split.
    + intros [t Ht]. now exists "", t.
    + intros [a [b H]]. destruct a; [now exists b | discriminate H].
  - rewrite orb_true_iff, has_prefix_spec, IH. split.
    + intros [[t Ht] | [a [b ->]]].
      * now exists "", t.
      * now exists (String c a), b.
    + intros [a [b H]]. destruct a as [|c' a]; simpl in H.
      * left. now exists b.
      * right. injection H as -> ->. now exists a, b.
Qed.

Lemma starts_with_spec (pre s : list N) :
  starts_with pre s = true <-> exists t, s = (pre ++ t)%list.
Proof.
  revert s. induction pre as [|a pre IH]; intros s; simpl.
  - split; [intros _; now exists s | reflexivity].
  - destruct s as [|b s]; simpl.
    + split; [discriminate | intros [t Ht]; discriminate Ht].
    + rewrite andb_true_iff, N.eqb_eq, IH. split.
      * intros [-> [t ->]]. now exists t.
      * intros [t Ht]. injection Ht as -> ->. split; [reflexivity | now exists t].
Qed.

Lemma contains_spec (sub s : list N) :
  contains sub s = true <-> exists a b, s = (a ++ sub ++ b)%list.
Proof.
  induction s as [|c s IH]; simpl.
  - rewrite orb_false_r, starts_with_spec. split.
    + intros [t Ht]. now exists [], t.
    + intros [a [b H]]. destruct a; [now exists b | discriminate H].
  - rewrite orb_true_iff, starts_with_spec, IH. split.
    + intros [[t Ht] | [a [b ->]]].
      * now exists [], t.
      * now exists (c :: a), b.
    + intros [a [b H]]. destruct a as [|c' a]; simpl in H.
      * left. now exists b.
      * right. injection H as -> ->. now exists a, b.
Qed.

Lemma like_match_percent (p s : list N) :
  Pg.like_match (37%N :: p) s =
  Pg.like_match p s
  || match s with
     | [] => false
     | _ :: r => Pg.like_match (37%N :: p) r
     end.
Proof. destruct s; reflexivity. Qed.

Lemma like_match_any (s : list N) : Pg.like_match [37%N] s = true.
Proof.
  induction s as [|c s IH]; [reflexivity|].
  rewrite like_match_percent. simpl. exact IH.
Qed.

Lemma like_match_literal (c : N) (p s : list N) :
  Pg.special c = false ->
  Pg.like_match (c :: p) s =
  match s with
  | [] => false
  | d :: s' => (c =? d)%N && Pg.like_match p s'
  end.
Proof.
  unfold Pg.special. intros H.
  apply orb_false_iff in H as [H H3]. apply orb_false_iff in H as [H1 H2].
  cbn [Pg.like_match]. now rewrite H1, H2, H3.
Qed.

Lemma like_match_plain_prefix (q s : list N) :
  forallb (fun c => negb (Pg.special c)) q = true ->
  Pg.like_match (q ++ [37%N]) s = starts_with q s.
Proof.
  revert s. induction q as [|c q IH]; intros s Hq.
  - apply like_match_any.
  - simpl in Hq. apply andb_true_iff in Hq as [Hc Hq].
    apply negb_true_iff in Hc.
    change ((c :: q) ++ [37%N])%list with (c :: (q ++ [37%N]))%list.
    rewrite (like_match_literal _ _ _ Hc). simpl.
    destruct s as [|d s]; [reflexivity|]. now rewrite IH.
Qed.

Lemma like_match_plain_substring (q s : list N) :
  forallb (fun c => negb (Pg.special c)) q = true ->
  Pg.like_match (37%N :: q ++ [37%N]) s = contains q s.
Proof.
  intros Hq.
  induction s as [|c s IH]; rewrite like_match_percent, like_match_plain_prefix
    by assumption.
  - reflexivity.
  - rewrite IH. reflexivity.
Qed.

Lemma lowerASCII_app (a b : string) : lowerASCII (a ++ b) = lowerASCII a ++ lowerASCII b.
Proof. induction a as [|c a IH]; simpl; [reflexivity | now rewrite IH]. Qed.

(** The pattern sent by GET /courts never ends in a lone escape, so the
    error case of LIKE does not arise. *)
Lemma dangling_escape_percent (q : list N) :
  Pg.dangling_escape (q ++ [37%N]) = false
  /\ forall d, Pg.dangling_escape (d :: q ++ [37%N]) = false.
Proof.
  induction q as [|c q [IH1 IH2]].
  - split; [reflexivity|]. intros d. simpl. now destruct (d =? 92)%N.
  - split; [apply IH2|].
    intros d. change ((c :: q) ++ [37%N])%list with (c :: (q ++ [37%N]))%list.
    cbn [Pg.dangling_escape]. destruct (d =? 92)%N; [exact IH1 | apply IH2].
Qed.

(** Lower-casing makes no character special and no special character
    plain. *)
Lemma lower_char_special (towlower : N -> N) (r : N) :
  Pg.special (Pg.lower_char towlower r) = Pg.special r.
Proof.
  unfold Pg.lower_char, Pg.special.
  destruct (r <? 128)%N eqn:E.
  - destruct ((65 <=? r) && (r <=? 90))%N eqn:U; [|reflexivity].
    apply andb_true_iff in U as [U1 U2]. apply N.leb_le in U1, U2.
    repeat match goal with
           | |- context [(?a =? ?b)%N] =>
               destruct (N.eqb_spec a b); try lia
           end; try reflexivity.
  - apply N.ltb_ge in E.
    destruct ((towlower r <? 128)
              && negb ((97 <=? towlower r) && (towlower r <=? 122)))%N eqn:L;
      [reflexivity|].
    apply andb_false_iff in L as [L | L].
    + apply N.ltb_ge in L.
      repeat match goal with
             | |- context [(?a =? ?b)%N] =>
                 destruct (N.eqb_spec a b); try lia
             end; try reflexivity.
    + apply negb_false_iff, andb_true_iff in L as [L1 L2].
      apply N.leb_le in L1, L2.
      repeat match goal with
             | |- context [(?a =? ?b)%N] =>
                 destruct (N.eqb_spec a b); try lia
             end; try reflexivity.
Qed.

Lemma lower_pattern (towlower : N -> N) (s : string) :
  Pg.lower towlower ("%" ++ s ++ "%")
  = (37%N :: Pg.lower towlower s ++ [37%N])%list.
Proof.
  unfold Pg.lower, runes. rewrite decode_percent.
  cbn [map]. now rewrite !map_app.
Qed.

Lemma getCourts_pattern_well_formed (towlower : N -> N) (nameFilter : string) :
  Pg.dangling_escape (Pg.lower towlower ("%" ++ nameFilter ++ "%")) = false.
Proof.
  rewrite lower_pattern.
  apply (proj2 (dangling_escape_percent (Pg.lower towlower nameFilter))).
Qed.

Lemma valid_text_pattern (s : string) :
  Pg.valid_text ("%" ++ s ++ "%") = Pg.valid_text s.
Proof.
  unfold Pg.valid_text. rewrite decode_percent.
  cbn [forallb]. rewrite forallb_app. cbn [forallb].
  now rewrite andb_true_r.
Qed.

Lemma has_byte_plain (c : ascii) (s : string) :
  plain s = true -> is_wildcard c = true -> has_byte c s = false.
Proof.
  intros Hp Hc. induction s as [|a s IH]; [reflexivity|].
  simpl in Hp. apply andb_true_iff in Hp as [Ha Hp]. simpl.
  rewrite (IH Hp), orb_false_r.
  destruct (Ascii.eqb_spec a c) as [-> | Hne]; [|reflexivity].
  rewrite Hc in Ha. discriminate Ha.
Qed.

(** A filter without the bytes [%], [_] and backslash has none of these
    characters, also after lower-casing. *)
Lemma lower_plain (towlower : N -> N) (s : string) :
  plain s = true ->
  forallb (fun c => negb (Pg.special c)) (Pg.lower towlower s) = true.
Proof.
  intros Hp. apply forallb_forall. intros c Hc.
  unfold Pg.lower in Hc. apply in_map_iff in Hc as (r & <- & Hr).
  rewrite lower_char_special. apply negb_true_iff.
  destruct (Pg.special r) eqn:S; [|reflexivity].
  assert (Hlow : (r < 128)%N).
  { unfold Pg.special in S.
    repeat match type of S with
           | context [(?a =? ?b)%N] => destruct (N.eqb_spec a b); try lia
           end; try discriminate S. }
  pose proof (runes_low_byte r s Hlow Hr) as Hb.
  rewrite has_byte_plain in Hb; [discriminate Hb | exact Hp |].
  unfold Pg.special in S. unfold is_wildcard.
  repeat match type of S with
         | context [(?a =? ?b)%N] => destruct (N.eqb_spec a b); try subst r
         end; try reflexivity; try discriminate S.
Qed.

(** On a filter without [%], [_] and backslash, the pattern the handler
    builds selects by substring after lower-casing. *)
Lemma ILIKE_plain_filter (towlower : N -> N) (name nameFilter : string) :
  plain nameFilter = true ->
  Pg.valid_text nameFilter = true ->
  Pg.ILIKE towlower name ("%" ++ nameFilter ++ "%")
  = containsLower towlower name nameFilter.
Proof.
  intros Hp Hv. unfold Pg.ILIKE, containsLower.
  rewrite valid_text_pattern, Hv, lower_pattern. cbn [andb].
  apply like_match_plain_substring. now apply lower_plain.
Qed.

Lemma len_zero_iff {A} (s : slice A) : (len s =? 0) = true <-> elems s = [].
Proof.
  unfold len. rewrite Z.eqb_eq. destruct (elems s); simpl; split;
    intros H; try reflexivity; try discriminate; lia.
Qed.

Lemma elems_collect_from {A} (rows : list A) (s : slice A) :
  elems (fold_left append rows s) = (elems s ++ rows)%list.
Proof.
  revert s. induction rows as [|x rows IH]; intros s; simpl.
  - now rewrite app_nil_r.
  - rewrite IH. simpl. now rewrite <- app_assoc.
Qed.

Lemma elems_collect {A} (rows : list A) : elems (collect rows) = rows.
Proof. unfold collect. now rewrite elems_collect_from. Qed.

Lemma collect_rows {A} (rows : list A) :
  rows <> [] -> collect rows = Slice rows.
Proof.
  intros H. pose proof (elems_collect rows) as He.
  destruct (collect rows) as [|l]; simpl in He; congruence.
Qed.

Lemma text_valid (s : string) : Pg.valid_text s = true -> Pg.text s = None.
Proof. intros H. unfold Pg.text. now rewrite H. Qed.

Lemma text_refused (s : string) :
  Pg.valid_text s = false -> exists err, Pg.text s = Some err.
Proof. intros H. unfold Pg.text. rewrite H. now eexists. Qed.

(** GET /courts with a filter, when the driver delivers the query. *)
Lemma getCourts_filtered (e : Env) (w : World) (nameFilter : string) :
  db_fault e 0%nat = None ->
  nameFilter <> "" ->
  getCourts e w nameFilter =
  match Pg.text ("%" ++ nameFilter ++ "%") with
  | Some err =>
      sendErrorResponse StatusInternalServerError
        ("Failed to fetch courts: " ++ Pg.Text err)
  | None =>
      let rows :=
        List.filter
          (fun c => Pg.ILIKE (pg_towlower e) (Court_Name c)
                      ("%" ++ nameFilter ++ "%") && Court_IsActive c)
          (Pg.courts (db w)) in
      match rows with
      | [] => sendErrorResponse StatusNotFound "Court not found"
      | _ =>
          sendJSONResponse StatusOK
            {| Success := true;
               Message := "Courts retrieved successfully ("
                            ++ Itoa (len (Slice rows)) ++ " found)";
               Data := DataCourts (Slice rows) |}
      end
  end.
Proof.
  intros Hup Hne. unfold getCourts.
  rewrite (eqb_string_neq _ _ Hne), Hup. cbn [negb Pg.answer].
  unfold Pg.select_courts_by_name.
  destruct (Pg.text ("%" ++ nameFilter ++ "%")) as [err|]; [reflexivity|].
  rewrite andb_true_r.
  destruct (List.filter _ _) as [|x l] eqn:Hrows; [reflexivity|].
  rewrite collect_rows by discriminate. reflexivity.
Qed.

(** X6: GET /courts with a non-empty filter free of the LIKE wildcards
    (percent, underscore, backslash), when the driver delivers the query.
    A filter that is not text (ill-formed UTF-8, or a NUL) is refused by
    the store: 500.  Otherwise the rows are the active courts whose name
    contains the filter, both lower-cased as the database does, in table
    order; 404 with null data when there is none, 200 with exactly these
    rows otherwise. *)
Lemma getCourts_plain_filter (e : Env) (w : World) (nameFilter : string) :
  db_fault e 0%nat = None ->
  nameFilter <> "" ->
  plain nameFilter = true ->
  let found :=
    List.filter
      (fun c => containsLower (pg_towlower e) (Court_Name c) nameFilter
                && Court_IsActive c)
      (Pg.courts (db w)) in
  let r := getCourts e w nameFilter in
  (Pg.valid_text nameFilter = false ->
   StatusCode r = StatusInternalServerError /\ Success (Body r) = false
   /\ Data (Body r) = DataNil)
  /\ (Pg.valid_text nameFilter = true ->
      (found = [] -> StatusCode r = StatusNotFound /\ Success (Body r) = false
                     /\ Data (Body r) = DataNil)
      /\ (found <> [] -> StatusCode r = StatusOK /\ Success (Body r) = true
                         /\ Data (Body r) = DataCourts (Slice found))).
Proof.
  intros Hup Hne Hplain found r. subst r.
  rewrite (getCourts_filtered _ _ _ Hup Hne). split.
  - intros Hv. rewrite <- valid_text_pattern in Hv.
    destruct (text_refused _ Hv) as [err ->]. now repeat split.
  - intros Hv. rewrite text_valid by (now rewrite valid_text_pattern).
    cbv zeta.
    assert (Hrows :
      List.filter
        (fun c => Pg.ILIKE (pg_towlower e) (Court_Name c)
                    ("%" ++ nameFilter ++ "%") && Court_IsActive c)
        (Pg.courts (db w)) = found).
    { unfold found. apply filter_ext.
      intros c. now rewrite ILIKE_plain_filter. }
    rewrite Hrows. destruct found as [|x l]; split.
    + intros _. now repeat split.
    + intros H. now contradiction H.
    + intros H. discriminate H.
    + intros _. now repeat split.
Qed.

(** X7: whatever the filter and the environment, every court in an
    answer of GET /courts is a row of the courts table with is_active
    true: inactive courts are in no answer. *)
Lemma getCourts_only_active (e : Env) (w : World) (nameFilter : string)
    (s : slice Court) (c : Court) :
  Data (Body (getCourts e w nameFilter)) = DataCourts s ->
  In c (elems s) -> Court_IsActive c = true /\ In c (Pg.courts (db w)).
Proof.
  unfold getCourts.
  destruct (Pg.answer _ _) as [err|rows] eqn:Hq; [discriminate|].
  destruct (_ && _); [discriminate|]. simpl.
  intros [= <-]. rewrite elems_collect.
  unfold Pg.answer in Hq. destruct (db_fault e 0%nat); [discriminate Hq|].
  destruct (negb _).
  - unfold Pg.select_courts_by_name in Hq.
    destruct (Pg.text _); [discriminate Hq|]. injection Hq as <-.
    rewrite filter_In, andb_true_iff. tauto.
  - injection Hq as <-. unfold Pg.select_courts. rewrite filter_In. tauto.
Qed.

Lemma getCourts_plain_filter_witness :
  StatusCode (getCourts env0 world0 "KIRI") = StatusOK
  /\ Success (Body (getCourts env0 world0 "KIRI")) = true
  /\ Data (Body (getCourts env0 world0 "KIRI")) = DataCourts (Slice [court1]).
Proof.
  refine (proj2 (proj2 (getCourts_plain_filter env0 world0 "KIRI"
                          eq_refl _ eq_refl) eq_refl) _);
    discriminate.
Defined.

Lemma getCourts_only_active_witness :
  Court_IsActive court1 = true /\ In court1 (Pg.courts (db world0)).
Proof.
  refine (getCourts_only_active env0 world0 "kiri" (Slice [court1]) court1 _ _).
  - reflexivity.
  - now left.
Defined.

(** C2 fails on a filter that holds a LIKE wildcard: GET /courts?name=_
    returns the active court "Lapangan 1 Kiri", whose name does not
    contain an underscore, with status 200, where the claim has 404. *)
Theorem getCourts_underscore_filter :
  containsFold (Court_Name court1) "_" = false
  /\ List.filter (fun c => containsFold (Court_Name c) "_" && Court_IsActive c)
       (Pg.courts (db world0)) = []
  /\ StatusCode (getCourts env0 world0 "_") = StatusOK
  /\ Data (Body (getCourts env0 world0 "_")) = DataCourts (Slice [court1]).
Proof. repeat split. Qed.

(** ** Creating a booking hour *)

Lemma court_exists_active_false (d : Pg.DB) (id : Z) :
  (forall c, In c (Pg.courts d) -> Court_ID c = id -> Court_IsActive c = false) ->
  Pg.court_exists_active d id
  = if Pg.int4 id then inr false
    else inl (Pg.numeric_value_out_of_range id).
Proof.
  intros H. unfold Pg.court_exists_active, Pg.integer.
  destruct (Pg.int4 id); [|reflexivity]. f_equal.
  apply not_true_is_false. intros Hex.
  apply existsb_exists in Hex as (c & Hin & Hc).
  apply andb_true_iff in Hc as [Hid Hact]. apply Z.eqb_eq in Hid.
  rewrite (H c Hin Hid) in Hact. discriminate Hact.
Qed.

(** C3 (as the code has it): when the courtId of the request resolves to
    no court, or only to an inactive one, POST /booking-hours changes
    nothing in the store and on disk and answers with success=false and
    null data, never 404.  When the driver delivers the existence check
    and the id fits the 32-bit INTEGER column, the answer is 400; an id
    outside that range (in a request that passes the validation) is
    refused by the store and the answer is 500. *)
Theorem createBookingHour_court_check (e : Env) (w : World) (bh : BookingHour) :
  (forall c, In c (Pg.courts (db w)) ->
     Court_ID c = BookingHour_CourtID bh -> Court_IsActive c = false) ->
  let out := createBookingHour e w (Some bh) in
  fst out = w
  /\ StatusCode (snd out) <> StatusNotFound
  /\ Success (Body (snd out)) = false
  /\ Data (Body (snd out)) = DataNil
  /\ (db_fault e 0%nat = None -> Pg.int4 (BookingHour_CourtID bh) = true ->
      StatusCode (snd out) = StatusBadRequest)
  /\ (db_fault e 0%nat = None -> Pg.int4 (BookingHour_CourtID bh) = false ->
      IsZero (BookingHour_DateStart bh) = false ->
      IsZero (BookingHour_DateEnd bh) = false ->
      StatusCode (snd out) = StatusInternalServerError).
Proof.
  intros H. apply court_exists_active_false in H.
  unfold createBookingHour.
  destruct (BookingHour_CourtID bh =? 0) eqn:Hz.
  { apply Z.eqb_eq in Hz. rewrite Hz. repeat split; discriminate. }
  destruct (IsZero (BookingHour_DateStart bh)) eqn:Hs;
    [cbn [orb fst snd]; repeat split; try discriminate;
     intros _ _ Hf; discriminate Hf|].
  destruct (IsZero (BookingHour_DateEnd bh)) eqn:He;
    [cbn [orb fst snd]; repeat split; try discriminate;
     intros _ _ _ Hf; discriminate Hf|].
  cbn [orb]. rewrite H. unfold Pg.answer.
  destruct (db_fault e 0%nat) as [err|].
  { cbn [fst snd]. repeat split; try discriminate;
      intros Hf; discriminate Hf. }
  destruct (Pg.int4 (BookingHour_CourtID bh)); cbn [negb fst snd];
    repeat split; try discriminate; intros _ Hf; discriminate Hf.
Qed.

Lemma createBookingHour_court_check_witness :
  StatusCode (snd (createBookingHour env0 world0 (Some bookingInactive)))
  = StatusBadRequest.
Proof.
  refine (proj1 (proj2 (proj2 (proj2 (proj2
    (createBookingHour_court_check env0 world0 bookingInactive _)))))
    eq_refl eq_refl).
  intros c [<- | [<- | []]]; simpl; [discriminate | reflexivity].
Defined.

(** C3, as stated, fails: court id 2147483648 is the id of no court, the
    decoder accepts it (a Go int has 64 bits), and the answer is 500, not
    400: the store refuses the existence check. *)
Lemma createBookingHour_court_id_out_of_range :
  (forall c, In c (Pg.courts (db world0)) ->
     Court_ID c <> BookingHour_CourtID bookingFar)
  /\ db_fault env0 0%nat = None
  /\ StatusCode (snd (createBookingHour env0 world0 (Some bookingFar)))
     = StatusInternalServerError
  /\ Message (Body (snd (createBookingHour env0 world0 (Some bookingFar))))
     = "Failed to verify court: pq: value " ++ Pg.quoted "2147483648"
         ++ " is out of range for type integer"
  /\ fst (createBookingHour env0 world0 (Some bookingFar)) = world0.
Proof.
  split; [intros c [<- | [<- | []]]; discriminate|].
  repeat split.
Qed.

(** ** Uploading against an unknown booking hour *)

Lemma booking_hour_exists_false (d : Pg.DB) (id : Z) :
  (forall b, In b (Pg.booking_hours d) -> BookingHour_ID b <> id) ->
  Pg.booking_hour_exists d id
  = if Pg.int4 id then inr false
    else inl (Pg.numeric_value_out_of_range id).
Proof.
  intros H. unfold Pg.booking_hour_exists, Pg.integer.
  destruct (Pg.int4 id); [|reflexivity]. f_equal.
  apply not_true_is_false. intros Hex.
  apply existsb_exists in Hex as (b & Hin & Hb).
  apply Z.eqb_eq in Hb. exact (H b Hin Hb).
Qed.

(** C4 (as the code has it): when the bookingHourId field parses as an
    integer that is the id of no booking hour, POST /clips leaves the
    files and the tables as they were (the check comes before the file is
    created and before the insert) and answers with success=false and null
    data.  When the driver delivers the check and the id fits the 32-bit
    INTEGER column, the answer is 400; an id outside that range is refused
    by the store and the answer is 500. *)
Theorem uploadClip_unknown_booking_hour (e : Env) (w : World)
    (r : UploadRequest) (id : Z) :
  Atoi (sentField r "bookingHourId") = Some id ->
  (forall b, In b (Pg.booking_hours (db w)) -> BookingHour_ID b <> id) ->
  let out := uploadClip e w r in
  fst out = w
  /\ Success (Body (snd out)) = false
  /\ Data (Body (snd out)) = DataNil
  /\ (db_fault e 0%nat = None -> Pg.int4 id = true ->
      StatusCode (snd out) = StatusBadRequest)
  /\ (db_fault e 0%nat = None -> Pg.int4 id = false -> malformed r = false ->
      StatusCode (snd out) = StatusInternalServerError).
Proof.
  intros Hid H out. subst out. apply booking_hour_exists_false in H.
  unfold uploadClip, ParseMultipartForm.
  destruct (malformed r);
    [repeat split; intros _ _ Hf; discriminate Hf|].
  unfold FormValue. cbn [Value].
  fold (sentField r "bookingHourId").
  rewrite (eqb_string_neq _ _ (Atoi_nonempty _ _ Hid)), Hid, H.
  unfold Pg.answer.
  destruct (db_fault e 0%nat) as [err|] eqn:Hf.
  - cbn [fst snd]. repeat split; intros Hf'; discriminate Hf'.
  - destruct (Pg.int4 id); cbn [negb fst snd]; repeat split;
      try discriminate; intros _ Hf'; discriminate Hf'.
Qed.

Lemma uploadClip_unknown_booking_hour_witness :
  StatusCode (snd (uploadClip env0 world0 upload999)) = StatusBadRequest.
Proof.
  refine (proj1 (proj2 (proj2 (proj2
    (uploadClip_unknown_booking_hour env0 world0 upload999 999 _ _))))
    eq_refl eq_refl).
  - reflexivity.
  - intros b [<- | []]. discriminate.
Defined.

(** C4, as stated, fails: bookingHourId=2147483648 parses, is the id of
    no booking hour, and the answer is 500, not 400: the store refuses the
    existence check.  No file and no row is created. *)
Lemma uploadClip_booking_hour_id_out_of_range :
  Atoi (sentField uploadFar "bookingHourId") = Some 2147483648
  /\ (forall b, In b (Pg.booking_hours (db world0)) ->
        BookingHour_ID b <> 2147483648)
  /\ db_fault env0 0%nat = None
  /\ StatusCode (snd (uploadClip env0 world0 uploadFar))
     = StatusInternalServerError
  /\ Message (Body (snd (uploadClip env0 world0 uploadFar)))
     = "Failed to verify booking hour: pq: value " ++ Pg.quoted "2147483648"
         ++ " is out of range for type integer"
  /\ fst (uploadClip env0 world0 uploadFar) = world0.
Proof.
  split; [reflexivity|].
  split; [intros b [<- | []]; discriminate|].
  repeat split.
Qed.

(** ** What an insert does *)

Lemma first_error_none (checks : list (option Pg.Error)) :
  Pg.first_error checks = None <-> Forall (fun c => c = None) checks.
Proof.
  induction checks as [|c checks IH]; simpl.
  - split; [constructor | reflexivity].
  - destruct c as [err|].
    + split; [discriminate | intros H; inversion H; discriminate].
    + rewrite IH. split; [now constructor | intros H; now inversion H].
Qed.

Lemma nextval_drawn (sequence : string) (last_value id : Z) :
  Pg.nextval sequence last_value = inr id ->
  id = last_value + 1 /\ last_value < 2147483647.
Proof.
  unfold Pg.nextval. destruct (last_value <? 2147483647) eqn:E; [|discriminate].
  intros [= <-]. apply Z.ltb_lt in E. now split.
Qed.

Lemma nextval_exhausted (sequence : string) (last_value : Z) (err : Pg.Error) :
  Pg.nextval sequence last_value = inl err ->
  2147483647 <= last_value /\ Pg.Code err = Some "2200H".
Proof.
  unfold Pg.nextval. destruct (last_value <? 2147483647) eqn:E; [discriminate|].
  intros [= <-]. apply Z.ltb_ge in E. now split.
Qed.

(** The outcomes of INSERT INTO courts: refused before an id is drawn;
    refused by a unique index, the id consumed; the row inserted. *)
Lemma insert_court_outcome (now : Time) (name : string)
    (description : option string) (d : Pg.DB) :
  (exists err,
     Pg.insert_court now name description d = (d, inl err)
     /\ (Pg.first_error [Pg.text name; Pg.text_opt description;
                         Pg.varchar 255 name] = Some err
         \/ (Pg.first_error [Pg.text name; Pg.text_opt description;
                             Pg.varchar 255 name] = None
             /\ 2147483647 <= Pg.courts_id_seq d
             /\ Pg.Code err = Some "2200H")))
  \/ (exists err,
        Pg.insert_court now name description d
        = ({| Pg.courts := Pg.courts d;
              Pg.courts_id_seq := Pg.courts_id_seq d + 1;
              Pg.booking_hours := Pg.booking_hours d;
              Pg.booking_hours_id_seq := Pg.booking_hours_id_seq d;
              Pg.clips := Pg.clips d; Pg.clips_id_seq := Pg.clips_id_seq d |},
           inl err)
        /\ Pg.Code err = Some "23505"
        /\ Pg.first_error [Pg.text name; Pg.text_opt description;
                           Pg.varchar 255 name] = None
        /\ Pg.courts_id_seq d < 2147483647
        /\ (existsb (fun c => Court_ID c =? Pg.courts_id_seq d + 1) (Pg.courts d)
            || existsb (fun c => String.eqb (Court_Name c) (Pg.stored 255 name))
                 (Pg.courts d)) = true)
  \/ (Pg.insert_court now name description d
      = ({| Pg.courts :=
              Pg.courts d ++
              [{| Court_ID := Pg.courts_id_seq d + 1;
                  Court_Name := Pg.stored 255 name;
                  Court_Description := description;
                  Court_IsActive := true;
                  Court_CreatedAt := now; Court_UpdatedAt := now |}];
            Pg.courts_id_seq := Pg.courts_id_seq d + 1;
            Pg.booking_hours := Pg.booking_hours d;
            Pg.booking_hours_id_seq := Pg.booking_hours_id_seq d;
            Pg.clips := Pg.clips d; Pg.clips_id_seq := Pg.clips_id_seq d |},
         inr (Pg.courts_id_seq d + 1, now, now))
      /\ Pg.first_error [Pg.text name; Pg.text_opt description;
                         Pg.varchar 255 name] = None
      /\ Pg.courts_id_seq d < 2147483647
      /\ existsb (fun c => Court_ID c =? Pg.courts_id_seq d + 1) (Pg.courts d)
         = false
      /\ existsb (fun c => String.eqb (Court_Name c) (Pg.stored 255 name))
           (Pg.courts d) = false).
Proof.
  unfold Pg.insert_court.
  destruct (Pg.first_error _) as [err|] eqn:Hchecks.
  { left. exists err. split; [reflexivity | now left]. }
  destruct (Pg.nextval _ _) as [err|id] eqn:Hid.
  { left. exists err. split; [reflexivity|]. right.
    apply nextval_exhausted in Hid. tauto. }
  apply nextval_drawn in Hid as [-> Hseq].
  destruct (existsb (fun c => Court_ID c =? _) _) eqn:Hpk.
  { right; left. eexists. split; [reflexivity|]. now repeat split. }
  destruct (existsb (fun c => String.eqb _ _) _) eqn:Hname.
  { right; left. eexists. split; [reflexivity|]. now repeat split. }
  right; right. now repeat split.
Qed.

Lemma insert_booking_hour_outcome (timestamptz : Time -> Time) (now : Time)
    (court_id : Z) (date_start date_end : Time) (status : string) (d : Pg.DB) :
  (exists err,
     Pg.insert_booking_hour timestamptz now court_id date_start date_end
       status d = (d, inl err))
  \/ (exists err,
        Pg.insert_booking_hour timestamptz now court_id date_start date_end
          status d
        = ({| Pg.courts := Pg.courts d; Pg.courts_id_seq := Pg.courts_id_seq d;
              Pg.booking_hours := Pg.booking_hours d;
              Pg.booking_hours_id_seq := Pg.booking_hours_id_seq d + 1;
              Pg.clips := Pg.clips d; Pg.clips_id_seq := Pg.clips_id_seq d |},
           inl err))
  \/ (Pg.insert_booking_hour timestamptz now court_id date_start date_end
        status d
      = ({| Pg.courts := Pg.courts d; Pg.courts_id_seq := Pg.courts_id_seq d;
            Pg.booking_hours :=
              Pg.booking_hours d ++
              [{| BookingHour_ID := Pg.booking_hours_id_seq d + 1;
                  BookingHour_CourtID := court_id;
                  BookingHour_DateStart := timestamptz date_start;
                  BookingHour_DateEnd := timestamptz date_end;
                  BookingHour_Status := Pg.stored 50 status;
                  BookingHour_CreatedAt := now;
                  BookingHour_UpdatedAt := now |}];
            Pg.booking_hours_id_seq := Pg.booking_hours_id_seq d + 1;
            Pg.clips := Pg.clips d; Pg.clips_id_seq := Pg.clips_id_seq d |},
         inr (Pg.booking_hours_id_seq d + 1, now, now))
      /\ Pg.first_error [Pg.integer court_id; Pg.text status;
                         Pg.varchar 50 status] = None
      /\ Pg.booking_hours_id_seq d < 2147483647
      /\ existsb (fun b => BookingHour_ID b =? Pg.booking_hours_id_seq d + 1)
           (Pg.booking_hours d) = false
      /\ existsb (fun c => Court_ID c =? court_id) (Pg.courts d) = true).
Proof.
  unfold Pg.insert_booking_hour.
  destruct (Pg.first_error _) as [err|] eqn:Hchecks.
  { left. now exists err. }
  destruct (Pg.nextval _ _) as [err|id] eqn:Hid.
  { left. now exists err. }
  apply nextval_drawn in Hid as [-> Hseq].
  destruct (existsb (fun b => BookingHour_ID b =? _) _) eqn:Hpk.
  { right; left. now eexists. }
  destruct (existsb (fun c => Court_ID c =? _) _) eqn:Hfk.
  - right; right. now repeat split.
  - right; left. now eexists.
Qed.

Lemma insert_clip_outcome (now : Time) (c : Clip) (d : Pg.DB) :
  (exists err, Pg.insert_clip now c d = (d, inl err))
  \/ (exists err,
        Pg.insert_clip now c d
        = ({| Pg.courts := Pg.courts d; Pg.courts_id_seq := Pg.courts_id_seq d;
              Pg.booking_hours := Pg.booking_hours d;
              Pg.booking_hours_id_seq := Pg.booking_hours_id_seq d;
              Pg.clips := Pg.clips d;
              Pg.clips_id_seq := Pg.clips_id_seq d + 1 |},
           inl err))
  \/ (Pg.insert_clip now c d
      = ({| Pg.courts := Pg.courts d; Pg.courts_id_seq := Pg.courts_id_seq d;
            Pg.booking_hours := Pg.booking_hours d;
            Pg.booking_hours_id_seq := Pg.booking_hours_id_seq d;
            Pg.clips :=
              Pg.clips d ++ [Pg.clip_row (Pg.clips_id_seq d + 1) now c];
            Pg.clips_id_seq := Pg.clips_id_seq d + 1 |},
         inr (Pg.clips_id_seq d + 1, now, now))
      /\ Pg.first_error
           [Pg.integer (Clip_BookingHourID c); Pg.text (Clip_Filename c);
            Pg.text (Clip_FilePath c); Pg.text_opt (Clip_MimeType c);
            Pg.text_opt (Clip_CameraName c); Pg.text (Clip_UploadStatus c);
            Pg.varchar 255 (Clip_Filename c); Pg.varchar 500 (Clip_FilePath c);
            Pg.varchar_opt 100 (Clip_MimeType c);
            Pg.varchar_opt 255 (Clip_CameraName c);
            Pg.varchar 50 (Clip_UploadStatus c)] = None
      /\ Pg.clips_id_seq d < 2147483647
      /\ existsb (fun c' => Clip_ID c' =? Pg.clips_id_seq d + 1) (Pg.clips d)
         = false
      /\ existsb (fun b => BookingHour_ID b =? Clip_BookingHourID c)
           (Pg.booking_hours d) = true).
Proof.
  unfold Pg.insert_clip.
  destruct (Pg.first_error _) as [err|] eqn:Hchecks.
  { left. now exists err. }
  destruct (Pg.nextval _ _) as [err|id] eqn:Hid.
  { left. now exists err. }
  apply nextval_drawn in Hid as [-> Hseq].
  destruct (existsb (fun c' => Clip_ID c' =? _) _) eqn:Hpk.
  { right; left. now eexists. }
  destruct (existsb (fun b => BookingHour_ID b =? _) _) eqn:Hfk.
  - right; right. now repeat split.
  - right; left. now eexists.
Qed.

(** ** Walking a handler *)

(** Walking the early returns of a handler: split on the test the
    answer is waiting for; an insert is split into its outcomes. *)
Ltac split_test :=
  match goal with
  | |- context [Pg.answer (db_fault ?e ?k) _] =>
      destruct (db_fault e k) eqn:?; cbn [Pg.answer]
  | |- context [match db_fault ?e ?k with _ => _ end] =>
      destruct (db_fault e k) eqn:?
  | |- context [match Pg.court_exists_active ?d ?i with _ => _ end] =>
      destruct (Pg.court_exists_active d i) as [?|[|]] eqn:?; cbn [negb]
  | |- context [match Pg.booking_hour_exists ?d ?i with _ => _ end] =>
      destruct (Pg.booking_hour_exists d i) as [?|[|]] eqn:?; cbn [negb]
  | |- context [match Pg.select_courts_by_name ?t ?d ?p with _ => _ end] =>
      destruct (Pg.select_courts_by_name t d p) eqn:?
  | |- context [match Pg.select_booking_hours ?d ?i with _ => _ end] =>
      destruct (Pg.select_booking_hours d i) eqn:?
  | |- context [match Pg.select_clips ?d ?i with _ => _ end] =>
      destruct (Pg.select_clips d i) eqn:?
  | |- context [Pg.insert_court ?n ?a ?b ?d] =>
      let H := fresh "Hins" in
      destruct (insert_court_outcome n a b d)
        as [(? & H & ?) | [(? & H & ?) | (H & ?)]];
      rewrite H; clear H
  | |- context [Pg.insert_booking_hour ?t ?n ?c ?a ?b ?s ?d] =>
      let H := fresh "Hins" in
      destruct (insert_booking_hour_outcome t n c a b s d)
        as [(? & H) | [(? & H) | (H & ?)]];
      rewrite H; clear H
  | |- context [Pg.insert_clip ?n ?c ?d] =>
      let H := fresh "Hins" in
      destruct (insert_clip_outcome n c d)
        as [(? & H) | [(? & H) | (H & ?)]];
      rewrite H; clear H
  | |- context [match ParseMultipartForm ?r ?m with _ => _ end] =>
      destruct (ParseMultipartForm r m) eqn:?
  | |- context [match Atoi ?s with _ => _ end] => destruct (Atoi s) eqn:?
  | |- context [match FormFile ?f ?k with _ => _ end] =>
      destruct (FormFile f k) eqn:?
  | |- context [match copy_fault ?e with _ => _ end] =>
      destruct (copy_fault e) eqn:?
  | |- context [match Pg.Code ?err with _ => _ end] =>
      destruct (Pg.Code err) eqn:?
  | |- context [if String.eqb ?a ?b then _ else _] =>
      destruct (String.eqb a b) eqn:?
  | |- context [if negb ?b then _ else _] => destruct b eqn:?; cbn [negb]
  | |- context [if mkdir_fault ?e then _ else _] =>
      destruct (mkdir_fault e) eqn:?
  | |- context [if create_fault ?e then _ else _] =>
      destruct (create_fault e) eqn:?
  | |- context [if ?a && ?b then _ else _] => destruct (a && b) eqn:?
  | |- context [if ?a || ?b then _ else _] => destruct (a || b) eqn:?
  | |- context [if ?a =? ?b then _ else _] => destruct (a =? b) eqn:?
  end.

Ltac open_handlers :=
  unfold serve, healthCheck, getCourts, createCourt, getBookingHours,
    createBookingHour, uploadClip, getClips, sendErrorResponse,
    sendJSONResponse.

(** ** Creating a court twice *)

Lemma count_name_app (name : string) (l : list Court) (c : Court) :
  count_name name (l ++ [c]) =
  (count_name name l + if String.eqb (Court_Name c) name then 1 else 0)%nat.
Proof.
  unfold count_name. rewrite List.filter_app, List.length_app. simpl.
  now destruct (String.eqb (Court_Name c) name).
Qed.

Lemma existsb_count_name (name : string) (l : list Court) :
  existsb (fun c => String.eqb (Court_Name c) name) l =
  negb (count_name name l =? 0)%nat.
Proof.
  unfold count_name. induction l as [|c l IH]; simpl; [reflexivity|].
  destruct (String.eqb (Court_Name c) name); simpl; [reflexivity | exact IH].
Qed.

(** What POST /courts does to the courts table: nothing, or one new row
    under an id and a name that were not there; the name is what
    VARCHAR(255) keeps of the name sent. *)
Lemma createCourt_courts (e : Env) (w : World) (body : option Court) :
  let w' := fst (createCourt e w body) in
  (Pg.courts (db w') = Pg.courts (db w)
   /\ StatusCode (snd (createCourt e w body)) <> StatusCreated)
  \/ exists court,
       body = Some court
       /\ StatusCode (snd (createCourt e w body)) = StatusCreated
       /\ count_name (Pg.stored 255 (Court_Name court)) (Pg.courts (db w)) = 0%nat
       /\ existsb (fun c => Court_ID c =? Pg.courts_id_seq (db w) + 1)
            (Pg.courts (db w)) = false
       /\ Pg.courts_id_seq (db w) < 2147483647
       /\ Pg.first_error [Pg.text (Court_Name court);
                          Pg.text_opt (Court_Description court);
                          Pg.varchar 255 (Court_Name court)] = None
       /\ db w'
          = {| Pg.courts :=
                 Pg.courts (db w) ++
                 [{| Court_ID := Pg.courts_id_seq (db w) + 1;
                     Court_Name := Pg.stored 255 (Court_Name court);
                     Court_Description := Court_Description court;
                     Court_IsActive := true;
                     Court_CreatedAt := db_now e;
                     Court_UpdatedAt := db_now e |}];
               Pg.courts_id_seq := Pg.courts_id_seq (db w) + 1;
               Pg.booking_hours := Pg.booking_hours (db w);
               Pg.booking_hours_id_seq := Pg.booking_hours_id_seq (db w);
               Pg.clips := Pg.clips (db w);
               Pg.clips_id_seq := Pg.clips_id_seq (db w) |}
       /\ Data (Body (snd (createCourt e w body)))
          = DataCourt {| Court_ID := Pg.courts_id_seq (db w) + 1;
                         Court_Name := Court_Name court;
                         Court_Description := Court_Description court;
                         Court_IsActive := true;
                         Court_CreatedAt := db_now e;
                         Court_UpdatedAt := db_now e |}.
Proof.
  unfold createCourt. destruct body as [court|]; [|left; split; [reflexivity | discriminate]].
  destruct (String.eqb (Court_Name court) "");
    [left; split; [reflexivity | discriminate]|].
  destruct (db_fault e 0%nat); [left; split; [reflexivity | discriminate]|].
  destruct (insert_court_outcome (db_now e) (Court_Name court)
              (Court_Description court) (db w))
    as [(err & -> & _) | [(err & -> & Hcode & _) | (-> & Hchecks & Hseq & Hpk & Hname)]].
  - left. destruct (match Pg.Code err with Some _ => _ | None => _ end);
      split; try reflexivity; discriminate.
  - left. rewrite Hcode. cbn. split; [reflexivity | discriminate].
  - right. exists court. cbn [fst snd db StatusCode Body Data sendJSONResponse].
    repeat split; try assumption.
    rewrite existsb_count_name in Hname. apply negb_false_iff in Hname.
    now apply Nat.eqb_eq in Hname.
Qed.

Lemma createCourt_status_created (e : Env) (w : World) (court : Court) :
  StatusCode (snd (createCourt e w (Some court))) = StatusCreated ->
  count_name (Pg.stored 255 (Court_Name court))
    (Pg.courts (db (fst (createCourt e w (Some court))))) = 1%nat.
Proof.
  intros H.
  destruct (createCourt_courts e w (Some court))
    as [[_ Hno] | (c & [= <-] & _ & Hzero & _ & _ & _ & Hdb & _)];
    [contradiction|].
  rewrite Hdb. cbn [Pg.courts]. rewrite count_name_app, Hzero. cbn [Court_Name].
  now rewrite String.eqb_refl.
Qed.

(** POST /booking-hours and POST /clips leave the courts table alone. *)
Lemma createBookingHour_courts (e : Env) (w : World) (body : option BookingHour) :
  Pg.courts (db (fst (createBookingHour e w body))) = Pg.courts (db w).
Proof.
  unfold createBookingHour. destruct body as [bh|]; [|reflexivity].
  repeat split_test; reflexivity.
Qed.

Lemma uploadClip_courts (e : Env) (w : World) (r : UploadRequest) :
  Pg.courts (db (fst (uploadClip e w r))) = Pg.courts (db w).
Proof.
  unfold uploadClip. repeat (split_test; cbn [db files]); reflexivity.
Qed.

(** No request changes how many courts carry a name that is taken. *)
Lemma serve_count_name (e : Env) (w : World) (r : Request) (name : string) :
  (0 < count_name name (Pg.courts (db w)))%nat ->
  count_name name (Pg.courts (db (fst (serve e w r)))) =
  count_name name (Pg.courts (db w)).
Proof.
  intros Hpos. destruct r; simpl; try reflexivity.
  - destruct (createCourt_courts e w body)
      as [[-> _] | (c & _ & _ & Hzero & _ & _ & _ & -> & _)]; [reflexivity|].
    cbn [Pg.courts]. rewrite count_name_app. cbn [Court_Name].
    destruct (String.eqb (Pg.stored 255 (Court_Name c)) name) eqn:E; [|lia].
    apply String.eqb_eq in E. subst name. lia.
  - now rewrite createBookingHour_courts.
  - now rewrite uploadClip_courts.
Qed.

Lemma serveAll_count_name (reqs : list (Env * Request)) (w : World)
    (name : string) :
  (0 < count_name name (Pg.courts (db w)))%nat ->
  count_name name (Pg.courts (db (serveAll w reqs))) =
  count_name name (Pg.courts (db w)).
Proof.
  revert w. induction reqs as [|[e r] reqs IH]; intros w Hpos; [reflexivity|].
  unfold serveAll in *. simpl.
  rewrite IH; rewrite serve_count_name; auto.
Qed.

(** C5 (as the code has it): once POST /courts has created a court (201),
    then after any further requests to the service a POST /courts with the
    same name inserts nothing and answers with success=false: the table
    keeps exactly one row of that name (the name as VARCHAR(255) keeps it).
    When the driver delivers the statement, the description sent with it
    is text the store accepts and the sequence of ids is not at its end,
    the answer is 409 (the driver's unique-violation code 23505 is what
    selects it); with a description the store refuses, or with the
    sequence at its end, the answer is 500. *)
Theorem createCourt_same_name_conflict (e : Env) (w : World) (court : Court)
    (reqs : list (Env * Request)) (e' : Env) (court' : Court) :
  StatusCode (snd (createCourt e w (Some court))) = StatusCreated ->
  Court_Name court' = Court_Name court ->
  let w1 := serveAll (fst (createCourt e w (Some court))) reqs in
  let out := createCourt e' w1 (Some court') in
  count_name (Pg.stored 255 (Court_Name court)) (Pg.courts (db w1)) = 1%nat
  /\ Pg.courts (db (fst out)) = Pg.courts (db w1)
  /\ files (fst out) = files w1
  /\ Success (Body (snd out)) = false
  /\ Data (Body (snd out)) = DataNil
  /\ (db_fault e' 0%nat = None ->
      Pg.text_opt (Court_Description court') = None ->
      Pg.courts_id_seq (db w1) < 2147483647 ->
      StatusCode (snd out) = StatusConflict)
  /\ (db_fault e' 0%nat = None ->
      Pg.text_opt (Court_Description court') <> None
      \/ 2147483647 <= Pg.courts_id_seq (db w1) ->
      StatusCode (snd out) = StatusInternalServerError).
Proof.
  intros Hcreated Hname w1 out.
  assert (Hone : count_name (Pg.stored 255 (Court_Name court))
                   (Pg.courts (db w1)) = 1%nat).
  { subst w1. rewrite serveAll_count_name;
      rewrite (createCourt_status_created _ _ _ Hcreated); lia. }
  split; [exact Hone|].
  assert (Hnonempty : String.eqb (Court_Name court') "" = false).
  { rewrite Hname. revert Hcreated. unfold createCourt.
    now destruct (String.eqb (Court_Name court) ""). }
  assert (Hsent : Pg.text (Court_Name court') = None
                  /\ Pg.varchar 255 (Court_Name court') = None).
  { rewrite Hname.
    destruct (createCourt_courts e w (Some court))
      as [[_ Hno] | (c & [= <-] & _ & _ & _ & _ & Hchecks & _)];
      [contradiction|].
    apply first_error_none in Hchecks.
    inversion Hchecks as [|? ? H1 Hrest]; subst.
    inversion Hrest as [|? ? H2 Hrest']; subst.
    inversion Hrest' as [|? ? H3 _]; subst. now split. }
  destruct Hsent as [Htext Hlen].
  assert (Htaken : existsb (fun c => String.eqb (Court_Name c)
                                       (Pg.stored 255 (Court_Name court')))
                     (Pg.courts (db w1)) = true).
  { rewrite existsb_count_name, Hname, Hone. reflexivity. }
  subst out. unfold createCourt. rewrite Hnonempty.
  destruct (db_fault e' 0%nat) as [err|].
  { cbn [fst snd]. repeat split; intros Hf; discriminate Hf. }
  unfold Pg.insert_court, Pg.first_error. cbn [fold_right].
  rewrite Htext, Hlen.
  destruct (Pg.text_opt (Court_Description court')) as [err|] eqn:Hdesc.
  { assert (Hcode : Pg.Code err = Some "22021").
    { destruct (Court_Description court') as [s|]; [|discriminate Hdesc].
      cbn in Hdesc. unfold Pg.text in Hdesc.
      destruct (Pg.valid_text s); [discriminate Hdesc|].
      now injection Hdesc as <-. }
    rewrite Hcode. cbn. repeat split; discriminate. }
  unfold Pg.nextval.
  destruct (Pg.courts_id_seq (db w1) <? 2147483647) eqn:Hseq.
  - apply Z.ltb_lt in Hseq. rewrite Htaken.
    destruct (existsb (fun c => Court_ID c =? _) _); cbn;
      repeat split; try (intros _ [Habs | Habs]; try congruence; lia).
  - apply Z.ltb_ge in Hseq. cbn. repeat split; try discriminate;
      try (intros _ _ Habs; lia).
Qed.

Lemma createCourt_same_name_conflict_witness :
  StatusCode (snd (createCourt env0
                     (serveAll (fst (createCourt env0 world0 (Some courtX)))
                        traceX)
                     (Some courtX')))
  = StatusConflict.
Proof.
  refine (proj1 (proj2 (proj2 (proj2 (proj2 (proj2
    (createCourt_same_name_conflict env0 world0 courtX traceX env0 courtX'
       _ _)))))) _ _ _).
  - reflexivity.
  - reflexivity.
  - reflexivity.
  - reflexivity.
  - vm_compute. reflexivity.
Defined.

(** C5, as stated, fails: a second POST /courts with the same name and a
    description that holds a NUL is answered 500, not 409 (the store
    refuses the parameter before it looks at the name); and so is one
    that finds the sequence of ids at its end. *)
Lemma createCourt_same_name_not_conflict :
  StatusCode (snd (createCourt env0 world0 (Some courtX))) = StatusCreated
  /\ Court_Name courtX_nul = Court_Name courtX
  /\ StatusCode (snd (createCourt env0 (fst (createCourt env0 world0 (Some courtX)))
                        (Some courtX_nul)))
     = StatusInternalServerError
  /\ StatusCode (snd (createCourt env0 world_last (Some courtX))) = StatusCreated
  /\ StatusCode (snd (createCourt env0
                        (fst (createCourt env0 world_last (Some courtX)))
                        (Some courtX')))
     = StatusInternalServerError.
Proof. repeat split. Qed.

(** ** What a successful upload stores *)

Lemma assoc_place_files (key : string) (parts : list (string * FileHeader))
    (budget : Z) :
  option_map fst (assoc key (place_files budget parts)) = assoc key parts.
Proof.
  revert budget. induction parts as [|[name fh] parts IH]; intros budget;
    [reflexivity|].
  simpl. destruct (budget <? Size fh); simpl;
    destruct (String.eqb name key); simpl; auto.
Qed.

(** The multipart parse refuses a request only for its syntax: the sizes
    of the file parts decide where they are kept, nothing else. *)
Lemma ParseMultipartForm_accepts (r : UploadRequest) (maxMemory : Z) :
  malformed r = false ->
  exists form,
    ParseMultipartForm r maxMemory = Some form
    /\ (forall key, FormValue form key = sentField r key)
    /\ (forall key, FormFile form key = sentFile r key).
Proof.
  intros H. unfold ParseMultipartForm. rewrite H. eexists.
  split; [reflexivity|]. split; intros key.
  - reflexivity.
  - unfold FormFile, sentFile. simpl. apply assoc_place_files.
Qed.

(** A value VARCHAR(n) accepts is kept whole when it has at most [n]
    characters, and so when it does not end in a space. *)
Lemma stored_fits (n : nat) (s : string) :
  (Pg.char_length s <= n)%nat -> Pg.stored n s = s.
Proof.
  intros H. unfold Pg.stored. apply Nat.leb_le in H. now rewrite H.
Qed.

Lemma last_In {A} (l : list A) (d : A) : l <> [] -> In (List.last l d) l.
Proof.
  induction l as [|x l IH]; [congruence|]. intros _.
  destruct l as [|y l]; [now left|].
  right. apply IH. discriminate.
Qed.

Lemma last_skipn {A} (n : nat) (l : list A) (d : A) :
  (n < length l)%nat -> List.last (skipn n l) d = List.last l d.
Proof.
  revert l. induction n as [|n IH]; intros l Hn; [reflexivity|].
  destruct l as [|x l]; [simpl in Hn; lia|].
  simpl in Hn. cbn [skipn]. rewrite IH by lia.
  destruct l as [|y l]; [simpl in Hn; lia | reflexivity].
Qed.

Lemma varchar_no_trailing_space (n : nat) (s : string) :
  Pg.varchar n s = None ->
  List.last (runes s) 0%N <> 32%N ->
  (Pg.char_length s <= n)%nat.
Proof.
  unfold Pg.varchar, Pg.char_length. intros Hv Hlast.
  destruct (forallb _ _) eqn:Hall; [|discriminate Hv].
  rewrite forallb_forall in Hall.
  destruct (Nat.le_gt_cases (length (decode s)) n) as [Hle | Hgt];
    [exact Hle|].
  exfalso. apply Hlast.
  assert (Hlen : (n < length (runes s))%nat)
    by (unfold runes; now rewrite length_map).
  rewrite <- (last_skipn n) by exact Hlen.
  apply N.eqb_eq, Hall, last_In.
  intros Hnil. apply (f_equal (@length N)) in Hnil.
  rewrite length_skipn in Hnil. simpl in Hnil. lia.
Qed.

(** POST /clips answers 201 only after it has written the file and
    inserted the row: the file is at [uploadPath], the answer carries
    [uploadAnswer] and the table has [uploadRow], which is what its columns
    keep of the answer's clip. *)
Lemma uploadClip_created (e : Env) (w : World) (r : UploadRequest) :
  StatusCode (snd (uploadClip e w r)) = StatusCreated ->
  exists id handler,
    Atoi (sentField r "bookingHourId") = Some id
    /\ sentFile r "video" = Some handler
    /\ Pg.booking_hour_exists (db w) id = inr true
    /\ db (fst (uploadClip e w r))
       = {| Pg.courts := Pg.courts (db w);
            Pg.courts_id_seq := Pg.courts_id_seq (db w);
            Pg.booking_hours := Pg.booking_hours (db w);
            Pg.booking_hours_id_seq := Pg.booking_hours_id_seq (db w);
            Pg.clips := Pg.clips (db w) ++ [uploadRow e w r id handler];
            Pg.clips_id_seq := Pg.clips_id_seq (db w) + 1 |}
    /\ files (fst (uploadClip e w r))
       = <[uploadPath e id handler := Size handler]> (files w)
    /\ Data (Body (snd (uploadClip e w r)))
       = DataClip (uploadAnswer e w r id handler)
    /\ Forall (fun c => c = None)
         [Pg.varchar 255 (Clip_Filename (uploadAnswer e w r id handler));
          Pg.varchar 500 (Clip_FilePath (uploadAnswer e w r id handler));
          Pg.varchar_opt 100 (Clip_MimeType (uploadAnswer e w r id handler));
          Pg.varchar_opt 255 (Clip_CameraName (uploadAnswer e w r id handler))]
    /\ existsb (fun c => Clip_ID c =? Pg.clips_id_seq (db w) + 1)
         (Pg.clips (db w)) = false.
Proof.
  unfold uploadClip, ParseMultipartForm.
  destruct (malformed r); [discriminate|].
  unfold FormFile, FormValue. cbn [Value File].
  rewrite assoc_place_files.
  fold (sentField r "bookingHourId") (sentField r "description")
       (sentField r "camera_name") (sentFile r "video").
  destruct (String.eqb (sentField r "bookingHourId") ""); [discriminate|].
  destruct (Atoi (sentField r "bookingHourId")) as [id|]; [|discriminate].
  destruct (db_fault e 0%nat); [discriminate|]. cbn [Pg.answer].
  destruct (Pg.booking_hour_exists (db w) id) as [err|[|]] eqn:Hex;
    [discriminate | | discriminate].
  cbn [negb].
  destruct (sentFile r "video") as [handler|]; [|discriminate].
  destruct (mkdir_fault e); [discriminate|].
  destruct (create_fault e); [discriminate|].
  destruct (copy_fault e); [discriminate|].
  destruct (db_fault e 1%nat); [discriminate|].
  match goal with
  | |- context [Pg.insert_clip ?n ?c ?d] =>
      destruct (insert_clip_outcome n c d)
        as [(err & ->) | [(err & ->) | (-> & Hchecks & Hseq & Hpk & Hfk)]]
  end; [discriminate | discriminate |].
  intros _. exists id, handler.
  apply first_error_none in Hchecks.
  repeat (match type of Hchecks with
          | Forall _ (_ :: _) =>
              let H := fresh "Hc" in
              inversion Hchecks as [|? ? H Hrest]; subst; clear Hchecks;
              rename Hrest into Hchecks
          end).
  repeat split; try reflexivity; try assumption.
  repeat constructor; assumption.
Qed.

(** ** The stored file name *)

(** C6 (as the code has it): after a successful upload for booking hour
    [id] of a file named [F] at wall-clock time [T], the generated file
    name is "clip_", the decimal id, "_", [T] rendered as YYYYMMDD_HHMMSS,
    and the extension of [F] with its dot, with nothing between the
    timestamp and the extension; the file is written under that name in
    the clips directory, and the row holds what VARCHAR(255) keeps of the
    name and VARCHAR(500) of the path: the name and the path themselves
    when they have at most that many characters. *)
Theorem uploadClip_filename (e : Env) (w : World) (r : UploadRequest) :
  StatusCode (snd (uploadClip e w r)) = StatusCreated ->
  exists id handler row,
    Atoi (sentField r "bookingHourId") = Some id
    /\ sentFile r "video" = Some handler
    /\ Pg.clips (db (fst (uploadClip e w r))) = (Pg.clips (db w) ++ [row])%list
    /\ let filename :=
         "clip_" ++ Itoa id ++ "_"
           ++ (appendInt (year (time_Now e)) 4 ++ appendInt (month (time_Now e)) 2
               ++ appendInt (day (time_Now e)) 2 ++ "_"
               ++ appendInt (hour (time_Now e)) 2 ++ appendInt (minute (time_Now e)) 2
               ++ appendInt (second (time_Now e)) 2)
           ++ Ext (Filename handler) in
       let filePath :=
         Join (Join (UploadDir (loadConfig (environ e))) "clips") filename in
       files (fst (uploadClip e w r)) !! filePath = Some (Size handler)
       /\ Clip_Filename row = Pg.stored 255 filename
       /\ Clip_FilePath row = Pg.stored 500 filePath
       /\ ((Pg.char_length filename <= 255)%nat -> Clip_Filename row = filename)
       /\ ((Pg.char_length filePath <= 500)%nat -> Clip_FilePath row = filePath).
Proof.
  intros H.
  destruct (uploadClip_created e w r H)
    as (id & handler & Hid & Hfile & _ & Hdb & Hfiles & _).
  exists id, handler, (uploadRow e w r id handler).
  split; [exact Hid|]. split; [exact Hfile|].
  split; [now rewrite Hdb|]. cbv zeta.
  split; [rewrite Hfiles; apply lookup_insert_eq|].
  split; [reflexivity|]. split; [reflexivity|].
  split; intros Hfit; simpl; now rewrite stored_fits.
Qed.

Lemma uploadClip_filename_witness :
  exists row,
    Pg.clips (db (fst (uploadClip env0 world0 upload1))) = [row]
    /\ Clip_Filename row = "clip_1_20250101_100000.mp4"
    /\ Clip_FilePath row = "uploads/clips/clip_1_20250101_100000.mp4".
Proof.
  destruct (uploadClip_filename env0 world0 upload1 eq_refl)
    as (id & handler & row & Hid & Hfile & Hrows & _ & Hname & Hpath & _).
  exists row. injection Hid as <-. injection Hfile as <-.
  split; [exact Hrows|]. split; [exact Hname | exact Hpath].
Defined.

(** C6, with the scheme read as written, fails: the stored name has no
    underscore between the timestamp and the extension. *)
Lemma uploadClip_filename_not_spec_scheme :
  StatusCode (snd (uploadClip env0 world0 upload1)) = StatusCreated
  /\ spec_clipFilename 1 t0 "match.mp4" = "clip_1_20250101_100000_.mp4"
  /\ map Clip_Filename (Pg.clips (db (fst (uploadClip env0 world0 upload1))))
     = ["clip_1_20250101_100000.mp4"]
  /\ map Clip_Filename (Pg.clips (db (fst (uploadClip env0 world0 upload1))))
     <> [spec_clipFilename 1 (time_Now env0) "match.mp4"].
Proof.
  split; [reflexivity|]. split; [reflexivity|]. split; [reflexivity|].
  intros H. vm_compute in H. discriminate H.
Qed.

(** ** The stored MIME type *)

(** C7: after a successful upload the stored mime_type is the content
    type the file part declares in its header, when it declares one that
    is not empty (a header value as net/textproto reads it has no space at
    its ends, and the store has accepted it, so it is stored whole);
    otherwise it is video/mp4, video/x-msvideo or video/webm for an
    extension that strings.ToLower maps to .mp4, .avi or .webm, and
    video/mp4 for any other extension. *)
Theorem uploadClip_mime_type (e : Env) (w : World) (r : UploadRequest) :
  StatusCode (snd (uploadClip e w r)) = StatusCreated ->
  exists handler row,
    sentFile r "video" = Some handler
    /\ Pg.clips (db (fst (uploadClip e w r))) = (Pg.clips (db w) ++ [row])%list
    /\ (forall declared,
          Header handler !! "Content-Type" = Some declared ->
          declared <> "" ->
          Clip_MimeType row = Some (Pg.stored 100 declared)
          /\ (List.last (runes declared) 0%N <> 32%N ->
              Clip_MimeType row = Some declared))
    /\ (Header handler !! "Content-Type" = None
        \/ Header handler !! "Content-Type" = Some "" ->
        let ext := ToLower (unicode_ToLower e) (Ext (Filename handler)) in
        (ext = ".mp4" -> Clip_MimeType row = Some "video/mp4")
        /\ (ext = ".avi" -> Clip_MimeType row = Some "video/x-msvideo")
        /\ (ext = ".webm" -> Clip_MimeType row = Some "video/webm")
        /\ (ext <> ".mp4" -> ext <> ".avi" -> ext <> ".webm" ->
            Clip_MimeType row = Some "video/mp4")).
Proof.
  intros H.
  destruct (uploadClip_created e w r H)
    as (id & handler & _ & Hfile & _ & Hdb & _ & _ & Hfit & _).
  exists handler, (uploadRow e w r id handler).
  split; [exact Hfile|]. split; [now rewrite Hdb|].
  inversion Hfit as [|? ? _ Hfit1]; subst.
  inversion Hfit1 as [|? ? _ Hfit2]; subst.
  inversion Hfit2 as [|? ? Hmime _]; subst. clear Hfit Hfit1 Hfit2.
  cbn [uploadAnswer Clip_MimeType Pg.varchar_opt] in Hmime.
  unfold uploadRow, Pg.clip_row, uploadAnswer. cbn [Clip_MimeType option_map].
  unfold clipMimeType, Header_Get in *. split.
  - intros declared Hdecl Hne. rewrite Hdecl in *.
    cbn [from_option Datatypes.id] in *.
    rewrite (eqb_string_neq _ _ Hne) in *.
    split; [reflexivity|]. intros Hlast. f_equal. apply stored_fits.
    now apply varchar_no_trailing_space.
  - intros Hnone. assert (Hd : default "" (Header handler !! "Content-Type") = "")
      by (destruct Hnone as [-> | ->]; reflexivity).
    rewrite Hd. cbn [String.eqb]. cbv zeta.
    destruct (String.eqb_spec (ToLower (unicode_ToLower e) (Ext (Filename handler)))
                ".mp4") as [E1|E1].
    { rewrite E1. repeat split; intros; try reflexivity; try discriminate;
        congruence. }
    destruct (String.eqb_spec (ToLower (unicode_ToLower e) (Ext (Filename handler)))
                ".avi") as [E2|E2].
    { rewrite E2. repeat split; intros; try reflexivity; try discriminate;
        congruence. }
    destruct (String.eqb_spec (ToLower (unicode_ToLower e) (Ext (Filename handler)))
                ".webm") as [E3|E3].
    { rewrite E3. repeat split; intros; try reflexivity; try discriminate;
        congruence. }
    repeat split; intros; try reflexivity; congruence.
Qed.

Lemma uploadClip_mime_type_witness :
  exists row,
    Pg.clips (db (fst (uploadClip env0 world0 uploadDeclared))) = [row]
    /\ Clip_MimeType row = Some "video/quicktime".
Proof.
  destruct (uploadClip_mime_type env0 world0 uploadDeclared eq_refl)
    as (handler & row & Hfile & Hrows & Hdeclared & _).
  exists row. injection Hfile as <-.
  split; [exact Hrows|].
  refine (proj2 (Hdeclared "video/quicktime" eq_refl _) _); discriminate.
Defined.

(** The extension is lower-cased as strings.ToLower does, beyond ASCII
    too: a file named x.avİ (capital I with dot) is stored as
    video/x-msvideo. *)
Lemma uploadClip_mime_type_unicode :
  ToLower (unicode_ToLower env0)
    (Ext ("x.av" ++ String (ascii_of_nat 196)
                      (String (ascii_of_nat 176) EmptyString))) = ".avi"
  /\ map Clip_MimeType (Pg.clips (db (fst (uploadClip env0 world0 uploadDotted))))
     = [Some "video/x-msvideo"].
Proof. split; reflexivity. Qed.

(** ** The size of an upload *)

(** C9 fails on the code: [ParseMultipartForm(100 << 20)] bounds what is
    kept in memory, not what is accepted.  A well-formed upload of 100 MB
    plus one byte passes the parse (the part goes to a temporary file),
    the file is stored whole and the answer is 201, where the claim has
    400. *)
Theorem uploadClip_over_100MB_accepted :
  sentFile uploadBig "video"
    = Some {| Filename := "final.mp4"; Header := ∅; Size := 104857601 |}
  /\ Z.shiftl 100 20 = 104857600
  /\ option_map File (ParseMultipartForm uploadBig (Z.shiftl 100 20))
     = Some [("video", ({| Filename := "final.mp4"; Header := ∅;
                           Size := 104857601 |}, TempFile))]
  /\ StatusCode (snd (uploadClip env0 world0 uploadBig)) = StatusCreated
  /\ files (fst (uploadClip env0 world0 uploadBig))
       !! "uploads/clips/clip_1_20250101_100000.mp4" = Some 104857601
  /\ map Clip_FileSize (Pg.clips (db (fst (uploadClip env0 world0 uploadBig))))
     = [Some 104857601].
Proof. repeat split. Qed.

(** ** The derived camera name *)

Lemma cameraScan_first (parts rest : list string) (i k : nat) :
  nth_error rest k = Some "camera" ->
  (0 < i + k)%nat ->
  (forall j, (j < k)%nat -> (0 < i + j)%nat ->
     nth_error rest j <> Some "camera") ->
  cameraScan parts rest i = nth (i + k - 1) parts "".
Proof.
  revert i k. induction rest as [|part rest IH]; intros i k Hk Hpos Hfirst.
  - destruct k; discriminate Hk.
  - destruct k as [|k]; simpl in Hk |- *.
    + injection Hk as ->. simpl.
      destruct i as [|i]; [lia|]. simpl. f_equal. lia.
    + assert (Hskip : String.eqb part "camera" && (0 <? i)%nat = false).
      { destruct (0 <? i)%nat eqn:Hi; [|apply andb_false_r].
        rewrite andb_true_r. apply String.eqb_neq. intros ->.
        apply Nat.ltb_lt in Hi.
        apply (Hfirst 0%nat); [lia | lia | reflexivity]. }
      rewrite Hskip. rewrite (IH (S i) k Hk); [f_equal; lia | lia |].
      intros j Hj Hj'. apply (Hfirst (S j)); lia.
Qed.

Lemma cameraScan_none (parts rest : list string) (i : nat) :
  (forall k, (0 < i + k)%nat -> nth_error rest k <> Some "camera") ->
  cameraScan parts rest i = "".
Proof.
  revert i. induction rest as [|part rest IH]; intros i H; [reflexivity|].
  simpl.
  assert (Hskip : String.eqb part "camera" && (0 <? i)%nat = false).
  { destruct (0 <? i)%nat eqn:Hi; [|apply andb_false_r].
    rewrite andb_true_r. apply String.eqb_neq. intros ->.
    apply Nat.ltb_lt in Hi. apply (H 0%nat); [lia | reflexivity]. }
  rewrite Hskip. apply IH. intros k Hk. apply (H (S k)). lia.
Qed.

(** C10 (as the code has it): after a successful upload, a non-empty
    camera_name field is what is stored and the description is not looked
    at.  With an empty camera_name field the description is split on
    single spaces and the loop stops at the first token equal to "camera"
    (same case, whole token) among those that are not the first token:
    the token before it is stored, or null when that token is empty; when
    no token after the first one is "camera", null is stored.  What is
    stored of a name is what VARCHAR(255) keeps of it: the name itself
    when it has at most 255 characters. *)
Theorem uploadClip_camera_name (e : Env) (w : World) (r : UploadRequest) :
  StatusCode (snd (uploadClip e w r)) = StatusCreated ->
  exists row,
    Pg.clips (db (fst (uploadClip e w r))) = (Pg.clips (db w) ++ [row])%list
    /\ let explicit := sentField r "camera_name" in
       let parts := Split (sentField r "description") " " in
       (explicit <> "" ->
        Clip_CameraName row = Some (Pg.stored 255 explicit))
       /\ (explicit = "" ->
           forall i, (0 < i)%nat ->
             nth_error parts i = Some "camera" ->
             (forall j, (0 < j < i)%nat -> nth_error parts j <> Some "camera") ->
             Clip_CameraName row =
             if String.eqb (nth (i - 1) parts "") "" then None
             else Some (Pg.stored 255 (nth (i - 1) parts "")))
       /\ (explicit = "" ->
           (forall i, (0 < i)%nat -> nth_error parts i <> Some "camera") ->
           Clip_CameraName row = None)
       /\ (forall name, Clip_CameraName row = Some (Pg.stored 255 name) ->
           (Pg.char_length name <= 255)%nat ->
           Clip_CameraName row = Some name).
Proof.
  intros H.
  destruct (uploadClip_created e w r H)
    as (id & handler & _ & _ & _ & Hdb & _ & _).
  exists (uploadRow e w r id handler). split; [now rewrite Hdb|].
  cbv zeta. unfold uploadRow, Pg.clip_row, uploadAnswer, clipCameraName.
  cbn [Clip_CameraName].
  split; [|split; [|split]].
  - intros Hne. rewrite (eqb_string_neq _ _ Hne). cbn [andb].
    now rewrite (eqb_string_neq _ _ Hne).
  - intros -> i Hi Hcam Hfirst. simpl.
    destruct (String.eqb_spec (sentField r "description") "") as [Hd | Hd].
    + rewrite Hd in Hcam. destruct i as [|[|i]]; [lia | discriminate | discriminate].
    + simpl. rewrite (cameraScan_first _ _ 0%nat i Hcam); [| lia |].
      * simpl. now destruct (String.eqb (nth (i - 1) _ "") "").
      * intros j Hj Hj'. apply Hfirst. lia.
  - intros -> Hnone. simpl.
    destruct (String.eqb (sentField r "description") ""); simpl; [reflexivity|].
    rewrite cameraScan_none; [reflexivity|].
    intros k Hk. apply Hnone. lia.
  - intros name Hrow Hfit. rewrite Hrow. now rewrite stored_fits.
Qed.

Lemma uploadClip_camera_name_witness :
  exists row,
    Pg.clips (db (fst (uploadClip env0 world0 upload1))) = [row]
    /\ Clip_CameraName row = Some "front".
Proof.
  destruct (uploadClip_camera_name env0 world0 upload1 eq_refl)
    as (row & Hrows & _ & Hscan & _).
  exists row. split; [exact Hrows|].
  apply (Hscan eq_refl 2%nat); [lia | reflexivity |].
  intros j Hj. assert (j = 1%nat) as -> by lia. discriminate.
Defined.

(** C10, as stated, fails when "camera" is the first token and occurs
    again: the claim stores no camera name, the code stores the token
    before the second occurrence. *)
Lemma uploadClip_camera_first_token_skipped :
  sentField upload1 "camera_name" = ""
  /\ Split (sentField upload1 "description") " " = ["camera"; "front"; "camera"]
  /\ spec_derivedCameraName (sentField upload1 "description") = None
  /\ StatusCode (snd (uploadClip env0 world0 upload1)) = StatusCreated
  /\ map Clip_CameraName (Pg.clips (db (fst (uploadClip env0 world0 upload1))))
     = [Some "front"]
  /\ map Clip_CameraName (Pg.clips (db (fst (uploadClip env0 world0 upload1))))
     <> [spec_derivedCameraName (sentField upload1 "description")].
Proof.
  repeat split. intros H. vm_compute in H. discriminate H.
Qed.

(** * Further properties of the code *)

(** ** Start-up *)

Lemma initDatabase_from_spec (outcome : nat -> attempt) (left i : nat)
    (z : Z) (o c : nat) :
  let r := initDatabase_from outcome i left z o c in
  match connected r with
  | Some (k, s) =>
      (i <= k < i + left)%nat
      /\ outcome k = Connects
      /\ (forall j, (i <= j < k)%nat -> outcome j <> Connects)
      /\ slept r = z + retryInterval * Z.of_nat (k - i)
      /\ (opened r + c = S (closed r + o))%nat
      /\ s = {| MaxOpenConns := 25; MaxIdleConns := 5; ConnMaxLifetime := 300 |}
  | None =>
      (forall j, (i <= j < i + left)%nat -> outcome j <> Connects)
      /\ slept r = z + retryInterval * Z.of_nat left
      /\ (opened r + c = closed r + o)%nat
  end.
Proof.
  revert i z o c. induction left as [|left IH]; intros i z o c; cbn zeta.
  - simpl. repeat split; [intros j Hj; lia | unfold retryInterval; lia | lia].
  - cbn [initDatabase_from].
    assert (Hstep : forall z' o' c',
      outcome i <> Connects ->
      (o' + c = o + c')%nat -> z' = z + retryInterval ->
      let r := initDatabase_from outcome (S i) left z' o' c' in
      match connected r with
      | Some (k, s) =>
          (i <= k < i + S left)%nat
          /\ outcome k = Connects
          /\ (forall j, (i <= j < k)%nat -> outcome j <> Connects)
          /\ slept r = z + retryInterval * Z.of_nat (k - i)
          /\ (opened r + c = S (closed r + o))%nat
          /\ s = {| MaxOpenConns := 25; MaxIdleConns := 5;
                    ConnMaxLifetime := 300 |}
      | None =>
          (forall j, (i <= j < i + S left)%nat -> outcome j <> Connects)
          /\ slept r = z + retryInterval * Z.of_nat (S left)
          /\ (opened r + c = closed r + o)%nat
      end).
    { intros z' o' c' Hi Hoc ->. specialize (IH (S i) (z + retryInterval) o' c').
      cbn zeta in *. unfold retryInterval in *.
      destruct (connected _) as [[k s]|].
      - destruct IH as (Hk & Hc & Hfirst & Hs & Hh & Hset).
        split; [lia|]. split; [exact Hc|]. split.
        + intros j Hj. destruct (Nat.eq_dec j i) as [-> | Hne];
            [exact Hi | apply Hfirst; lia].
        + split; [rewrite Hs; lia|]. split; [lia | exact Hset].
      - destruct IH as (Hnone & Hs & Hh).
        split.
        + intros j Hj. destruct (Nat.eq_dec j i) as [-> | Hne];
            [exact Hi | apply Hnone; lia].
        + split; [rewrite Hs; lia | lia]. }
    destruct (outcome i) eqn:Hi.
    + apply Hstep; [discriminate | lia | reflexivity].
    + apply Hstep; [discriminate | lia | reflexivity].
    + simpl. split; [lia|]. split; [exact Hi|]. split; [intros j Hj; lia|].
      split; [unfold retryInterval; lia|]. split; [lia | reflexivity].
Qed.

(** X1: [initDatabase] connects at the first of its 30 passes on which
    both sql.Open and db.Ping succeed, having slept 2 seconds after each
    failed pass and closed every handle whose ping failed, and then sets
    the pool to 25 open, 5 idle connections and a 5 minute lifetime; it
    gives up (log.Fatalf) exactly when none of the 30 passes succeeds,
    after 60 seconds of sleep and with no handle left open. *)
Theorem initDatabase_retries (outcome : nat -> attempt) :
  let r := initDatabase outcome in
  (forall k s, connected r = Some (k, s) ->
     (k < 30)%nat
     /\ outcome k = Connects
     /\ (forall j, (j < k)%nat -> outcome j <> Connects)
     /\ slept r = 2 * Z.of_nat k
     /\ opened r = S (closed r)
     /\ s = {| MaxOpenConns := 25; MaxIdleConns := 5; ConnMaxLifetime := 300 |})
  /\ (connected r = None <->
      forall j, (j < 30)%nat -> outcome j <> Connects)
  /\ (connected r = None -> slept r = 60 /\ opened r = closed r).
Proof.
  intros r. subst r. unfold initDatabase.
  pose proof (initDatabase_from_spec outcome maxRetries 0 0 0 0) as H.
  cbn zeta in H. unfold maxRetries, retryInterval in *.
  destruct (connected _) as [[k s]|].
  - destruct H as (Hk & Hc & Hfirst & Hs & Hh & Hset).
    split; [|split].
    + intros k' s' [= <- <-]. repeat split; try assumption; try lia.
      intros j Hj. apply Hfirst. lia.
    + split; [discriminate|]. intros Hnone. exfalso.
      apply (Hnone k); [lia | exact Hc].
    + discriminate.
  - destruct H as (Hnone & Hs & Hh).
    split; [|split].
    + discriminate.
    + split; [|reflexivity]. intros _ j Hj. apply Hnone. lia.
    + intros _. split; lia.
Qed.


(** ** The answers of the service *)

(** X2: every answer is a well-formed envelope.  A success carries
    success=true and the status of its method (200 for GET, 201 for
    POST); every failure carries success=false, null data and one of 400,
    404, 409, 500; 404 is only sent by GET /courts with a name filter and
    409 only by POST /courts. *)
Theorem serve_envelope (e : Env) (w : World) (r : Request) :
  let a := snd (serve e w r) in
  ((Success (Body a) = true
    /\ StatusCode a = (if is_post r then StatusCreated else StatusOK))
   \/ (Success (Body a) = false /\ Data (Body a) = DataNil
       /\ (StatusCode a = StatusBadRequest \/ StatusCode a = StatusNotFound
           \/ StatusCode a = StatusConflict
           \/ StatusCode a = StatusInternalServerError)))
  /\ (StatusCode a = StatusNotFound ->
      exists name, r = GET_courts name /\ name <> "")
  /\ (StatusCode a = StatusConflict -> exists body, r = POST_courts body).
Proof.
  destruct r as [|name|body|courtId|body|u|bookingHourId]; cbn zeta.
  - open_handlers. simpl. split; [now left|]. split; discriminate.
  - open_handlers. cbn [snd].
    destruct (Pg.answer _ _) as [err|rows];
      [simpl; split; [right; repeat split; auto | split; discriminate]|].
    destruct (String.eqb_spec name "") as [-> | Hne].
    + rewrite andb_false_r. simpl. split; [now left | split; discriminate].
    + destruct (_ && _); simpl.
      * split; [right; repeat split; auto|].
        split; [intros _; now exists name | discriminate].
      * split; [now left | split; discriminate].
  - open_handlers. destruct body as [court|]; cbn [snd];
      repeat split_test; simpl;
      (split; [first [now left | right; repeat split; auto]|]);
      (split; [discriminate|]); try discriminate; intros _; eauto.
  - open_handlers. cbn [snd]. repeat split_test; simpl;
      (split; [first [now left | right; repeat split; auto]|]);
      split; discriminate.
  - open_handlers. destruct body as [bh|]; cbn [snd];
      repeat split_test; simpl;
      (split; [first [now left | right; repeat split; auto]|]);
      split; discriminate.
  - open_handlers. repeat (split_test; cbn [db files]);
      simpl;
      (split; [first [now left | right; repeat split; auto]|]);
      split; discriminate.
  - open_handlers. cbn [snd]. repeat split_test; simpl;
      (split; [first [now left | right; repeat split; auto]|]);
      split; discriminate.
Qed.

(** ** What a request can change *)

Lemma extends_refl {A} (l : list A) : extends l l.
Proof. exists []. now rewrite app_nil_r. Qed.

Lemma extends_snoc {A} (l : list A) (x : A) : extends l (l ++ [x]).
Proof. now exists [x]. Qed.

Lemma extends_trans {A} (l1 l2 l3 : list A) :
  extends l1 l2 -> extends l2 l3 -> extends l1 l3.
Proof.
  intros [a ->] [b ->]. exists (a ++ b)%list. now rewrite <- app_assoc.
Qed.

Lemma grows_refl (w : World) : grows w w.
Proof.
  unfold grows. repeat split; try apply extends_refl; try lia. auto.
Qed.

Lemma grows_trans (w1 w2 w3 : World) : grows w1 w2 -> grows w2 w3 -> grows w1 w3.
Proof.
  intros (A1 & A2 & A3 & A4 & A5 & A6 & A7) (B1 & B2 & B3 & B4 & B5 & B6 & B7).
  unfold grows. repeat split; try (eapply extends_trans; eassumption); try lia.
  auto.
Qed.

Lemma is_Some_insert_keeps (m : gmap string Z) (p q : string) (v : Z) :
  is_Some (m !! q) -> is_Some (<[p := v]> m !! q).
Proof.
  intros H. destruct (decide (p = q)) as [-> | Hne].
  - rewrite lookup_insert_eq. eauto.
  - now rewrite lookup_insert_ne.
Qed.

Ltac grows_done :=
  unfold grows; simpl; repeat split;
  first [ apply extends_refl | apply extends_snoc | lia
        | intros p Hp; first [exact Hp | now apply is_Some_insert_keeps] ].

Lemma serve_grows (e : Env) (w : World) (r : Request) :
  grows w (fst (serve e w r)).
Proof.
  destruct r as [|name|body|courtId|body|u|bookingHourId];
    try apply grows_refl.
  - open_handlers. destruct body as [court|]; [|apply grows_refl].
    repeat split_test; grows_done.
  - open_handlers. destruct body as [bh|]; [|apply grows_refl].
    repeat split_test; grows_done.
  - open_handlers. repeat (split_test; cbn [db files]);
      grows_done.
Qed.

Lemma serveAll_grows_world (w : World) (reqs : list (Env * Request)) :
  grows w (serveAll w reqs).
Proof.
  revert w. induction reqs as [|[e r] reqs IH]; intros w.
  - apply grows_refl.
  - unfold serveAll. cbn [fold_left fst snd].
    eapply grows_trans; [apply serve_grows | apply IH].
Qed.

(** X3: whatever requests are served, in whatever environments, the
    service only adds: every table afterwards is the table before with
    rows appended (no row is deleted, changed or reordered), no serial
    goes back, and every file that was on disk is still there. *)
Theorem serveAll_grows (w : World) (reqs : list (Env * Request)) :
  extends (Pg.courts (db w)) (Pg.courts (db (serveAll w reqs)))
  /\ extends (Pg.booking_hours (db w)) (Pg.booking_hours (db (serveAll w reqs)))
  /\ extends (Pg.clips (db w)) (Pg.clips (db (serveAll w reqs)))
  /\ Pg.courts_id_seq (db w) <= Pg.courts_id_seq (db (serveAll w reqs))
  /\ Pg.booking_hours_id_seq (db w)
     <= Pg.booking_hours_id_seq (db (serveAll w reqs))
  /\ Pg.clips_id_seq (db w) <= Pg.clips_id_seq (db (serveAll w reqs))
  /\ (forall p, is_Some (files w !! p) ->
        is_Some (files (serveAll w reqs) !! p)).
Proof. exact (serveAll_grows_world w reqs). Qed.

(** X4: a request that fails writes no row: after any answer with
    success=false the three tables are as before, and after a 400 or a
    404 nothing at all has changed (tables, serials and files). *)
Theorem serve_failure_writes_no_row (e : Env) (w : World) (r : Request) :
  Success (Body (snd (serve e w r))) = false ->
  Pg.courts (db (fst (serve e w r))) = Pg.courts (db w)
  /\ Pg.booking_hours (db (fst (serve e w r))) = Pg.booking_hours (db w)
  /\ Pg.clips (db (fst (serve e w r))) = Pg.clips (db w)
  /\ (StatusCode (snd (serve e w r)) = StatusBadRequest
      \/ StatusCode (snd (serve e w r)) = StatusNotFound ->
      fst (serve e w r) = w).
Proof.
  destruct r as [|name|body|courtId|body|u|bookingHourId];
    try (intros _; now repeat split).
  - open_handlers. destruct body as [court|]; [|intros _; now repeat split].
    repeat split_test; simpl; intros Hs; try discriminate Hs;
      repeat split; intros [Hst | Hst]; discriminate Hst.
  - open_handlers. destruct body as [bh|]; [|intros _; now repeat split].
    repeat split_test; simpl; intros Hs; try discriminate Hs;
      repeat split; intros [Hst | Hst]; discriminate Hst.
  - open_handlers. repeat (split_test; cbn [db files]);
      simpl; intros Hs; try discriminate Hs;
      repeat split; intros [Hst | Hst]; discriminate Hst.
Qed.

Lemma serve_failure_writes_no_row_witness :
  fst (serve env0 world0 (POST_clips upload999)) = world0.
Proof.
  refine (proj2 (proj2 (proj2
    (serve_failure_writes_no_row env0 world0 (POST_clips upload999) _))) _).
  - reflexivity.
  - left. reflexivity.
Defined.

(** X5: while the store is unreachable (the first store call of the
    request fails) no request changes anything, not even a file: the
    health check still answers 200, every other request is refused with
    400 by its validation or answered 500. *)
Theorem serve_store_down (e : Env) (w : World) (r : Request) (err : Pg.Error) :
  db_fault e 0%nat = Some err ->
  fst (serve e w r) = w
  /\ (r = GET_health -> StatusCode (snd (serve e w r)) = StatusOK)
  /\ (r <> GET_health ->
      Success (Body (snd (serve e w r))) = false
      /\ (StatusCode (snd (serve e w r)) = StatusBadRequest
          \/ StatusCode (snd (serve e w r)) = StatusInternalServerError)).
Proof.
  intros Hdown.
  destruct r as [|name|body|courtId|body|u|bookingHourId].
  - repeat split; congruence.
  - open_handlers. rewrite Hdown. simpl. repeat split; auto; discriminate.
  - open_handlers. destruct body as [court|];
      [destruct (String.eqb _ _); rewrite ?Hdown|];
      simpl; repeat split; auto; discriminate.
  - open_handlers. cbn [fst snd]. destruct (negb _); [destruct (Atoi _)|];
      rewrite ?Hdown; simpl; repeat split; auto; discriminate.
  - open_handlers. destruct body as [bh|];
      [destruct (_ =? _); [|destruct (_ || _); rewrite ?Hdown]|];
      simpl; repeat split; auto; discriminate.
  - open_handlers. destruct (ParseMultipartForm _ _);
      [destruct (String.eqb _ _); [|destruct (Atoi _); rewrite ?Hdown]|];
      simpl; repeat split; auto; discriminate.
  - open_handlers. cbn [fst snd]. destruct (negb _); [destruct (Atoi _)|];
      rewrite ?Hdown; simpl; repeat split; auto; discriminate.
Qed.

Lemma serve_store_down_witness :
  fst (serve env_down world0 (POST_clips upload1)) = world0.
Proof.
  exact (proj1 (serve_store_down env_down world0 (POST_clips upload1) _ eq_refl)).
Defined.

(** ** More on the courts list *)

Lemma lowerASCII_empty (s : string) : lowerASCII s = "" -> s = "".
Proof. destruct s; [reflexivity | discriminate]. Qed.

(** Changing the case of ASCII letters changes neither whether a string
    is text nor its lower case. *)
Lemma valid_text_lowerASCII (s : string) :
  Pg.valid_text (lowerASCII s) = Pg.valid_text s.
Proof.
  unfold Pg.valid_text. rewrite decode_lowerASCII.
  induction (decode s) as [|[r|] l IH]; [reflexivity| |reflexivity].
  cbn [map option_map forallb]. rewrite IH. f_equal. f_equal.
  unfold lower_rune.
  destruct (r <? 128)%N; [|reflexivity].
  destruct ((65 <=? r) && (r <=? 90))%N eqn:U; [|reflexivity].
  apply andb_true_iff in U as [U1 _]. apply N.leb_le in U1.
  destruct (N.eqb_spec (r + 32) 0); [lia|].
  destruct (N.eqb_spec r 0); [lia | reflexivity].
Qed.

Lemma lower_char_lower_rune (towlower : N -> N) (r : N) :
  Pg.lower_char towlower (lower_rune (fun r => r) r) = Pg.lower_char towlower r.
Proof.
  unfold lower_rune. destruct (r <? 128)%N eqn:E; [|reflexivity].
  destruct ((65 <=? r) && (r <=? 90))%N eqn:U; [|reflexivity].
  apply andb_true_iff in U as [U1 U2]. apply N.leb_le in U1, U2.
  unfold Pg.lower_char. rewrite E.
  assert (E' : (r + 32 <? 128)%N = true) by (apply N.ltb_lt; lia).
  assert (U' : ((65 <=? r + 32) && (r + 32 <=? 90))%N = false).
  { apply andb_false_iff. right. apply N.leb_gt. lia. }
  assert (U'' : ((65 <=? r) && (r <=? 90))%N = true).
  { apply andb_true_iff. split; now apply N.leb_le. }
  now rewrite E', U', U''.
Qed.

Lemma lower_lowerASCII (towlower : N -> N) (s : string) :
  Pg.lower towlower (lowerASCII s) = Pg.lower towlower s.
Proof.
  unfold Pg.lower, runes. rewrite decode_lowerASCII, !map_map.
  apply map_ext. intros [r|]; [|reflexivity].
  cbn [option_map from_option Datatypes.id]. apply lower_char_lower_rune.
Qed.

Lemma ILIKE_pattern_lower (towlower : N -> N) (name a b : string) :
  lowerASCII a = lowerASCII b ->
  Pg.ILIKE towlower name ("%" ++ a ++ "%")
  = Pg.ILIKE towlower name ("%" ++ b ++ "%").
Proof.
  intros H. unfold Pg.ILIKE. rewrite !valid_text_pattern, !lower_pattern.
  rewrite <- (valid_text_lowerASCII a), <- (valid_text_lowerASCII b).
  rewrite <- (lower_lowerASCII towlower a), <- (lower_lowerASCII towlower b).
  now rewrite H.
Qed.

(** X8: GET /courts does not look at the case of the filter: two filters
    that differ only in the case of their ASCII letters get the same
    status and the same rows, in any environment, and the same answer
    altogether when the filter is text (the message of the store on a
    filter that is not text quotes its bytes). *)
Theorem getCourts_filter_case (e : Env) (w : World) (a b : string) :
  lowerASCII a = lowerASCII b ->
  StatusCode (getCourts e w a) = StatusCode (getCourts e w b)
  /\ Success (Body (getCourts e w a)) = Success (Body (getCourts e w b))
  /\ Data (Body (getCourts e w a)) = Data (Body (getCourts e w b))
  /\ (Pg.valid_text a = true -> getCourts e w a = getCourts e w b).
Proof.
  intros H.
  assert (Hempty : String.eqb a "" = String.eqb b "").
  { destruct (String.eqb_spec a "") as [-> | Ha];
      destruct (String.eqb_spec b "") as [-> | Hb]; try reflexivity.
    - symmetry in H. now apply lowerASCII_empty in H.
    - now apply lowerASCII_empty in H. }
  destruct (db_fault e 0%nat) as [err|] eqn:Hup.
  { unfold getCourts. rewrite Hup. now repeat split. }
  destruct (String.eqb_spec a "") as [-> | Ha].
  { symmetry in Hempty. apply String.eqb_eq in Hempty. subst b.
    now repeat split. }
  assert (Hb : b <> "") by (now apply String.eqb_neq; rewrite <- Hempty).
  rewrite (getCourts_filtered _ _ _ Hup Ha), (getCourts_filtered _ _ _ Hup Hb).
  assert (Hv : Pg.valid_text b = Pg.valid_text a).
  { now rewrite <- (valid_text_lowerASCII a), <- (valid_text_lowerASCII b), H. }
  assert (Hrows : forall c : Court,
    Pg.ILIKE (pg_towlower e) (Court_Name c) ("%" ++ a ++ "%") && Court_IsActive c
    = Pg.ILIKE (pg_towlower e) (Court_Name c) ("%" ++ b ++ "%") && Court_IsActive c).
  { intros c. now rewrite (ILIKE_pattern_lower _ _ a b H). }
  destruct (Pg.valid_text a) eqn:Hva.
  - rewrite !text_valid by (now rewrite valid_text_pattern).
    cbv zeta. rewrite (filter_ext _ _ Hrows). now repeat split.
  - destruct (text_refused ("%" ++ a ++ "%")) as [erra ->];
      [now rewrite valid_text_pattern|].
    destruct (text_refused ("%" ++ b ++ "%")) as [errb ->];
      [now rewrite valid_text_pattern|].
    repeat split. discriminate.
Qed.

Lemma getCourts_filter_case_witness :
  getCourts env0 world0 "LaPaNgAn" = getCourts env0 world0 "lapangan".
Proof.
  exact (proj2 (proj2 (proj2
    (getCourts_filter_case env0 world0 "LaPaNgAn" "lapangan" eq_refl)))
    eq_refl).
Defined.

Lemma courts_of_getCourts (e : Env) (w : World) (nameFilter : string) :
  db_fault e 0%nat = None ->
  courts_of (getCourts e w nameFilter) =
  if String.eqb nameFilter "" then Pg.select_courts (db w)
  else
    match Pg.select_courts_by_name (pg_towlower e) (db w)
            ("%" ++ nameFilter ++ "%") with
    | inl _ => []
    | inr rows => rows
    end.
Proof.
  intros Hup. unfold getCourts, courts_of. rewrite Hup. cbn [Pg.answer].
  destruct (String.eqb nameFilter ""); cbn [negb].
  - rewrite andb_false_r. simpl. apply elems_collect.
  - destruct (Pg.select_courts_by_name _ _ _) as [err|rows]; [reflexivity|].
    rewrite andb_true_r.
    destruct (len (collect rows) =? 0) eqn:Hlen.
    + apply len_zero_iff in Hlen. now rewrite elems_collect in Hlen.
    + simpl. apply elems_collect.
Qed.

Lemma courts_of_Earlier_getCourts (e : Env) (w : World) (nameFilter : string) :
  db_fault e 0%nat = None ->
  courts_of (Earlier.getCourts e w nameFilter) =
  if String.eqb nameFilter "" then Pg.select_courts (db w)
  else
    match Earlier.select_courts_by_name (pg_towlower e) (db w)
            ("%" ++ nameFilter ++ "%") with
    | inl _ => []
    | inr rows => rows
    end.
Proof.
  intros Hup. unfold Earlier.getCourts, courts_of. rewrite Hup. cbn [Pg.answer].
  destruct (String.eqb nameFilter ""); cbn [negb].
  - rewrite andb_false_r. simpl. apply elems_collect.
  - destruct (Earlier.select_courts_by_name _ _ _) as [err|rows]; [reflexivity|].
    rewrite andb_true_r.
    destruct (len (collect rows) =? 0) eqn:Hlen.
    + apply len_zero_iff in Hlen. now rewrite elems_collect in Hlen.
    + simpl. apply elems_collect.
Qed.

Lemma filter_filter_and {A} (f g : A -> bool) (l : list A) :
  List.filter g (List.filter f l) = List.filter (fun x => f x && g x) l.
Proof.
  induction l as [|x l IH]; [reflexivity|]. simpl.
  destruct (f x); simpl; [destruct (g x)|]; now rewrite IH.
Qed.

(** X9: the two revisions of GET /courts.  The revision in backend/main.go
    answers with the active courts among those the earlier revision
    answers with; where the earlier revision, given a filter, also
    returns every inactive court whose name matches, the later one never
    does, and a 404 of the earlier one is a 404 of the later one. *)
Theorem getCourts_revisions (e : Env) (w : World) (nameFilter : string) :
  courts_of (getCourts e w nameFilter)
    = List.filter Court_IsActive (courts_of (Earlier.getCourts e w nameFilter))
  /\ (StatusCode (Earlier.getCourts e w nameFilter) = StatusNotFound ->
      StatusCode (getCourts e w nameFilter) = StatusNotFound)
  /\ (forall c,
        db_fault e 0%nat = None -> nameFilter <> "" ->
        In c (Pg.courts (db w)) -> Court_IsActive c = false ->
        Pg.ILIKE (pg_towlower e) (Court_Name c) ("%" ++ nameFilter ++ "%") = true ->
        In c (courts_of (Earlier.getCourts e w nameFilter))
        /\ ~ In c (courts_of (getCourts e w nameFilter))).
Proof.
  assert (Hrows : forall f,
    Pg.select_courts_by_name (pg_towlower e) (db w) f
    = match Earlier.select_courts_by_name (pg_towlower e) (db w) f with
      | inl err => inl err
      | inr rows => inr (List.filter Court_IsActive rows)
      end).
  { intros f. unfold Pg.select_courts_by_name, Earlier.select_courts_by_name.
    destruct (Pg.text f); [reflexivity|]. now rewrite filter_filter_and. }
  destruct (db_fault e 0%nat) as [err|] eqn:Hup.
  - unfold getCourts, Earlier.getCourts, courts_of. rewrite Hup. simpl.
    repeat split; try discriminate.
  - split; [|split].
    + rewrite courts_of_getCourts, courts_of_Earlier_getCourts by assumption.
      destruct (String.eqb nameFilter "").
      * unfold Pg.select_courts. rewrite filter_filter_and.
        apply filter_ext. intros c. now destruct (Court_IsActive c).
      * rewrite Hrows. now destruct (Earlier.select_courts_by_name _ _ _).
    + unfold getCourts, Earlier.getCourts. rewrite Hup. cbn [Pg.answer].
      destruct (String.eqb nameFilter ""); cbn [negb].
      * rewrite !andb_false_r. discriminate.
      * rewrite Hrows.
        destruct (Earlier.select_courts_by_name _ _ _) as [err|rows];
          [discriminate|].
        rewrite !andb_true_r.
        destruct (len (collect rows) =? 0) eqn:Hlen; [|discriminate].
        apply len_zero_iff in Hlen. rewrite elems_collect in Hlen. subst rows.
        reflexivity.
    + intros c _ Hne Hin Hinactive Hmatch.
      rewrite courts_of_getCourts, courts_of_Earlier_getCourts by assumption.
      rewrite (eqb_string_neq _ _ Hne), Hrows.
      unfold Earlier.select_courts_by_name.
      assert (Hv : Pg.valid_text ("%" ++ nameFilter ++ "%") = true).
      { unfold Pg.ILIKE in Hmatch. now apply andb_true_iff in Hmatch as [Hv _]. }
      rewrite (text_valid _ Hv). split.
      * apply filter_In. now split.
      * rewrite filter_In. intros [_ H]. rewrite Hinactive in H. discriminate H.
Qed.

(** ** Creating a court and finding it again *)

(** X10: POST /courts with a non-empty name, when the driver delivers the
    insert and the store accepts it: the name and the description are text
    (well-formed UTF-8 without NUL), the name has at most 255 characters or
    only spaces beyond them, the sequence of ids is not at its end, and no
    court has the next id or the name as it will be stored.  The answer is
    201 and exactly one row is appended: its id is the next value of the
    sequence, its name is what VARCHAR(255) keeps of the name sent (the
    name itself when it has at most 255 characters), its description is
    that of the body, its timestamps are the store's clock, and it is
    active whatever id, is_active or timestamps the body carried; the
    answer's data is the court with the name as sent, and the other tables
    and the files are untouched. *)
Theorem createCourt_created (e : Env) (w : World) (court : Court) :
  Court_Name court <> "" ->
  db_fault e 0%nat = None ->
  Pg.valid_text (Court_Name court) = true ->
  (forall d, Court_Description court = Some d -> Pg.valid_text d = true) ->
  Pg.varchar 255 (Court_Name court) = None ->
  Pg.courts_id_seq (db w) < 2147483647 ->
  (forall c, In c (Pg.courts (db w)) ->
     Court_ID c <> Pg.courts_id_seq (db w) + 1
     /\ Court_Name c <> Pg.stored 255 (Court_Name court)) ->
  let row := {| Court_ID := Pg.courts_id_seq (db w) + 1;
                Court_Name := Pg.stored 255 (Court_Name court);
                Court_Description := Court_Description court;
                Court_IsActive := true;
                Court_CreatedAt := db_now e;
                Court_UpdatedAt := db_now e |} in
  let out := createCourt e w (Some court) in
  StatusCode (snd out) = StatusCreated
  /\ Success (Body (snd out)) = true
  /\ Data (Body (snd out))
     = DataCourt {| Court_ID := Pg.courts_id_seq (db w) + 1;
                    Court_Name := Court_Name court;
                    Court_Description := Court_Description court;
                    Court_IsActive := true;
                    Court_CreatedAt := db_now e;
                    Court_UpdatedAt := db_now e |}
  /\ Pg.courts (db (fst out)) = (Pg.courts (db w) ++ [row])%list
  /\ ((Pg.char_length (Court_Name court) <= 255)%nat ->
      Court_Name row = Court_Name court)
  /\ Pg.courts_id_seq (db (fst out)) = Court_ID row
  /\ Pg.booking_hours (db (fst out)) = Pg.booking_hours (db w)
  /\ Pg.clips (db (fst out)) = Pg.clips (db w)
  /\ files (fst out) = files w.
Proof.
  intros Hname Hup Htext Hdesc Hlen Hseq Hfree row out. subst out row.
  unfold createCourt.
  rewrite (eqb_string_neq _ _ Hname), Hup. unfold Pg.insert_court.
  assert (Hchecks : Pg.first_error
                      [Pg.text (Court_Name court);
                       Pg.text_opt (Court_Description court);
                       Pg.varchar 255 (Court_Name court)] = None).
  { apply first_error_none. repeat constructor.
    - now apply text_valid.
    - destruct (Court_Description court) as [d|]; [|reflexivity].
      apply text_valid. now apply Hdesc.
    - exact Hlen. }
  rewrite Hchecks. unfold Pg.nextval.
  apply Z.ltb_lt in Hseq. rewrite Hseq.
  assert (Hpk : existsb (fun c => Court_ID c =? Pg.courts_id_seq (db w) + 1)
                  (Pg.courts (db w)) = false).
  { apply not_true_is_false. intros H.
    apply existsb_exists in H as (c & Hin & Hc).
    apply Z.eqb_eq in Hc. now apply (proj1 (Hfree c Hin)). }
  assert (Hex : existsb (fun c => String.eqb (Court_Name c)
                                    (Pg.stored 255 (Court_Name court)))
                  (Pg.courts (db w)) = false).
  { apply not_true_is_false. intros H.
    apply existsb_exists in H as (c & Hin & Hc).
    apply String.eqb_eq in Hc. now apply (proj2 (Hfree c Hin)). }
  rewrite Hpk, Hex. cbn [fst snd StatusCode Body Success Data db files
                         sendJSONResponse Pg.courts Pg.courts_id_seq
                         Pg.booking_hours Pg.clips Court_ID Court_Name].
  repeat split. intros Hfit. now apply stored_fits.
Qed.

Lemma createCourt_created_witness :
  StatusCode (snd (createCourt env0 world0 (Some courtX))) = StatusCreated.
Proof.
  refine (proj1 (createCourt_created env0 world0 courtX _ eq_refl eq_refl _
                   eq_refl _ _)).
  - discriminate.
  - intros d Hd. discriminate Hd.
  - reflexivity.
  - intros c [<- | [<- | []]]; split; discriminate.
Defined.

(** A pattern without escape matches the text equal to it, whatever
    follows the text. *)
Lemma like_match_self (q t : list N) :
  ~ In 92%N q -> Pg.like_match (q ++ [37%N]) (q ++ t) = true.
Proof.
  induction q as [|c q IH]; intros Hq.
  - apply like_match_any.
  - assert (Hc : (c =? 92)%N = false).
    { apply N.eqb_neq. intros ->. apply Hq. now left. }
    assert (Hq' : ~ In 92%N q) by (intros H; apply Hq; now right).
    specialize (IH Hq').
    change ((c :: q) ++ [37%N])%list with (c :: (q ++ [37%N]))%list.
    change ((c :: q) ++ t)%list with (c :: (q ++ t))%list.
    destruct (c =? 37)%N eqn:E1.
    + apply N.eqb_eq in E1. subst c.
      rewrite like_match_percent. apply orb_true_iff. right.
      rewrite like_match_percent, IH. reflexivity.
    + cbn [Pg.like_match]. rewrite E1.
      destruct (c =? 95)%N; [exact IH|].
      rewrite Hc, N.eqb_refl. exact IH.
Qed.

Lemma lower_no_backslash (towlower : N -> N) (s : string) :
  has_byte "\" s = false -> ~ In 92%N (Pg.lower towlower s).
Proof.
  intros Hs Hin. unfold Pg.lower in Hin.
  apply in_map_iff in Hin as (r & Hr & Hin).
  assert (Hsp : Pg.special r = true).
  { rewrite <- (lower_char_special towlower), Hr. reflexivity. }
  assert (Hlow : (r < 128)%N).
  { unfold Pg.special in Hsp.
    repeat match type of Hsp with
           | context [(?a =? ?b)%N] => destruct (N.eqb_spec a b); try lia
           end; try discriminate Hsp. }
  assert (Hr92 : r = 92%N).
  { unfold Pg.lower_char in Hr. apply N.ltb_lt in Hlow. rewrite Hlow in Hr.
    destruct ((65 <=? r) && (r <=? 90))%N eqn:U; [|exact Hr].
    apply andb_true_iff in U as [U1 _]. apply N.leb_le in U1. lia. }
  subst r. pose proof (runes_low_byte 92 s ltac:(lia) Hin) as Hb.
  change (ascii_of_N 92) with "\"%char in Hb. congruence.
Qed.

(** A name without backslash is found by the filter equal to it. *)
Lemma ILIKE_own_name (towlower : N -> N) (name : string) :
  Pg.valid_text name = true ->
  has_byte "\" name = false ->
  Pg.ILIKE towlower name ("%" ++ name ++ "%") = true.
Proof.
  intros Hv H. unfold Pg.ILIKE.
  rewrite valid_text_pattern, Hv, lower_pattern. cbn [andb].
  rewrite like_match_percent.
  rewrite <- (app_nil_r (Pg.lower towlower name)) at 2.
  rewrite like_match_self; [reflexivity|]. now apply lower_no_backslash.
Qed.

Lemma getCourts_found_status (e : Env) (w : World) (nameFilter : string)
    (c : Court) :
  In c (courts_of (getCourts e w nameFilter)) ->
  StatusCode (getCourts e w nameFilter) = StatusOK.
Proof.
  unfold courts_of, getCourts.
  destruct (Pg.answer _ _); [intros []|].
  destruct (_ && _); simpl; [intros [] | reflexivity].
Qed.

(** X11: a court created by POST /courts (201) can be read back for as
    long as the service runs: after any further requests, whenever the
    driver delivers the query, the unfiltered GET /courts lists a row that
    is active and carries the name as VARCHAR(255) keeps it; and when the
    name has at most 255 characters and no backslash, GET
    /courts?name=<that name> answers 200 and lists the row too. *)
Theorem createCourt_then_getCourts (e : Env) (w : World) (court : Court)
    (reqs : list (Env * Request)) (e' : Env) :
  StatusCode (snd (createCourt e w (Some court))) = StatusCreated ->
  db_fault e' 0%nat = None ->
  let w1 := serveAll (fst (createCourt e w (Some court))) reqs in
  exists row,
    Court_Name row = Pg.stored 255 (Court_Name court)
    /\ Court_IsActive row = true
    /\ In row (courts_of (getCourts e' w1 ""))
    /\ ((Pg.char_length (Court_Name court) <= 255)%nat ->
        has_byte "\" (Court_Name court) = false ->
        Court_Name row = Court_Name court
        /\ In row (courts_of (getCourts e' w1 (Court_Name court)))
        /\ StatusCode (getCourts e' w1 (Court_Name court)) = StatusOK).
Proof.
  intros Hcreated Hup w1.
  assert (Hne : Court_Name court <> "").
  { revert Hcreated. unfold createCourt.
    destruct (String.eqb_spec (Court_Name court) ""); [discriminate | auto]. }
  destruct (createCourt_courts e w (Some court))
    as [[_ Hno] | (c & [= <-] & _ & _ & _ & _ & Hchecks & Hdb & _)];
    [contradiction|].
  apply first_error_none in Hchecks.
  inversion Hchecks as [|? ? Htext _]; subst.
  assert (Hvalid : Pg.valid_text (Court_Name court) = true).
  { unfold Pg.text in Htext.
    destruct (Pg.valid_text (Court_Name court)); [reflexivity | discriminate]. }
  set (row := {| Court_ID := Pg.courts_id_seq (db w) + 1;
                 Court_Name := Pg.stored 255 (Court_Name court);
                 Court_Description := Court_Description court;
                 Court_IsActive := true;
                 Court_CreatedAt := db_now e; Court_UpdatedAt := db_now e |})
    in *.
  assert (Hin1 : In row (Pg.courts (db w1))).
  { destruct (serveAll_grows_world (fst (createCourt e w (Some court))) reqs)
      as ([added Hadd] & _).
    fold w1 in Hadd. rewrite Hadd, Hdb. cbn [Pg.courts].
    apply in_or_app. left. apply in_or_app. right. now left. }
  exists row. split; [reflexivity|]. split; [reflexivity|]. split.
  - rewrite courts_of_getCourts by assumption. simpl.
    unfold Pg.select_courts. apply filter_In. now split.
  - intros Hfit Hbs.
    assert (Hname : Court_Name row = Court_Name court)
      by (now apply stored_fits).
    split; [exact Hname|].
    assert (Hfound : In row (courts_of (getCourts e' w1 (Court_Name court)))).
    { rewrite courts_of_getCourts by assumption.
      rewrite (eqb_string_neq _ _ Hne).
      unfold Pg.select_courts_by_name.
      rewrite text_valid by (now rewrite valid_text_pattern).
      apply filter_In. split; [exact Hin1|].
      rewrite Hname, ILIKE_own_name by assumption. reflexivity. }
    split; [exact Hfound|]. now apply (getCourts_found_status _ _ _ row).
Qed.

Lemma createCourt_then_getCourts_witness :
  exists row,
    Court_Name row = "Court X"
    /\ In row (courts_of (getCourts env0
         (serveAll (fst (createCourt env0 world0 (Some courtX))) traceX)
         "Court X")).
Proof.
  destruct (createCourt_then_getCourts env0 world0 courtX traceX env0
              eq_refl eq_refl) as (row & _ & _ & _ & Hfound).
  destruct (Hfound ltac:(vm_compute; lia) eq_refl) as (Hname & Hin & _).
  exists row. split; [exact Hname | exact Hin].
Defined.

(** ** Booking hours *)

(** X12: POST /booking-hours with a non-zero courtId that fits INTEGER and
    is the id of an active court, non-zero dateStart and dateEnd and a
    status the store accepts (text of at most 50 characters, or with only
    spaces beyond them; "active" when the body has none), when the driver
    delivers both statements, the sequence of ids is not at its end and no
    booking hour has the next id: the answer is 201 and carries the
    booking hour with the next id of the sequence and the court id, the two
    dates and the status as sent; exactly one row is appended, with that
    id and court id, the two dates as TIMESTAMP WITH TIME ZONE keeps them
    and the status as VARCHAR(50) keeps it.  Nothing is asked of the order
    of the two dates or of the other booking hours of the court. *)
Theorem createBookingHour_created (e : Env) (w : World) (bh : BookingHour) :
  BookingHour_CourtID bh <> 0 ->
  IsZero (BookingHour_DateStart bh) = false ->
  IsZero (BookingHour_DateEnd bh) = false ->
  db_fault e 0%nat = None -> db_fault e 1%nat = None ->
  Pg.int4 (BookingHour_CourtID bh) = true ->
  (exists c, In c (Pg.courts (db w)) /\ Court_ID c = BookingHour_CourtID bh
             /\ Court_IsActive c = true) ->
  let status := if String.eqb (BookingHour_Status bh) "" then "active"
                else BookingHour_Status bh in
  Pg.valid_text status = true ->
  Pg.varchar 50 status = None ->
  Pg.booking_hours_id_seq (db w) < 2147483647 ->
  (forall b, In b (Pg.booking_hours (db w)) ->
     BookingHour_ID b <> Pg.booking_hours_id_seq (db w) + 1) ->
  let row := {| BookingHour_ID := Pg.booking_hours_id_seq (db w) + 1;
                BookingHour_CourtID := BookingHour_CourtID bh;
                BookingHour_DateStart :=
                  pg_timestamptz e (BookingHour_DateStart bh);
                BookingHour_DateEnd := pg_timestamptz e (BookingHour_DateEnd bh);
                BookingHour_Status := Pg.stored 50 status;
                BookingHour_CreatedAt := db_now e;
                BookingHour_UpdatedAt := db_now e |} in
  let out := createBookingHour e w (Some bh) in
  StatusCode (snd out) = StatusCreated
  /\ Success (Body (snd out)) = true
  /\ Data (Body (snd out))
     = DataBookingHour
         {| BookingHour_ID := Pg.booking_hours_id_seq (db w) + 1;
            BookingHour_CourtID := BookingHour_CourtID bh;
            BookingHour_DateStart := BookingHour_DateStart bh;
            BookingHour_DateEnd := BookingHour_DateEnd bh;
            BookingHour_Status := status;
            BookingHour_CreatedAt := db_now e;
            BookingHour_UpdatedAt := db_now e |}
  /\ Pg.booking_hours (db (fst out)) = (Pg.booking_hours (db w) ++ [row])%list
  /\ ((Pg.char_length status <= 50)%nat -> BookingHour_Status row = status)
  /\ Pg.courts (db (fst out)) = Pg.courts (db w)
  /\ Pg.clips (db (fst out)) = Pg.clips (db w)
  /\ files (fst out) = files w.
Proof.
  intros Hid Hs He Hup0 Hup1 Hfit (c & Hin & Hc & Hact) status Htext Hlen
    Hseq Hfree row out.
  subst out row. unfold createBookingHour.
  rewrite (proj2 (Z.eqb_neq _ _) Hid), Hs, He, Hup0, Hup1. cbn [orb Pg.answer].
  assert (Hex : Pg.court_exists_active (db w) (BookingHour_CourtID bh)
                = inr true).
  { unfold Pg.court_exists_active. rewrite (integer_int4 _ Hfit). f_equal.
    apply existsb_exists. exists c.
    split; [exact Hin|]. rewrite Hact, andb_true_r. now apply Z.eqb_eq. }
  rewrite Hex. cbn [negb]. unfold Pg.insert_booking_hour.
  fold status.
  assert (Hchecks : Pg.first_error
                      [Pg.integer (BookingHour_CourtID bh); Pg.text status;
                       Pg.varchar 50 status] = None).
  { apply first_error_none. repeat constructor.
    - now apply integer_int4.
    - now apply text_valid.
    - exact Hlen. }
  rewrite Hchecks. unfold Pg.nextval.
  apply Z.ltb_lt in Hseq. rewrite Hseq.
  assert (Hpk : existsb (fun b => BookingHour_ID b
                                  =? Pg.booking_hours_id_seq (db w) + 1)
                  (Pg.booking_hours (db w)) = false).
  { apply not_true_is_false. intros H.
    apply existsb_exists in H as (b & Hb & Hb').
    apply Z.eqb_eq in Hb'. now apply (Hfree b Hb). }
  assert (Hfk : existsb (fun c => Court_ID c =? BookingHour_CourtID bh)
                  (Pg.courts (db w)) = true).
  { apply existsb_exists. exists c. split; [exact Hin | now apply Z.eqb_eq]. }
  rewrite Hpk, Hfk.
  cbn [fst snd StatusCode Body Success Data db files sendJSONResponse
       Pg.courts Pg.booking_hours Pg.clips BookingHour_Status].
  repeat split. intros Hshort. now apply stored_fits.
Qed.

Lemma createBookingHour_created_witness :
  StatusCode (snd (createBookingHour env0 world0 (Some bookingBackwards)))
  = StatusCreated.
Proof.
  refine (proj1 (createBookingHour_created env0 world0 bookingBackwards
                   _ eq_refl eq_refl eq_refl eq_refl eq_refl _
                   eq_refl eq_refl eq_refl _)).
  - discriminate.
  - exists court1. repeat split. now left.
  - intros b [<- | []]. discriminate.
Defined.

Lemma insert_desc_perm {A} (key : A -> Z) (x : A) (l : list A) :
  Permutation (x :: l) (Pg.insert_desc key x l).
Proof.
  induction l as [|y l IH]; simpl; [reflexivity|].
  destruct (key x <? key y); [|reflexivity].
  rewrite perm_swap. now constructor.
Qed.

Lemma order_by_desc_perm {A} (key : A -> Z) (l : list A) :
  Permutation l (Pg.order_by_desc key l).
Proof.
  unfold Pg.order_by_desc. induction l as [|x l IH]; simpl; [reflexivity|].
  rewrite <- insert_desc_perm. now constructor.
Qed.

(** X13: GET /booking-hours.  A courtId that is not empty and does not
    parse as an integer is refused with 400 before the store is called.
    When the driver delivers the query: with a courtId that parses and
    fits the 32-bit INTEGER column, the answer is 200 and carries exactly
    the booking hours of that court (each row once), latest dateStart
    first; with one that parses and does not fit, the store refuses the
    query and the answer is 500; without courtId the answer carries every
    booking hour, in the same order. *)
Theorem getBookingHours_listing (e : Env) (w : World) :
  (forall s, s <> "" -> Atoi s = None ->
     StatusCode (getBookingHours e w s) = StatusBadRequest)
  /\ (db_fault e 0%nat = None ->
      (forall s id, Atoi s = Some id -> Pg.int4 id = true ->
         StatusCode (getBookingHours e w s) = StatusOK
         /\ Permutation
              (List.filter (fun b => BookingHour_CourtID b =? id)
                 (Pg.booking_hours (db w)))
              (bookingHours_of (getBookingHours e w s))
         /\ Sorted (fun a b => instant (BookingHour_DateStart b)
                               <= instant (BookingHour_DateStart a))
              (bookingHours_of (getBookingHours e w s)))
      /\ (forall s id, Atoi s = Some id -> Pg.int4 id = false ->
            StatusCode (getBookingHours e w s) = StatusInternalServerError
            /\ Success (Body (getBookingHours e w s)) = false
            /\ Data (Body (getBookingHours e w s)) = DataNil)
      /\ StatusCode (getBookingHours e w "") = StatusOK
      /\ Permutation (Pg.booking_hours (db w))
           (bookingHours_of (getBookingHours e w ""))
      /\ Sorted (fun a b => instant (BookingHour_DateStart b)
                            <= instant (BookingHour_DateStart a))
           (bookingHours_of (getBookingHours e w ""))).
Proof.
  split.
  - intros s Hne Hbad. unfold getBookingHours.
    now rewrite (eqb_string_neq _ _ Hne), Hbad.
  - intros Hup. split; [|split; [|split; [|split]]].
    + intros s id Hid Hfit. rewrite (getBookingHours_filtered _ _ _ _ Hup Hid).
      rewrite (select_booking_hours_int4 _ _ Hfit).
      unfold bookingHours_of, sendJSONResponse. cbn [Data Body StatusCode].
      rewrite elems_collect.
      split; [reflexivity|]. split.
      * apply order_by_desc_perm.
      * apply (order_by_desc_sorted (fun b => instant (BookingHour_DateStart b))).
    + intros s id Hid Hout. rewrite (getBookingHours_filtered _ _ _ _ Hup Hid).
      unfold Pg.select_booking_hours. rewrite (integer_out_of_range _ Hout).
      now repeat split.
    + now rewrite (getBookingHours_unfiltered _ _ Hup).
    + rewrite (getBookingHours_unfiltered _ _ Hup).
      unfold bookingHours_of, sendJSONResponse. cbn [Data Body StatusCode].
      rewrite elems_collect.
      apply order_by_desc_perm.
    + rewrite (getBookingHours_unfiltered _ _ Hup).
      unfold bookingHours_of, sendJSONResponse. cbn [Data Body StatusCode].
      rewrite elems_collect.
      apply (order_by_desc_sorted (fun b => instant (BookingHour_DateStart b))).
Qed.

(** X14: GET /clips.  A bookingHourId that is not empty and does not
    parse as an integer is refused with 400 before the store is called.
    When the driver delivers the query: with a bookingHourId that parses
    and fits the 32-bit INTEGER column, the answer is 200 and carries
    exactly the clips of that booking hour (each row once), latest
    created_at first; with one that parses and does not fit, the store
    refuses the query and the answer is 500; without bookingHourId the
    answer carries every clip, in the same order. *)
Theorem getClips_listing (e : Env) (w : World) :
  (forall s, s <> "" -> Atoi s = None ->
     StatusCode (getClips e w s) = StatusBadRequest)
  /\ (db_fault e 0%nat = None ->
      (forall s id, Atoi s = Some id -> Pg.int4 id = true ->
         StatusCode (getClips e w s) = StatusOK
         /\ Permutation
              (List.filter (fun c => Clip_BookingHourID c =? id)
                 (Pg.clips (db w)))
              (clips_of (getClips e w s))
         /\ Sorted (fun a b => instant (Clip_CreatedAt b)
                               <= instant (Clip_CreatedAt a))
              (clips_of (getClips e w s)))
      /\ (forall s id, Atoi s = Some id -> Pg.int4 id = false ->
            StatusCode (getClips e w s) = StatusInternalServerError
            /\ Success (Body (getClips e w s)) = false
            /\ Data (Body (getClips e w s)) = DataNil)
      /\ StatusCode (getClips e w "") = StatusOK
      /\ Permutation (Pg.clips (db w)) (clips_of (getClips e w ""))
      /\ Sorted (fun a b => instant (Clip_CreatedAt b)
                            <= instant (Clip_CreatedAt a))
           (clips_of (getClips e w ""))).
Proof.
  split.
  - intros s Hne Hbad. unfold getClips.
    now rewrite (eqb_string_neq _ _ Hne), Hbad.
  - intros Hup. split; [|split; [|split; [|split]]].
    + intros s id Hid Hfit. rewrite (getClips_filtered _ _ _ _ Hup Hid).
      rewrite (select_clips_int4 _ _ Hfit).
      unfold clips_of, sendJSONResponse. cbn [Data Body StatusCode].
      rewrite elems_collect.
      split; [reflexivity|]. split.
      * apply order_by_desc_perm.
      * apply (order_by_desc_sorted (fun c => instant (Clip_CreatedAt c))).
    + intros s id Hid Hout. rewrite (getClips_filtered _ _ _ _ Hup Hid).
      unfold Pg.select_clips. rewrite (integer_out_of_range _ Hout).
      now repeat split.
    + now rewrite (getClips_unfiltered _ _ Hup).
    + rewrite (getClips_unfiltered _ _ Hup).
      unfold clips_of, sendJSONResponse. cbn [Data Body StatusCode].
      rewrite elems_collect.
      apply order_by_desc_perm.
    + rewrite (getClips_unfiltered _ _ Hup).
      unfold clips_of, sendJSONResponse. cbn [Data Body StatusCode].
      rewrite elems_collect.
      apply (order_by_desc_sorted (fun c => instant (Clip_CreatedAt c))).
Qed.

(** ** Uploads *)

Lemma booking_hour_exists_int4 (d : Pg.DB) (id : Z) (found : bool) :
  Pg.booking_hour_exists d id = inr found -> Pg.int4 id = true.
Proof.
  unfold Pg.booking_hour_exists, Pg.integer.
  destruct (Pg.int4 id); [reflexivity | discriminate].
Qed.

(** X15: a clip stored by POST /clips (201) can be read back.  The
    file_size of the answer is the size of the file at the answer's
    file_path right after the upload, and a file is still at that path
    after any further requests; whenever the driver delivers the query,
    the row of the clip (what the columns keep of the answer's clip: the
    same clip when its file name, path, MIME type and camera name have at
    most 255, 500, 100 and 255 characters) is in the answer of GET /clips
    and of GET /clips filtered by its booking hour. *)
Theorem uploadClip_then_getClips (e : Env) (w : World) (r : UploadRequest)
    (reqs : list (Env * Request)) (e' : Env) :
  StatusCode (snd (uploadClip e w r)) = StatusCreated ->
  db_fault e' 0%nat = None ->
  let w0 := fst (uploadClip e w r) in
  let w1 := serveAll w0 reqs in
  exists id answer row,
    Atoi (sentField r "bookingHourId") = Some id
    /\ Data (Body (snd (uploadClip e w r))) = DataClip answer
    /\ row = Pg.clip_row (Clip_ID answer) (Clip_CreatedAt answer) answer
    /\ Clip_BookingHourID answer = id
    /\ files w0 !! Clip_FilePath answer = Clip_FileSize answer
    /\ is_Some (Clip_FileSize answer)
    /\ is_Some (files w1 !! Clip_FilePath answer)
    /\ In row (clips_of (getClips e' w1 ""))
    /\ (forall s, Atoi s = Some id -> In row (clips_of (getClips e' w1 s)))
    /\ ((Pg.char_length (Clip_Filename answer) <= 255)%nat ->
        (Pg.char_length (Clip_FilePath answer) <= 500)%nat ->
        (forall m, Clip_MimeType answer = Some m ->
                   (Pg.char_length m <= 100)%nat) ->
        (forall c, Clip_CameraName answer = Some c ->
                   (Pg.char_length c <= 255)%nat) ->
        row = answer).
Proof.
  intros Hcreated Hup w0 w1.
  destruct (uploadClip_created e w r Hcreated)
    as (id & handler & Hid & _ & Hex & Hdb & Hfiles & Hdata & _).
  fold w0 in Hdb, Hfiles.
  exists id, (uploadAnswer e w r id handler), (uploadRow e w r id handler).
  assert (Hfile0 : files w0 !! Clip_FilePath (uploadAnswer e w r id handler)
                   = Some (Size handler)).
  { rewrite Hfiles. apply lookup_insert_eq. }
  destruct (serveAll_grows_world w0 reqs) as (_ & _ & [added Hadd] & _ & _ & _ & Hkeep).
  fold w1 in Hadd, Hkeep.
  assert (Hin : In (uploadRow e w r id handler) (Pg.clips (db w1))).
  { rewrite Hadd, Hdb. cbn [Pg.clips].
    apply in_or_app. left. apply in_or_app. right. now left. }
  split; [exact Hid|]. split; [exact Hdata|]. split; [reflexivity|].
  split; [reflexivity|].
  split; [exact Hfile0|]. split; [simpl; eauto|].
  split; [apply Hkeep; rewrite Hfile0; eauto|]. split; [|split].
  - rewrite (getClips_unfiltered _ _ Hup).
    unfold clips_of, sendJSONResponse. cbn [Data Body]. rewrite elems_collect.
    eapply Permutation_in; [apply order_by_desc_perm | exact Hin].
  - intros s Hs. rewrite (getClips_filtered _ _ _ _ Hup Hs).
    rewrite (select_clips_int4 _ _ (booking_hour_exists_int4 _ _ _ Hex)).
    unfold clips_of, sendJSONResponse. cbn [Data Body]. rewrite elems_collect.
    eapply Permutation_in; [apply order_by_desc_perm|].
    apply filter_In. split; [exact Hin|]. simpl. apply Z.eqb_refl.
  - intros Hname Hpath Hmime Hcamera.
    unfold uploadRow, Pg.clip_row.
    rewrite (stored_fits _ _ Hname), (stored_fits _ _ Hpath).
    assert (Hm : option_map (Pg.stored 100)
                   (Clip_MimeType (uploadAnswer e w r id handler))
                 = Clip_MimeType (uploadAnswer e w r id handler)).
    { destruct (Clip_MimeType _) as [m|] eqn:E; [|reflexivity].
      cbn [option_map]. now rewrite stored_fits by (now apply Hmime). }
    assert (Hc : option_map (Pg.stored 255)
                   (Clip_CameraName (uploadAnswer e w r id handler))
                 = Clip_CameraName (uploadAnswer e w r id handler)).
    { destruct (Clip_CameraName _) as [c|] eqn:E; [|reflexivity].
      cbn [option_map]. now rewrite stored_fits by (now apply Hcamera). }
    rewrite Hm, Hc. reflexivity.
Qed.

Lemma uploadClip_then_getClips_witness :
  exists row,
    Clip_Filename row = "clip_1_20250101_100000.mp4"
    /\ In row (clips_of (getClips env0
                 (serveAll (fst (uploadClip env0 world0 upload1)) traceX) "1")).
Proof.
  destruct (uploadClip_then_getClips env0 world0 upload1 traceX env0
              eq_refl eq_refl)
    as (id & answer & row & Hid & Hdata & Hrow & _ & _ & _ & _ & _ & Hlist & _).
  exists row. injection Hid as <-. injection Hdata as <-.
  split; [now rewrite Hrow|]. now apply Hlist.
Defined.

(** X16: when the file has been written and the insert of the metadata
    then fails in the driver, POST /clips answers 500 with the driver's
    text and leaves the file on disk, whole, with no clips row for it:
    nothing removes the file. *)
Theorem uploadClip_insert_failure_leaves_file (e : Env) (w : World)
    (r : UploadRequest) (id : Z) (handler : FileHeader) (err : Pg.Error) :
  malformed r = false ->
  Atoi (sentField r "bookingHourId") = Some id ->
  sentFile r "video" = Some handler ->
  Pg.booking_hour_exists (db w) id = inr true ->
  db_fault e 0%nat = None ->
  mkdir_fault e = false -> create_fault e = false -> copy_fault e = None ->
  db_fault e 1%nat = Some err ->
  let out := uploadClip e w r in
  StatusCode (snd out) = StatusInternalServerError
  /\ Message (Body (snd out)) = "Failed to save clip metadata: " ++ Pg.Text err
  /\ db (fst out) = db w
  /\ files (fst out) = <[uploadPath e id handler := Size handler]> (files w)
  /\ files (fst out) !! uploadPath e id handler = Some (Size handler).
Proof.
  intros Hok Hid Hfile Hex Hup Hmk Hcr Hcp Hdown out. subst out.
  unfold uploadClip, ParseMultipartForm. rewrite Hok.
  unfold FormFile, FormValue. cbn [Value File]. rewrite assoc_place_files.
  fold (sentField r "bookingHourId") (sentFile r "video").
  rewrite (eqb_string_neq _ _ (Atoi_nonempty _ _ Hid)), Hid, Hup.
  cbn [Pg.answer]. rewrite Hex, Hfile, Hmk, Hcr, Hcp, Hdown.
  cbn [negb fst snd StatusCode Body Message sendErrorResponse sendJSONResponse
       db files].
  repeat split. apply lookup_insert_eq.
Qed.

Lemma uploadClip_insert_failure_leaves_file_witness :
  files (fst (uploadClip env_insert_fails world0 upload1))
    !! "uploads/clips/clip_1_20250101_100000.mp4" = Some 2048
  /\ Pg.clips (db (fst (uploadClip env_insert_fails world0 upload1))) = [].
Proof.
  destruct (uploadClip_insert_failure_leaves_file env_insert_fails world0
              upload1 1 {| Filename := "match.mp4"; Header := ∅; Size := 2048 |}
              {| Pg.Code := None; Pg.Text := "driver: bad connection" |}
              eq_refl eq_refl eq_refl eq_refl eq_refl eq_refl eq_refl eq_refl
              eq_refl)
    as (_ & _ & Hdb & _ & Hfile).
  split; [exact Hfile | now rewrite Hdb].
Defined.

(** X17: two successful uploads for the same booking hour whose clocks
    read the same down to the second and whose file names have the same
    extension get the same generated name: the second upload overwrites
    the file of the first, and two clips rows with consecutive ids hold
    the one path (as VARCHAR(500) keeps it), at which the second upload's
    bytes are. *)
Theorem uploadClip_same_second_overwrites (e1 e2 : Env) (w : World)
    (r1 r2 : UploadRequest) (h1 h2 : FileHeader) :
  let w1 := fst (uploadClip e1 w r1) in
  let w2 := fst (uploadClip e2 w1 r2) in
  StatusCode (snd (uploadClip e1 w r1)) = StatusCreated ->
  StatusCode (snd (uploadClip e2 w1 r2)) = StatusCreated ->
  sentField r1 "bookingHourId" = sentField r2 "bookingHourId" ->
  sentFile r1 "video" = Some h1 -> sentFile r2 "video" = Some h2 ->
  Ext (Filename h1) = Ext (Filename h2) ->
  environ e1 = environ e2 ->
  year (time_Now e1) = year (time_Now e2) ->
  month (time_Now e1) = month (time_Now e2) ->
  day (time_Now e1) = day (time_Now e2) ->
  hour (time_Now e1) = hour (time_Now e2) ->
  minute (time_Now e1) = minute (time_Now e2) ->
  second (time_Now e1) = second (time_Now e2) ->
  exists row1 row2 path,
    Pg.clips (db w2) = (Pg.clips (db w) ++ [row1; row2])%list
    /\ Clip_ID row2 = Clip_ID row1 + 1
    /\ Clip_FilePath row1 = Pg.stored 500 path
    /\ Clip_FilePath row2 = Pg.stored 500 path
    /\ ((Pg.char_length path <= 500)%nat ->
        Clip_FilePath row1 = path /\ Clip_FilePath row2 = path)
    /\ Clip_FileSize row1 = Some (Size h1)
    /\ Clip_FileSize row2 = Some (Size h2)
    /\ files w2 !! path = Some (Size h2)
    /\ files w2 = <[path := Size h2]> (files w).
Proof.
  intros w1 w2 H1 H2 Hsame Hf1 Hf2 Hext Henv Hy Hmo Hd Hh Hmi Hs.
  destruct (uploadClip_created e1 w r1 H1)
    as (id1 & h1' & Hid1 & Hh1 & _ & Hdb1 & Hfiles1 & _).
  destruct (uploadClip_created e2 w1 r2 H2)
    as (id2 & h2' & Hid2 & Hh2 & _ & Hdb2 & Hfiles2 & _).
  fold w1 in Hdb1, Hfiles1. fold w2 in Hdb2, Hfiles2.
  rewrite Hf1 in Hh1. injection Hh1 as <-.
  rewrite Hf2 in Hh2. injection Hh2 as <-.
  rewrite Hsame, Hid2 in Hid1. injection Hid1 as <-.
  assert (Hseq : Pg.clips_id_seq (db w1) = Pg.clips_id_seq (db w) + 1)
    by (now rewrite Hdb1).
  assert (Hpath : uploadPath e1 id2 h1 = uploadPath e2 id2 h2).
  { unfold uploadPath, clipFilename, Format_20060102_150405.
    now rewrite Henv, Hext, Hy, Hmo, Hd, Hh, Hmi, Hs. }
  exists (uploadRow e1 w r1 id2 h1), (uploadRow e2 w1 r2 id2 h2),
    (uploadPath e1 id2 h1).
  split; [rewrite Hdb2, Hdb1; cbn [Pg.clips]; rewrite <- app_assoc; reflexivity|].
  split; [simpl; rewrite Hseq; reflexivity|].
  split; [reflexivity|].
  split; [cbn [uploadRow Pg.clip_row uploadAnswer Clip_FilePath];
          now rewrite Hpath|].
  split.
  { intros Hfit. cbn [uploadRow Pg.clip_row uploadAnswer Clip_FilePath].
    rewrite <- Hpath. now rewrite stored_fits. }
  split; [reflexivity|]. split; [reflexivity|].
  rewrite Hfiles2, Hfiles1, Hpath.
  split; [apply lookup_insert_eq | apply insert_insert_eq].
Qed.

Lemma uploadClip_same_second_overwrites_witness :
  exists row1 row2 path,
    Pg.clips (db (fst (uploadClip env0_later
                         (fst (uploadClip env0 world0 upload1)) upload1_again)))
    = [row1; row2]
    /\ Clip_FilePath row1 = Pg.stored 500 path
    /\ Clip_FilePath row2 = Pg.stored 500 path
    /\ Clip_FileSize row1 = Some 2048
    /\ files (fst (uploadClip env0_later
                     (fst (uploadClip env0 world0 upload1)) upload1_again))
         !! path = Some 512.
Proof.
  destruct (uploadClip_same_second_overwrites env0 env0_later world0 upload1
              upload1_again _ _ eq_refl eq_refl eq_refl eq_refl eq_refl eq_refl
              eq_refl eq_refl eq_refl eq_refl eq_refl eq_refl eq_refl)
    as (row1 & row2 & path & Hrows & _ & Hp1 & Hp2 & _ & Hsize1 & _ & Hfile & _).
  exists row1, row2, path. repeat split; assumption.
Defined.

(** ** The generated file name *)

Lemma has_byte_app (c : ascii) (a b : string) :
  has_byte c (a ++ b) = has_byte c a || has_byte c b.
Proof.
  induction a as [|x a IH]; [reflexivity|].
  rewrite append_cons. cbn [has_byte]. now rewrite IH, orb_assoc.
Qed.

Lemma string_of_uint_no_slash (d : Decimal.uint) :
  has_byte "/" (NilEmpty.string_of_uint d) = false.
Proof. induction d; simpl; auto. Qed.

Lemma NilZero_string_of_uint_no_slash (d : Decimal.uint) :
  has_byte "/" (NilZero.string_of_uint d) = false.
Proof.
  destruct d; try reflexivity; apply (string_of_uint_no_slash (_ d)).
Qed.

Lemma Itoa_no_slash (n : Z) : has_byte "/" (Itoa n) = false.
Proof.
  unfold Itoa, NilZero.string_of_int.
  destruct (Z.to_int n); [apply NilZero_string_of_uint_no_slash|].
  cbn [has_byte]. now rewrite NilZero_string_of_uint_no_slash.
Qed.

Lemma zeros_no_slash (n : nat) : has_byte "/" (zeros n) = false.
Proof. unfold zeros. induction n as [|n IH]; simpl; auto. Qed.

Lemma appendInt_no_slash (x : Z) (width : nat) :
  has_byte "/" (appendInt x width) = false.
Proof.
  unfold appendInt. rewrite !has_byte_app, zeros_no_slash,
    NilZero_string_of_uint_no_slash.
  now destruct (x <? 0).
Qed.

Lemma ext_scan_no_slash (s found : string) :
  found = "" \/ (exists pre, has_byte "/" pre = false /\ found = pre ++ s) ->
  has_byte "/" (ext_scan s found) = false.
Proof.
  revert found. induction s as [|c s IH]; intros found Hf; cbn [ext_scan].
  - destruct Hf as [-> | (pre & Hpre & ->)]; [reflexivity|].
    now rewrite append_empty_r.
  - destruct (Ascii.eqb c "/") eqn:Hslash; [apply IH; now left|].
    destruct (Ascii.eqb c ".") eqn:Hdot.
    + apply IH. right. exists (String c ""). split; [|reflexivity].
      cbn [has_byte]. now rewrite Hslash.
    + apply IH. destruct Hf as [-> | (pre & Hpre & ->)]; [now left|].
      right. exists (pre ++ String c ""). split.
      * rewrite has_byte_app, Hpre. cbn [has_byte]. now rewrite Hslash.
      * now rewrite append_snoc.
Qed.

Lemma Ext_no_slash (path : string) : has_byte "/" (Ext path) = false.
Proof. apply ext_scan_no_slash. now left. Qed.

(** X18: whatever file name the client sends (directories, "..", no
    extension), the name generated for the stored file starts with
    "clip_" and holds no path separator: the extension taken from the
    client's name is cut at its last slash. *)
Theorem clipFilename_no_separator (bookingHourID : Z) (now : Time)
    (original : string) :
  has_byte "/" (clipFilename bookingHourID now original) = false
  /\ has_prefix "clip_" (clipFilename bookingHourID now original) = true.
Proof.
  split; [|reflexivity].
  unfold clipFilename, Format_20060102_150405.
  rewrite !has_byte_app, !appendInt_no_slash, Itoa_no_slash, Ext_no_slash.
  reflexivity.
Qed.


(** ** What the service keeps true *)

Lemma NoDup_map_snoc {A B} (f : A -> B) (l : list A) (x : A) :
  List.NoDup (map f l) ->
  (forall y, In y l -> f y <> f x) ->
  List.NoDup (map f (l ++ [x])).
Proof.
  induction l as [|a l IH]; intros Hnd Hfresh; simpl.
  - constructor; [intros [] | constructor].
  - inversion Hnd as [|? ? Hnotin Hnd']; subst. constructor.
    + rewrite map_app, in_app_iff. intros [Hin | [Heq | []]].
      * exact (Hnotin Hin).
      * apply (Hfresh a); [now left | now symmetry].
    + apply IH; [exact Hnd'|]. intros y Hy. apply Hfresh. now right.
Qed.

Lemma court_exists_active_app (d d' : Pg.DB) (id : Z) (added : list Court) :
  Pg.courts d' = (Pg.courts d ++ added)%list ->
  Pg.court_exists_active d id = inr true ->
  Pg.court_exists_active d' id = inr true.
Proof.
  unfold Pg.court_exists_active. intros ->.
  destruct (Pg.integer id); [discriminate|].
  intros [= H]. now rewrite existsb_app, H.
Qed.

Lemma booking_hour_exists_app (d d' : Pg.DB) (id : Z) (added : list BookingHour) :
  Pg.booking_hours d' = (Pg.booking_hours d ++ added)%list ->
  Pg.booking_hour_exists d id = inr true ->
  Pg.booking_hour_exists d' id = inr true.
Proof.
  unfold Pg.booking_hour_exists. intros ->.
  destruct (Pg.integer id); [discriminate|].
  intros [= H]. now rewrite existsb_app, H.
Qed.

Lemma existsb_false_In {A} (f : A -> bool) (l : list A) (x : A) :
  existsb f l = false -> In x l -> f x = false.
Proof.
  intros H Hin. apply not_true_is_false. intros Hx.
  assert (Hex : existsb f l = true) by (apply existsb_exists; eauto).
  congruence.
Qed.

Lemma consistent_createCourt (e : Env) (w : World) (body : option Court) :
  consistent w -> consistent (fst (createCourt e w body)).
Proof.
  intros [C1 C2 C3 B1 B2 B3 K1 K2 K3 K4].
  unfold createCourt. destruct body as [court|]; [|now constructor].
  destruct (String.eqb _ _); [now constructor|].
  destruct (db_fault e 0%nat); [now constructor|].
  destruct (insert_court_outcome (db_now e) (Court_Name court)
              (Court_Description court) (db w))
    as [(err & -> & _) | [(err & -> & _) | (-> & _ & _ & Hpk & Hname)]].
  - destruct (match Pg.Code err with Some _ => _ | None => _ end);
      now constructor.
  - destruct (match Pg.Code err with Some _ => _ | None => _ end);
      constructor; simpl; auto; intros c Hc; specialize (C2 c Hc); lia.
  - constructor; simpl; auto.
    + apply NoDup_map_snoc; [exact C1|]. intros c Hc. simpl.
      apply Z.eqb_neq. exact (existsb_false_In _ _ c Hpk Hc).
    + intros c Hc. apply in_app_iff in Hc as [Hc | [<- | []]]; simpl;
        [specialize (C2 c Hc)|]; lia.
    + apply NoDup_map_snoc; [exact C3|]. intros c Hc. simpl.
      apply String.eqb_neq. exact (existsb_false_In _ _ c Hname Hc).
    + intros b Hb.
      eapply court_exists_active_app; [reflexivity | exact (B3 b Hb)].
Qed.

Lemma consistent_createBookingHour (e : Env) (w : World)
    (body : option BookingHour) :
  consistent w -> consistent (fst (createBookingHour e w body)).
Proof.
  intros [C1 C2 C3 B1 B2 B3 K1 K2 K3 K4].
  unfold createBookingHour. destruct body as [bh|]; [|now constructor].
  destruct (_ =? 0); [now constructor|].
  destruct (_ || _); [now constructor|].
  destruct (db_fault e 0%nat); [now constructor|]. cbn [Pg.answer].
  destruct (Pg.court_exists_active (db w) (BookingHour_CourtID bh))
    as [err|[|]] eqn:Hact;
    cbn [negb]; [now constructor | | now constructor].
  destruct (db_fault e 1%nat); [now constructor|].
  match goal with
  | |- context [Pg.insert_booking_hour ?t ?n ?c ?a ?b ?s ?d] =>
      destruct (insert_booking_hour_outcome t n c a b s d)
        as [(err & ->) | [(err & ->) | (-> & _ & _ & Hpk & _)]]
  end.
  - now constructor.
  - constructor; simpl; auto. intros b Hb. specialize (B2 b Hb). lia.
  - constructor; simpl; auto.
    + apply NoDup_map_snoc; [exact B1|]. intros b Hb. simpl.
      apply Z.eqb_neq. exact (existsb_false_In _ _ b Hpk Hb).
    + intros b Hb. apply in_app_iff in Hb as [Hb | [<- | []]]; simpl;
        [specialize (B2 b Hb)|]; lia.
    + intros b Hb. apply in_app_iff in Hb as [Hb | [<- | []]]; simpl.
      * exact (B3 b Hb).
      * exact Hact.
    + intros c Hc.
      eapply booking_hour_exists_app; [reflexivity | exact (K3 c Hc)].
Qed.

Lemma consistent_uploadClip (e : Env) (w : World) (r : UploadRequest) :
  consistent w -> consistent (fst (uploadClip e w r)).
Proof.
  intros [C1 C2 C3 B1 B2 B3 K1 K2 K3 K4].
  assert (K4' : forall p v c, In c (Pg.clips (db w)) ->
            exists path, is_Some (<[p := v]> (files w) !! path)
                         /\ Clip_FilePath c = Pg.stored 500 path).
  { intros p v c Hc. destruct (K4 c Hc) as (path & Hfile & Hpath).
    exists path. split; [now apply is_Some_insert_keeps | exact Hpath]. }
  unfold uploadClip.
  destruct (ParseMultipartForm _ _) as [form|]; [|now constructor].
  destruct (String.eqb _ _); [now constructor|].
  destruct (Atoi _) as [id|]; [|now constructor].
  destruct (db_fault e 0%nat); [now constructor|]. cbn [Pg.answer].
  destruct (Pg.booking_hour_exists (db w) id) as [err|[|]] eqn:Hex;
    cbn [negb]; [now constructor | | now constructor].
  destruct (FormFile _ _) as [handler|]; [|now constructor].
  destruct (mkdir_fault e); [now constructor|].
  destruct (create_fault e); [now constructor|].
  destruct (copy_fault e) as [written|].
  { constructor; simpl; auto. }
  destruct (db_fault e 1%nat).
  { constructor; simpl; auto. }
  match goal with
  | |- context [Pg.insert_clip ?n ?c ?d] =>
      destruct (insert_clip_outcome n c d)
        as [(err & ->) | [(err & ->) | (-> & _ & _ & Hpk & _)]]
  end; cbn [db files] in *.
  - constructor; simpl; auto.
  - constructor; simpl; auto. intros c Hc. specialize (K2 c Hc). lia.
  - constructor; simpl; auto.
    + apply NoDup_map_snoc; [exact K1|]. intros c Hc. simpl.
      apply Z.eqb_neq. exact (existsb_false_In _ _ c Hpk Hc).
    + intros c Hc. apply in_app_iff in Hc as [Hc | [<- | []]]; simpl;
        [specialize (K2 c Hc)|]; lia.
    + intros c Hc. apply in_app_iff in Hc as [Hc | [<- | []]]; simpl.
      * exact (K3 c Hc).
      * exact Hex.
    + intros c Hc. apply in_app_iff in Hc as [Hc | [<- | []]].
      * now apply K4'.
      * eexists. split; [|reflexivity]. rewrite lookup_insert_eq. eauto.
Qed.

Lemma consistent_serve (e : Env) (w : World) (r : Request) :
  consistent w -> consistent (fst (serve e w r)).
Proof.
  intros H. destruct r; simpl; try exact H.
  - now apply consistent_createCourt.
  - now apply consistent_createBookingHour.
  - now apply consistent_uploadClip.
Qed.

Lemma consistent_world_empty : consistent world_empty.
Proof.
  constructor; simpl; try constructor; intros ? [].
Qed.

(** X19: the service keeps the store and the disk consistent.  If, before
    a sequence of requests served in any environments, the ids of each
    table are distinct and not beyond the table's sequence, court names
    are distinct, every booking hour is on an active court, every clip
    belongs to an existing booking hour and has a file on disk under a
    path of which its file_path is what VARCHAR(500) keeps, then all of
    this holds afterwards; it holds in particular for every state reached
    from the empty store, faults included. *)
Theorem serveAll_consistent (w : World) (reqs : list (Env * Request)) :
  consistent w -> consistent (serveAll w reqs).
Proof.
  revert w. induction reqs as [|[e r] reqs IH]; intros w H; [exact H|].
  unfold serveAll. cbn [fold_left fst snd].
  apply IH. now apply consistent_serve.
Qed.

Lemma serveAll_consistent_witness :
  consistent (serveAll world_empty
                [(env0, POST_courts (Some courtX));
                 (env0, POST_courts (Some courtX'));
                 (env0, POST_booking_hours (Some bookingBackwards));
                 (env_insert_fails, POST_clips upload1);
                 (env0, POST_clips upload1)]).
Proof. exact (serveAll_consistent world_empty _ consistent_world_empty). Defined.

(** ** Finding a booking hour again *)

Lemma court_exists_active_int4 (d : Pg.DB) (id : Z) (found : bool) :
  Pg.court_exists_active d id = inr found -> Pg.int4 id = true.
Proof.
  unfold Pg.court_exists_active, Pg.integer.
  destruct (Pg.int4 id); [reflexivity | discriminate].
Qed.

(** POST /booking-hours answers 201 only after the insert: the answer
    carries the booking hour as sent, the table the row as its columns
    keep it. *)
Lemma createBookingHour_created_row (e : Env) (w : World) (bh : BookingHour) :
  StatusCode (snd (createBookingHour e w (Some bh))) = StatusCreated ->
  let status := if String.eqb (BookingHour_Status bh) "" then "active"
                else BookingHour_Status bh in
  Pg.int4 (BookingHour_CourtID bh) = true
  /\ Data (Body (snd (createBookingHour e w (Some bh))))
     = DataBookingHour
         {| BookingHour_ID := Pg.booking_hours_id_seq (db w) + 1;
            BookingHour_CourtID := BookingHour_CourtID bh;
            BookingHour_DateStart := BookingHour_DateStart bh;
            BookingHour_DateEnd := BookingHour_DateEnd bh;
            BookingHour_Status := status;
            BookingHour_CreatedAt := db_now e;
            BookingHour_UpdatedAt := db_now e |}
  /\ Pg.booking_hours (db (fst (createBookingHour e w (Some bh))))
     = (Pg.booking_hours (db w) ++
        [{| BookingHour_ID := Pg.booking_hours_id_seq (db w) + 1;
            BookingHour_CourtID := BookingHour_CourtID bh;
            BookingHour_DateStart := pg_timestamptz e (BookingHour_DateStart bh);
            BookingHour_DateEnd := pg_timestamptz e (BookingHour_DateEnd bh);
            BookingHour_Status := Pg.stored 50 status;
            BookingHour_CreatedAt := db_now e;
            BookingHour_UpdatedAt := db_now e |}])%list.
Proof.
  unfold createBookingHour.
  destruct (_ =? 0); [discriminate|].
  destruct (_ || _); [discriminate|].
  destruct (db_fault e 0%nat); [discriminate|]. cbn [Pg.answer].
  destruct (Pg.court_exists_active (db w) (BookingHour_CourtID bh))
    as [err|[|]] eqn:Hact; cbn [negb]; [discriminate | | discriminate].
  destruct (db_fault e 1%nat); [discriminate|].
  match goal with
  | |- context [Pg.insert_booking_hour ?t ?n ?c ?a ?b ?s ?d] =>
      destruct (insert_booking_hour_outcome t n c a b s d)
        as [(err & ->) | [(err & ->) | (-> & _)]]
  end; [discriminate | discriminate |].
  intros _. split; [exact (court_exists_active_int4 _ _ _ Hact)|].
  split; reflexivity.
Qed.

(** X20: a booking hour created by POST /booking-hours (201) can be read
    back: after any further requests, whenever the driver delivers the
    query, the list of GET /booking-hours and the list filtered by its
    court id hold a row with the id and the court id of the answer, whose
    dates are the dates sent as TIMESTAMP WITH TIME ZONE keeps them (the
    answer itself carries the dates as sent) and whose status is the
    answer's status as VARCHAR(50) keeps it. *)
Theorem createBookingHour_then_getBookingHours (e : Env) (w : World)
    (bh : BookingHour) (reqs : list (Env * Request)) (e' : Env) :
  StatusCode (snd (createBookingHour e w (Some bh))) = StatusCreated ->
  db_fault e' 0%nat = None ->
  let w1 := serveAll (fst (createBookingHour e w (Some bh))) reqs in
  exists answer row,
    Data (Body (snd (createBookingHour e w (Some bh)))) = DataBookingHour answer
    /\ BookingHour_CourtID answer = BookingHour_CourtID bh
    /\ BookingHour_DateStart answer = BookingHour_DateStart bh
    /\ BookingHour_DateEnd answer = BookingHour_DateEnd bh
    /\ row = {| BookingHour_ID := BookingHour_ID answer;
                BookingHour_CourtID := BookingHour_CourtID bh;
                BookingHour_DateStart :=
                  pg_timestamptz e (BookingHour_DateStart bh);
                BookingHour_DateEnd := pg_timestamptz e (BookingHour_DateEnd bh);
                BookingHour_Status := Pg.stored 50 (BookingHour_Status answer);
                BookingHour_CreatedAt := BookingHour_CreatedAt answer;
                BookingHour_UpdatedAt := BookingHour_UpdatedAt answer |}
    /\ In row (bookingHours_of (getBookingHours e' w1 ""))
    /\ (forall s, Atoi s = Some (BookingHour_CourtID bh) ->
          In row (bookingHours_of (getBookingHours e' w1 s))).
Proof.
  intros Hcreated Hup w1.
  destruct (createBookingHour_created_row e w bh Hcreated)
    as (Hfit & Hdata & Hrows).
  destruct (serveAll_grows_world (fst (createBookingHour e w (Some bh))) reqs)
    as (_ & [added Hadd] & _).
  fold w1 in Hadd.
  eexists. eexists. split; [exact Hdata|].
  split; [reflexivity|]. split; [reflexivity|]. split; [reflexivity|].
  split; [reflexivity|].
  cbn [BookingHour_ID BookingHour_Status BookingHour_CreatedAt
       BookingHour_UpdatedAt].
  match goal with
  | |- In ?row _ /\ _ =>
      assert (Hin1 : In row (Pg.booking_hours (db w1)))
  end.
  { rewrite Hadd, Hrows. apply in_or_app. left. apply in_or_app. right.
    now left. }
  split.
  - rewrite (getBookingHours_unfiltered _ _ Hup).
    unfold bookingHours_of, sendJSONResponse. cbn [Data Body].
    rewrite elems_collect.
    eapply Permutation_in; [apply order_by_desc_perm | exact Hin1].
  - intros s Hs. rewrite (getBookingHours_filtered _ _ _ _ Hup Hs).
    rewrite (select_booking_hours_int4 _ _ Hfit).
    unfold bookingHours_of, sendJSONResponse. cbn [Data Body].
    rewrite elems_collect.
    eapply Permutation_in; [apply order_by_desc_perm|].
    apply filter_In. split; [exact Hin1|]. apply Z.eqb_refl.
Qed.

Lemma createBookingHour_then_getBookingHours_witness :
  exists row,
    BookingHour_DateEnd row = sample_timestamptz t0_before
    /\ In row (bookingHours_of (getBookingHours env0
         (serveAll (fst (createBookingHour env0 world0 (Some bookingBackwards)))
            traceX) "1")).
Proof.
  destruct (createBookingHour_then_getBookingHours env0 world0 bookingBackwards
              traceX env0 eq_refl eq_refl)
    as (answer & row & _ & _ & _ & _ & Hrow & _ & Hlist).
  exists row. split; [now rewrite Hrow|]. now apply Hlist.
Defined.

